(** * MNI 7T DICOM to BIDS: the post-conversion patcher

    A shallow embedding of [src/mni_7t_dicom_to_bids/patch_files.py]:
    the file-name rules of [patch_file_path], the per-directory pass of
    [patch_files], the sidecar patches of [patch_json] and the MT flip angle
    lookup of [get_mt_flip_angle].

    Python state (the acquisition directory, the console) is threaded
    explicitly through a small state-and-exception monad; Python exceptions
    are values of [exn]. *)

From Stdlib Require Import ZArith String Ascii List Bool Lia DecimalString.
From Stdlib Require Import Floats Uint63 DecimalPos DecimalZ.
From stdpp Require Import base option list strings gmap fin_maps.

Local Open Scope string_scope.
Local Open Scope Z_scope.

Set Warnings "-register-all".

(** ** Python values used by the module *)

Module Py.

(** The exceptions that the modelled code and its primitives raise. *)
Inductive exn : Type :=
| ValueError
| OverflowError
| IndexError
| FileNotFoundError
| OSError
| InvalidDicomError
| JSONDecodeError.

(** [str.isspace] on the ASCII range, as [int] skips it around a literal. *)
Definition is_space (c : ascii) : bool :=
  let n := nat_of_ascii c in
  ((9 <=? n)%nat && (n <=? 13)%nat) || (n =? 32)%nat.

Definition is_digit (c : ascii) : bool :=
  let n := nat_of_ascii c in (48 <=? n)%nat && (n <=? 57)%nat.

Definition digit_value (c : ascii) : Z := Z.of_nat (nat_of_ascii c) - 48.

Fixpoint lstrip (s : string) : string :=
  match s with
  | String c s' => if is_space c then lstrip s' else s
  | EmptyString => EmptyString
  end.

Definition rstrip (s : string) : string :=
  String.rev (lstrip (String.rev s)).

Definition strip (s : string) : string := rstrip (lstrip s).

(** The digits of a decimal literal: one or more digits, where a single
    underscore may stand between two digits. [after_digit] records whether
    the previous character was a digit. *)
Fixpoint int_digits (acc : Z) (after_digit : bool) (s : string) : option Z :=
  match s with
  | EmptyString => if after_digit then Some acc else None
  | String c s' =>
      if is_digit c then int_digits (10 * acc + digit_value c) true s'
      else if Ascii.eqb c "_" then
        if after_digit then int_digits acc false s' else None
      else None
  end.

(** [s.isascii()] *)
Fixpoint is_ascii (s : string) : bool :=
  match s with
  | EmptyString => true
  | String c s' => (nat_of_ascii c <? 128)%nat && is_ascii s'
  end.

(** [int(s)] for a [str] of ASCII characters in base 10: surrounding white
    space, an optional sign, then the digits. [None] stands for
    [ValueError]. On other text the interpreter also reads the decimal
    digits and the white space of Unicode, which the model does not decode:
    a result [Some] is the interpreter's on every text, a result [None] is
    the interpreter's [ValueError] on ASCII text. The interpreter's optional
    cap on very long digit strings is not part of the model. *)
Definition int_of_str (s : string) : option Z :=
  match strip s with
  | String "-" r => Z.opp <$> int_digits 0 false r
  | String "+" r => int_digits 0 false r
  | t => int_digits 0 false t
  end.

(** [str(n)] for an [int]. *)
Definition str_of_int (n : Z) : string :=
  NilZero.string_of_int (Z.to_int n).

(** The binary64 value nearest to the integer [n], ties to even, as an
    integer again (every binary64 of magnitude at least 2^53 is one). *)
Definition round_binary64 (n : Z) : Z :=
  let a := Z.abs n in
  let bits := Z.log2 a + 1 in
  if bits <=? 53 then n
  else
    let sh := bits - 53 in
    let q := Z.shiftr a sh in
    let r := a mod 2 ^ sh in
    let half := 2 ^ (sh - 1) in
    let q' := if (half <? r) || ((r =? half) && Z.odd q) then q + 1 else q in
    Z.sgn n * Z.shiftl q' sh.

(** [math.ceil(n / 2)]: [n / 2] is true division, whose result is the
    binary64 nearest to the quotient ([OverflowError] when that is out of
    range); halving is exact in binary64, so the quotient is
    [round_binary64 n / 2], and [math.ceil] of it is an [int]. *)
Definition ceil_half (n : Z) : exn + Z :=
  let m := round_binary64 n in
  if 2 ^ 1025 <=? Z.abs m then inl OverflowError
  else inr ((m + 1) / 2).

End Py.

(** ** Strings: splitting and joining *)

Module Str.

(** [s.split(sep)] for a one-character separator: never empty. *)
Fixpoint split (sep : ascii) (s : string) : list string :=
  match s with
  | EmptyString => [EmptyString]
  | String c s' =>
      if Ascii.eqb c sep then EmptyString :: split sep s'
      else match split sep s' with
           | t :: ts => String c t :: ts
           | [] => [String c EmptyString]
           end
  end.

(** [s.partition(sep)]: the text before the first separator, and the text
    after it when there is one. *)
Fixpoint partition (sep : ascii) (s : string) : string * option string :=
  match s with
  | EmptyString => (EmptyString, None)
  | String c s' =>
      if Ascii.eqb c sep then (EmptyString, Some s')
      else let '(a, b) := partition sep s' in (String c a, b)
  end.

Fixpoint join (sep : string) (l : list string) : string :=
  match l with
  | [] => EmptyString
  | [x] => x
  | x :: l' => x ++ sep ++ join sep l'
  end.

Fixpoint is_prefix (p s : string) : bool :=
  match p, s with
  | EmptyString, _ => true
  | String a p', String b s' => Ascii.eqb a b && is_prefix p' s'
  | String _ _, EmptyString => false
  end.

(** [p in s] *)
Fixpoint contains (p s : string) : bool :=
  is_prefix p s ||
  match s with
  | EmptyString => false
  | String _ s' => contains p s'
  end.

Definition is_suffix (p s : string) : bool :=
  is_prefix (String.rev p) (String.rev s).

Fixpoint drop (n : nat) (s : string) : string :=
  match n, s with
  | S n', String _ s' => drop n' s'
  | _, _ => s
  end.

(** [s.removesuffix(p)] *)
Definition drop_suffix (p s : string) : string :=
  if is_suffix p s
  then String.rev (drop (String.length p) (String.rev s))
  else s.

End Str.


(** ** The structured file name

    Modelled from the spec: the class [BidsName] of
    [mni_7t_dicom_to_bids.dataclass] is not part of the sources at hand. The
    spec describes it as an ordered sequence of key-value or bare components
    with unique keys plus a file extension, with an existence check of a key,
    an existence check of a key-value pair, a regex search over the raw
    string, add and remove of a component, and a deterministic serialization.
    Tokens are separated by an underscore and a key from its value by a
    hyphen, as in the spec's examples ([acq-anat_run-2]). Where the spec is
    silent the model takes the plainest reading: a new component goes to the
    end of the sequence, adding an existing key replaces its value in place,
    and removing an absent key does nothing (the source removes [run] without
    checking for it). *)

Module BidsName.

Record t : Type := mk {
  parts : list (string * option string);
  extension : string;
}.

(** [bids_name.has(key)] *)
Definition has (n : t) (key : string) : bool :=
  existsb (fun p => String.eqb (fst p) key) (parts n).

Fixpoint lookup_part (key : string) (l : list (string * option string))
  : option (option string) :=
  match l with
  | [] => None
  | (k, v) :: l' => if String.eqb k key then Some v else lookup_part key l'
  end.

(** [bids_name.get(key)]: the value of the component, [None] when the key is
    absent or the component is bare *)
Definition get (n : t) (key : string) : option string :=
  match lookup_part key (parts n) with
  | Some v => v
  | None => None
  end.

(** [bids_name.has_value(key, value)] *)
Definition has_value (n : t) (key value : string) : bool :=
  match get n key with
  | Some v => String.eqb v value
  | None => false
  end.

Fixpoint remove_part (key : string) (l : list (string * option string))
  : list (string * option string) :=
  match l with
  | [] => []
  | (k, v) :: l' =>
      if String.eqb k key then remove_part key l' else (k, v) :: remove_part key l'
  end.

(** [bids_name.remove(key)] *)
Definition remove (n : t) (key : string) : t :=
  mk (remove_part key (parts n)) (extension n).

Fixpoint set_part (key : string) (value : option string)
  (l : list (string * option string)) : list (string * option string) :=
  match l with
  | [] => [(key, value)]
  | (k, v) :: l' =>
      if String.eqb k key then (k, value) :: l' else (k, v) :: set_part key value l'
  end.

(** [bids_name.add(key, value)]; [bids_name.add(key)] is [add n key None] *)
Definition add (n : t) (key : string) (value : option string) : t :=
  mk (set_part key value (parts n)) (extension n).

Definition part_of_token (token : string) : string * option string :=
  Str.partition "-" token.

Definition token_of_part (p : string * option string) : string :=
  match p with
  | (k, Some v) => k ++ "-" ++ v
  | (k, None) => k
  end.

(** [BidsName.from_string(name)]: the extension is what follows the first
    dot, the components are the tokens of what precedes it. *)
Definition from_string (name : string) : t :=
  let '(stem, ext) := Str.partition "." name in
  let tokens := map part_of_token (Str.split "_" stem) in
  mk (fold_left (fun l p => set_part (fst p) (snd p) l) tokens [])
     (default EmptyString ext).

(** [str(bids_name)] *)
Definition to_string (n : t) : string :=
  let stem := Str.join "_" (map token_of_part (parts n)) in
  if String.eqb (extension n) EmptyString then stem
  else stem ++ "." ++ extension n.

(** The leftmost [e<digit>] of a string: the whole match and its group 1. *)
Fixpoint search_echo (s : string) : option (string * string) :=
  match s with
  | EmptyString => None
  | String c s' =>
      match s' with
      | String d _ =>
          if Ascii.eqb c "e" && Py.is_digit d
          then Some (String c (String d EmptyString), String d EmptyString)
          else search_echo s'
      | EmptyString => None
      end
  end.

(** [bids_name.match(r'e(\d)')]: the regex search over the raw string *)
Definition match_echo (n : t) : option (string * string) :=
  search_echo (to_string n).

End BidsName.


(** ** The world the patcher runs in *)

(** A JSON value; numbers are either integers or binary64 floats. *)
Inductive json : Type :=
| JNull
| JBool (b : bool)
| JInt (n : Z)
| JFloat (x : float)
| JString (s : string)
| JArray (l : list json)
| JObject (l : list (string * json)).

(** What [pydicom.dcmread] gives the module: of a data set only the element
    tagged (0029,1020) is read, and of that only [str(element.value)]. *)
Record dataset : Type := {
  csa_header : option string;
}.

(** A file: a JSON document that is an object (a sidecar), a DICOM data set,
    or anything else. *)
Inductive file : Type :=
| JsonFile (obj : gmap string json)
| DicomFile (d : dataset)
| OtherFile.

Inductive message : Type :=
| Info (text : string)
| Warning (text : string).

(** The acquisition directory is a finite map from entry names to files (the
    model has no sub-directories), the DICOM files of the series live in a
    store of their own, keyed by path. [console] collects what is printed and
    [visited] is ghost state: the entries the per-file pass has taken up, in
    order. No modelled code reads [visited]. *)
Record world : Type := {
  acq_dir : gmap string file;
  dicom_store : gmap string file;
  console : list message;
  visited : list string;
}.

(** Modelled from the spec: the class [DicomSeriesInfo] of
    [mni_7t_dicom_to_bids.dataclass], an identifier plus the ordered file
    paths of a series. The module reads the paths only. *)
Record DicomSeriesInfo : Type := {
  file_paths : list string;
}.

Inductive outcome (A : Type) : Type :=
| Return (a : A)
| Raise (e : Py.exn).
Arguments Return {A} a.
Arguments Raise {A} e.

(** A computation: runs in a world, returns or raises, leaves a world. *)
Definition M (A : Type) : Type := world -> outcome A * world.

#[global] Instance M_ret : MRet M := fun A a w => (Return a, w).

#[global] Instance M_bind : MBind M := fun A B f m w =>
  match m w with
  | (Return a, w') => f a w'
  | (Raise e, w') => (Raise e, w')
  end.

Definition raise {A : Type} (e : Py.exn) : M A := fun w => (Raise e, w).

(** [for x in l: body(x)] *)
Fixpoint for_each {A : Type} (l : list A) (body : A -> M unit) : M unit :=
  match l with
  | [] => mret tt
  | x :: l' => body x ;; for_each l' body
  end.

Definition set_acq_dir (d : gmap string file) (w : world) : world :=
  {| acq_dir := d; dicom_store := dicom_store w;
     console := console w; visited := visited w |}.

(** [print(text)] *)
Definition print (text : string) : M unit := fun w =>
  (Return tt,
   {| acq_dir := acq_dir w; dicom_store := dicom_store w;
      console := console w ++ [Info text]; visited := visited w |}).

(** [bic_util.print.print_warning(text)] *)
Definition print_warning (text : string) : M unit := fun w =>
  (Return tt,
   {| acq_dir := acq_dir w; dicom_store := dicom_store w;
      console := console w ++ [Warning text]; visited := visited w |}).

(** Ghost step: note that the per-file pass takes up [name]. *)
Definition visit (name : string) : M unit := fun w =>
  (Return tt,
   {| acq_dir := acq_dir w; dicom_store := dicom_store w;
      console := console w; visited := visited w ++ [name] |}).

(** [file_path.unlink()] *)
Definition unlink (name : string) : M unit := fun w =>
  match acq_dir w !! name with
  | Some _ => (Return tt, set_acq_dir (delete name (acq_dir w)) w)
  | None => (Raise Py.FileNotFoundError, w)
  end.

(** The longest entry name that the file system takes, in bytes: 255 on the
    common file systems. *)
Definition name_max : nat := 255.

(** [bic_util.fs.rename_file(file_path, new_name)]: the file moves to the new
    name in the same directory, replacing what was there; the file system
    refuses a name longer than [name_max] with [OSError]. *)
Definition rename_file (name new_name : string) : M unit := fun w =>
  match acq_dir w !! name with
  | Some f =>
      if (name_max <? String.length new_name)%nat then (Raise Py.OSError, w)
      else (Return tt, set_acq_dir (<[new_name := f]> (delete name (acq_dir w))) w)
  | None => (Raise Py.FileNotFoundError, w)
  end.

(** [acquisition_dir_path.iterdir()], as CPython runs it: the generator
    calls [os.listdir] when the loop asks for its first entry, and yields
    from that list afterwards. *)
Definition iterdir : M (list string) := fun w =>
  (Return (map fst (map_to_list (acq_dir w))), w).

(** The glob pattern [*<marker>*.json] on an entry name. *)
Definition glob_json (marker name : string) : bool :=
  Str.is_suffix ".json" name && Str.contains marker (Str.drop_suffix ".json" name).

(** [acquisition_path.rglob('*<marker>*.json')]: the recursive glob goes
    through the sub-directories as well; the directory of the model has
    none, so the glob sees the entries that [iterdir] lists. *)
Definition rglob_json (marker : string) : M (list string) := fun w =>
  (Return (List.filter (glob_json marker) (map fst (map_to_list (acq_dir w)))), w).

(** [bic_util.json.update_json(json_path, fields)]: the object of the file is
    updated with [fields], as [dict.update] does, and written back. *)
Definition update_json (name : string) (fields : gmap string json) : M unit := fun w =>
  match acq_dir w !! name with
  | Some (JsonFile obj) =>
      (Return tt, set_acq_dir (<[name := JsonFile (fields ∪ obj)]> (acq_dir w)) w)
  | Some _ => (Raise Py.JSONDecodeError, w)
  | None => (Raise Py.FileNotFoundError, w)
  end.

(** [pydicom.dcmread(path)] *)
Definition dcmread (path : string) : M dataset := fun w =>
  match dicom_store w !! path with
  | Some (DicomFile d) => (Return d, w)
  | Some _ => (Raise Py.InvalidDicomError, w)
  | None => (Raise Py.FileNotFoundError, w)
  end.


(** ** [patch_file_path]: the file-name rules

    Each rule of the source is an [if] that mutates the one [bids_name] of the
    file; here each is a guard (the condition of the [if]) and a function from
    the name before to the name after, and [rename_rules] chains the rules in
    the order of the source. *)

(** Replace 'e?' by 'echo-?' *)
Definition replace_echo (n : BidsName.t) : BidsName.t :=
  match BidsName.match_echo n with
  | Some (whole, digit) =>
      BidsName.add (BidsName.remove n whole) "echo" (Some digit)
  | None => n
  end.

(** Remove 'run-?' from echo files (there can be several 'task-rest' runs per
    acquisition). *)
Definition echo_run_guard (n : BidsName.t) : bool :=
  BidsName.has n "echo" && BidsName.has n "run"
  && negb (BidsName.has_value n "task" "rest").

Definition drop_run_of_echo (n : BidsName.t) : BidsName.t :=
  if echo_run_guard n then BidsName.remove n "run" else n.

(** Remove 'run-?' from MTR files. *)
Definition mtw_run_guard (n : BidsName.t) : bool :=
  BidsName.has_value n "acq" "mtw" && BidsName.has n "run".

Definition drop_run_of_mtw (n : BidsName.t) : BidsName.t :=
  if mtw_run_guard n then BidsName.remove n "run" else n.

(** Replace 'ph' with 'part-phase'. *)
Definition ph_guard (n : BidsName.t) : bool :=
  BidsName.has n "ph".

Definition replace_ph (n : BidsName.t) : BidsName.t :=
  if ph_guard n
  then BidsName.add (BidsName.remove n "ph") "part" (Some "phase")
  else n.

(** Add 'part-mag' to T2 files with echo *)
Definition part_mag_guard (n : BidsName.t) : bool :=
  BidsName.has n "T2starw" && BidsName.has n "echo"
  && negb (BidsName.has n "part").

Definition add_part_mag (n : BidsName.t) : BidsName.t :=
  if part_mag_guard n then BidsName.add n "part" (Some "mag") else n.

(** Replace standalone 'T2starw' with 'T2starmap'. *)
Definition t2starmap_guard (n : BidsName.t) : bool :=
  BidsName.has_value n "acq" "aspire" && BidsName.has n "T2starw"
  && negb (BidsName.has n "desc") && negb (BidsName.has n "part").

Definition replace_t2starw (n : BidsName.t) : BidsName.t :=
  if t2starmap_guard n
  then BidsName.add
         (BidsName.remove (BidsName.remove n "run") "T2starw") "T2starmap" None
  else n.

(** Remove 'run-1' in 7T DWI acquisitions. *)
Definition dwi_run_1_guard (n : BidsName.t) : bool :=
  BidsName.has n "dwi" && BidsName.has_value n "run" "1".

Definition drop_dwi_run_1 (n : BidsName.t) : BidsName.t :=
  if dwi_run_1_guard n then BidsName.remove n "run" else n.

(** Replace 'run-2' with 'part-phase' in 7T DWI acquisitions. *)
Definition dwi_run_2_guard (n : BidsName.t) : bool :=
  BidsName.has n "dwi" && BidsName.has_value n "run" "2".

Definition replace_dwi_run_2 (n : BidsName.t) : BidsName.t :=
  if dwi_run_2_guard n
  then BidsName.add (BidsName.remove n "run") "part" (Some "phase")
  else n.

(** [int(bids_name.get('run') or 0)]: an absent and an empty value both count
    as 0; [None] stands for the [ValueError] of [int]. *)
Definition run_number_of (n : BidsName.t) : option Z :=
  match BidsName.get n "run" with
  | Some s => if String.eqb s EmptyString then Some 0 else Py.int_of_str s
  | None => Some 0
  end.

(** Apply the TB1TFL-specific post processing. *)
Definition apply_tb1tfl (n : BidsName.t) : Py.exn + BidsName.t :=
  if BidsName.has n "TB1TFL" then
    match run_number_of n with
    | None => inl Py.ValueError
    | Some run_number =>
        let acquisition_name :=
          if run_number mod 2 =? 1 then "anat" else "sfam" in
        let n := BidsName.add n "acq" (Some acquisition_name) in
        match Py.ceil_half run_number with
        | inl e => inl e
        | inr half => inr (BidsName.add n "run" (Some (Py.str_of_int half)))
        end
    end
  else inr n.

(** The rules up to the TB1TFL one: none of them raises. *)
Definition rules_before_tb1tfl (n : BidsName.t) : BidsName.t :=
  replace_dwi_run_2 (drop_dwi_run_1 (replace_t2starw (add_part_mag
    (replace_ph (drop_run_of_mtw (drop_run_of_echo (replace_echo n))))))).

(** The whole rule sequence of a file that is not deleted. *)
Definition rename_rules (n : BidsName.t) : Py.exn + BidsName.t :=
  apply_tb1tfl (rules_before_tb1tfl n).

(** Delete the bval and bvec files from MP2RAGE acquisitions. *)
Definition is_mp2rage_gradient (n : BidsName.t) : bool :=
  BidsName.has n "MP2RAGE"
  && (String.eqb (BidsName.extension n) "bval"
      || String.eqb (BidsName.extension n) "bvec").

Definition patch_file_path (name : string) : M unit :=
  let bids_name := BidsName.from_string name in
  if is_mp2rage_gradient bids_name then
    print ("Remove MP2RAGE bval/bvec file '" ++ name ++ "'") ;;
    unlink name
  else if BidsName.has bids_name "ROI1" then
    print ("Remove ROI file '" ++ name ++ "'") ;;
    unlink name
  else
    match rename_rules bids_name with
    | inl e => raise e
    | inr bids_name =>
        let new_file_name := BidsName.to_string bids_name in
        if negb (String.eqb new_file_name name) then
          print ("Renaming '" ++ name ++ "' to '" ++ new_file_name ++ "'.") ;;
          rename_file name new_file_name
        else mret tt
    end.


(** ** [get_mt_flip_angle] and [patch_json] *)

(** The fixed text of the pattern
    [sWipMemBlock\.adFree\[2\]\\t = \\t(.+?)\\n]: the tabs and the line end
    are matched in their escaped spelling, a backslash and a letter. *)
Definition mt_prefix : string := "sWipMemBlock.adFree[2]\t = \t".
Definition mt_terminator : string := "\n".

(** [(.+?)\\n] at the head of [s]: the shortest non-empty run of characters
    other than a line feed that the terminator follows. *)
Fixpoint lazy_capture (s : string) : option string :=
  match s with
  | EmptyString => None
  | String c s' =>
      if Ascii.eqb c "010" then None
      else if Str.is_prefix mt_terminator s' then Some (String c EmptyString)
      else String c <$> lazy_capture s'
  end.

(** [re.search(pattern, text)]: group 1 of the leftmost match. *)
Fixpoint search_mt_flip_angle (text : string) : option string :=
  let here :=
    if Str.is_prefix mt_prefix text
    then lazy_capture (Str.drop (String.length mt_prefix) text)
    else None in
  match here with
  | Some captured => Some captured
  | None =>
      match text with
      | EmptyString => None
      | String _ text' => search_mt_flip_angle text'
      end
  end.

(** [l[0]] *)
Definition first_item {A : Type} (l : list A) : M A :=
  match l with
  | x :: _ => mret x
  | [] => raise Py.IndexError
  end.

Section SidecarPatches.

(** [float(s)] for a [str]; [None] stands for its [ValueError]. The
    conversion of a decimal literal to binary64 is left to the interpreter:
    the development holds for every such function. *)
Variable float_of_str : string -> option float.

Definition get_mt_flip_angle (dicom_series : DicomSeriesInfo) : M (option float) :=
  (* Read a DICOM file from the DICOM series. *)
  path ← first_item (file_paths dicom_series);
  dicom ← dcmread path;
  (* Get the Siemens CSA header of the DICOM file. *)
  match csa_header dicom with
  | None => mret None
  | Some text =>
      (* Get the MT flip angle attribute from the Siemens CSA header. *)
      match search_mt_flip_angle text with
      | None => mret None
      | Some captured =>
          (* Convert the MT flip angle from a string to a number. *)
          match float_of_str captured with
          | Some x => mret (Some x)
          | None =>
              print_warning ("Expected numeric MT flip angle but found value '"
                             ++ captured ++ "'.") ;;
              mret None
          end
      end
  end.

Definition patch_json (dicom_series : DicomSeriesInfo) : M unit :=
  (* Add 'Units' to 'part-phase' scans. *)
  json_paths ← rglob_json "part-phase";
  for_each json_paths (fun json_path =>
    update_json json_path {[ "Units" := JString "rad" ]}) ;;
  (* Add 'MTState' to 'mt-off' scans. *)
  json_paths ← rglob_json "mt-off";
  for_each json_paths (fun json_path =>
    update_json json_path {[ "MTState" := JBool false ]}) ;;
  (* Add 'MTState' to 'mt-on' scans. *)
  json_paths ← rglob_json "mt-on";
  for_each json_paths (fun json_path =>
    update_json json_path {[ "MTState" := JBool true ]}) ;;
  (* Add 'MTFlipAngle' to the neuromelanin scans. *)
  json_paths ← rglob_json "neuromelaninMTw";
  for_each json_paths (fun json_path =>
    mt_flip_angle ← get_mt_flip_angle dicom_series;
    match mt_flip_angle with
    | Some x => update_json json_path {[ "MTFlipAngle" := JFloat x ]}
    | None => mret tt
    end).

(** ** [patch_files] *)

Definition patch_files (dicom_series : DicomSeriesInfo) : M unit :=
  file_paths ← iterdir;
  for_each file_paths (fun file_path =>
    visit file_path ;;
    patch_file_path file_path) ;;
  patch_json dicom_series.

End SidecarPatches.


(** * Notions for the statements *)

(** Whether a look-up found a component. *)
Definition present (o : option (option string)) : bool :=
  match o with Some _ => true | None => false end.

(** No rule before the TB1TFL one has removed the run of the name. *)
Definition run_kept (n : BidsName.t) : Prop :=
  BidsName.get (rules_before_tb1tfl n) "run" = BidsName.get n "run".

(** The file system takes the serialized name [n']. *)
Definition fits (n' : BidsName.t) : Prop :=
  (String.length (BidsName.to_string n') <= name_max)%nat.

(** [patch_file_path] returns on the file [name] and leaves it under the
    serialized name [n']. *)
Definition file_patched_as (name : string) (w : world) (n' : BidsName.t) : Prop :=
  exists w',
    patch_file_path name w = (Return tt, w')
    /\ acq_dir w' !! BidsName.to_string n' = acq_dir w !! name.

(** The fields that [patch_json] may write into the sidecar [name]. *)
Definition may_set (name key : string) : Prop :=
  (key = "Units" /\ glob_json "part-phase" name = true)
  \/ (key = "MTState"
      /\ (glob_json "mt-off" name = true \/ glob_json "mt-on" name = true))
  \/ (key = "MTFlipAngle" /\ glob_json "neuromelaninMTw" name = true).

(** The fields that [patch_json] may write into the sidecar [name] when the
    flip angle is resolved only if [resolved] holds. *)
Definition may_set_when (resolved : Prop) (name key : string) : Prop :=
  (key = "Units" /\ glob_json "part-phase" name = true)
  \/ (key = "MTState"
      /\ (glob_json "mt-off" name = true \/ glob_json "mt-on" name = true))
  \/ (key = "MTFlipAngle" /\ glob_json "neuromelaninMTw" name = true /\ resolved).

(** [w'] comes from [w] by writes into sidecars that stay within [allowed]:
    the DICOM store and the ghost state are as before, a sidecar is still a
    sidecar with every field outside [allowed] as before and no field lost,
    and every other entry is as before. *)
Definition sidecar_frame (allowed : string -> string -> Prop) (w w' : world) : Prop :=
  dicom_store w' = dicom_store w
  /\ visited w' = visited w
  /\ forall name,
       match acq_dir w !! name with
       | Some (JsonFile obj) =>
           exists obj',
             acq_dir w' !! name = Some (JsonFile obj')
             /\ (forall key, ~ allowed name key -> obj' !! key = obj !! key)
             /\ (forall key, is_Some (obj !! key) -> is_Some (obj' !! key))
       | other => acq_dir w' !! name = other
       end.

(** A loop of [patch_json]: the sidecars that match a marker, one after the
    other. *)
Definition stage (marker : string) (body : string -> M unit) : M unit :=
  json_paths ← rglob_json marker;
  for_each json_paths body.

(** Every run of [m] relates the world before to the world after by [R]. *)
Definition respects {A : Type} (R : world -> world -> Prop) (m : M A) : Prop :=
  forall w r w', m w = (r, w') -> R w w'.

(** The sidecar [name] carries the flip angle [x]. *)
Definition has_flip_angle (name : string) (x : float) (w : world) : Prop :=
  exists obj, acq_dir w !! name = Some (JsonFile obj)
              /\ obj !! "MTFlipAngle" = Some (JFloat x).

(** [c in s] *)
Fixpoint has_char (c : ascii) (s : string) : bool :=
  match s with
  | EmptyString => false
  | String d s' => Ascii.eqb d c || has_char c s'
  end.

(** A component that serializes to a token which parses back to it. *)
Definition clean_part (p : string * option string) : Prop :=
  has_char "_" (fst p) = false /\ has_char "-" (fst p) = false
  /\ has_char "." (fst p) = false
  /\ match snd p with
     | Some v => has_char "_" v = false /\ has_char "." v = false
     | None => True
     end.

(** A name as [from_string] builds it: at least one component, no key twice,
    and no separator inside a component. *)
Definition well_formed (n : BidsName.t) : Prop :=
  BidsName.parts n ≠ []
  /\ NoDup (map fst (BidsName.parts n))
  /\ Forall clean_part (BidsName.parts n).

(** Components without a key twice and without a separator inside. *)
Definition tidy (l : list (string * option string)) : Prop :=
  NoDup (map fst l) /\ Forall clean_part l.

Section FlipAngleNotions.

Variable float_of_str : string -> option float.

(** The body of the neuromelanin loop. *)
Definition set_mt_flip_angle (dicom_series : DicomSeriesInfo) (json_path : string)
  : M unit :=
  mt_flip_angle ← get_mt_flip_angle float_of_str dicom_series;
  match mt_flip_angle with
  | Some x => update_json json_path {[ "MTFlipAngle" := JFloat x ]}
  | None => mret tt
  end.

(** [get_mt_flip_angle] resolves the value [x] in the world [w]. *)
Definition resolves (dicom_series : DicomSeriesInfo) (w : world) (x : float) : Prop :=
  fst (get_mt_flip_angle float_of_str dicom_series w) = Return (Some x).

End FlipAngleNotions.

(** ** Notions for the further properties *)

(** The rules between the echo rule and the TB1TFL rule. *)
Definition rules_after_echo (a : BidsName.t) : BidsName.t :=
  replace_dwi_run_2 (drop_dwi_run_1 (replace_t2starw (add_part_mag
    (replace_ph (drop_run_of_mtw (drop_run_of_echo a)))))).

(** The first three loops of [patch_json], which write fixed fields. *)
Definition field_stages : M unit :=
  stage "part-phase" (fun p => update_json p {[ "Units" := JString "rad" ]}) ;;
  stage "mt-off" (fun p => update_json p {[ "MTState" := JBool false ]}) ;;
  stage "mt-on" (fun p => update_json p {[ "MTState" := JBool true ]}).

(** Every entry of the directory whose name ends in [.json] is a JSON
    object. *)
Definition json_entries_are_objects (w : world) : Prop :=
  forall name f,
    acq_dir w !! name = Some f -> Str.is_suffix ".json" name = true ->
    exists obj, f = JsonFile obj.

(** [w'] comes from [w] by deleting and renaming entries of the directory:
    the DICOM store is as before, the directory has no more entries than
    before, and every file in it was there before, under some name. *)
Definition moved_only (w w' : world) : Prop :=
  dicom_store w' = dicom_store w
  /\ (size (acq_dir w') <= size (acq_dir w))%nat
  /\ forall name f, acq_dir w' !! name = Some f ->
                    exists name0, acq_dir w !! name0 = Some f.

(** The per-file pass of [patch_files]. *)
Definition per_file_pass : M unit :=
  file_paths ← iterdir;
  for_each file_paths (fun file_path =>
    visit file_path ;;
    patch_file_path file_path).

(** The exceptions of [update_json]. *)
Definition sidecar_exn (e : Py.exn) : Prop :=
  e = Py.FileNotFoundError \/ e = Py.JSONDecodeError.

Definition is_object (f : file) : bool :=
  match f with
  | JsonFile _ => true
  | _ => false
  end.

(** [json_entries_are_objects], as a check over the listing. *)
Definition json_entries_checked (w : world) : bool :=
  forallb (fun e => implb (Str.is_suffix ".json" (fst e)) (is_object (snd e)))
    (map_to_list (acq_dir w)).

(** No entry of the directory matches the pattern of [marker]. *)
Definition no_entry_matches (marker : string) (w : world) : bool :=
  forallb (fun name => negb (glob_json marker name))
    (map fst (map_to_list (acq_dir w))).

(** A run of the per-file pass over a listing: every entry is in the
    directory when its turn comes, [patch_file_path] is applied to it in the
    state that the entries before it have left, and the pass ends with the
    listing or with the first exception. *)
Inductive pass_run : list string -> world -> outcome unit -> world -> Prop :=
| pass_end w :
    pass_run [] w (Return tt) w
| pass_next name l w w1 r w2 :
    is_Some (acq_dir w !! name) ->
    (visit name ;; patch_file_path name) w = (Return tt, w1) ->
    pass_run l w1 r w2 ->
    pass_run (name :: l) w r w2
| pass_raise name l w e w1 :
    is_Some (acq_dir w !! name) ->
    (visit name ;; patch_file_path name) w = (Raise e, w1) ->
    pass_run (name :: l) w (Raise e) w1.

(** The name without the component that the echo rule removes. *)
Definition without_marker (n : BidsName.t) : BidsName.t :=
  match BidsName.match_echo n with
  | Some (whole, _) => BidsName.remove n whole
  | None => n
  end.

(** A component without [e<digit>] in its key and in its value. *)
Definition echo_free_part (p : string * option string) : Prop :=
  BidsName.search_echo (fst p) = None
  /\ match snd p with
     | Some v => BidsName.search_echo v = None
     | None => True
     end.

(** A name without [e<digit>] in its components and in its extension. *)
Definition echo_free (n : BidsName.t) : Prop :=
  Forall echo_free_part (BidsName.parts n)
  /\ BidsName.search_echo (BidsName.extension n) = None.

(** ** Inputs of the examples *)

(** A conversion for the examples: it reads the integer literals below 2^53
    in magnitude, which binary64 holds exactly, and rejects every other
    text. Python's [float] accepts more. *)
Definition float_of_int_literal (s : string) : option float :=
  match Py.int_of_str s with
  | Some n =>
      if Z.abs n <? 2 ^ 53 then
        let magnitude := PrimFloat.of_uint63 (Uint63.of_Z (Z.abs n)) in
        Some (if n <? 0 then PrimFloat.opp magnitude else magnitude)
      else None
  | None => None
  end.

Definition directory_of (entries : list (string * file)) : world :=
  {| acq_dir := list_to_map entries; dicom_store := ∅;
     console := []; visited := [] |}.

Definition tb1tfl_world : world :=
  directory_of [("sub-01_run-3_TB1TFL.nii.gz", OtherFile)].

Definition tb1tfl_once : world :=
  snd (patch_file_path "sub-01_run-3_TB1TFL.nii.gz" tb1tfl_world).

Definition tb1tfl_twice : world :=
  snd (patch_file_path "sub-01_run-2_TB1TFL_acq-anat.nii.gz" tb1tfl_once).

Definition echo_world : world :=
  directory_of [("sub-01_T2starw_e2_ph.json", JsonFile ∅);
                ("sub-01_run-1_dwi.nii.gz", OtherFile);
                ("sub-01_run-2_dwi.nii.gz", OtherFile)].

Definition busy_world : world :=
  directory_of [("sub-01_MP2RAGE.bval", OtherFile);
                ("sub-01_T2starw_e2_ph.json", JsonFile ∅);
                ("sub-01_run-3_TB1TFL.nii.gz", OtherFile)].

Definition bad_run_world : world :=
  directory_of [("sub-01_run-x_TB1TFL.nii.gz", OtherFile);
                ("sub-01_run-x_TB1TFL_ROI1.nii.gz", OtherFile)].

(** A series of one DICOM file whose CSA text carries the line that the
    pattern looks for, with the value [captured]. *)
Definition series : DicomSeriesInfo :=
  {| file_paths := ["/dicom/0001.dcm"] |}.

Definition csa_text (captured : string) : string :=
  "b'### ASCCONV BEGIN ###\nsWipMemBlock.adFree[2]\t = \t" ++ captured
  ++ "\nsWipMemBlock.adFree[3]\t = \t1\n### ASCCONV END ###'".

Definition neuromelanin_world (captured : string) : world :=
  {| acq_dir :=
       {[ "sub-01_acq-neuromelaninMTw_T1w.json"
            := JsonFile {[ "EchoTime" := JString "0.004" ]};
          "sub-01_mt-off_MTR.json"
            := JsonFile {[ "EchoTime" := JString "0.004";
                           "MTState" := JString "unknown" ]} ]};
     dicom_store :=
       {[ "/dicom/0001.dcm" := DicomFile {| csa_header := Some (csa_text captured) |} ]};
     console := [];
     visited := [] |}.


(** The name that the rules produce for a file name, and the parsed name
    itself when they raise. *)
Definition renamed (name : string) : BidsName.t :=
  match rename_rules (BidsName.from_string name) with
  | inr n' => n'
  | inl _ => BidsName.from_string name
  end.

(** Sidecars that the first three loops of [patch_json] go over; one of
    them matches both the mt-off and the mt-on pattern. *)
Definition sidecar_world : world :=
  directory_of [("sub-01_part-phase_T2starw.json", JsonFile ∅);
                ("sub-01_mt-on_MTR.json",
                 JsonFile {[ "MTState" := JString "unknown" ]});
                ("sub-01_mt-off_desc-mt-on_MTR.json", JsonFile ∅);
                ("sub-01_T1w.nii.gz", OtherFile)].

(** The first run of a TB1TFL acquisition. *)
Definition first_run_world : world :=
  directory_of [("sub-01_run-1_TB1TFL.nii.gz", OtherFile)].

(** A TB1TFL file whose run is 2^53 + 1. *)
Definition large_run_world : world :=
  directory_of [("sub-01_run-9007199254740993_TB1TFL.nii.gz", OtherFile)].

(** A phase sidecar whose name has 255 bytes. *)
Definition long_ph_name : string :=
  "sub-01_acq-" ++ string_of_list_ascii (replicate 236 "x"%char) ++ "_ph.json".

Definition long_name_world : world :=
  directory_of [(long_ph_name, JsonFile ∅)].

(** The directory of [neuromelanin_world] with a part-phase sidecar that is
    not a JSON object. *)
Definition broken_sidecar_world : world :=
  {| acq_dir :=
       {[ "sub-01_acq-neuromelaninMTw_T1w.json"
            := JsonFile {[ "EchoTime" := JString "0.004" ]};
          "sub-01_part-phase_T2starw.json" := OtherFile ]};
     dicom_store :=
       {[ "/dicom/0001.dcm" := DicomFile {| csa_header := Some (csa_text "800") |} ]};
     console := [];
     visited := [] |}.

(** A series whose second file is not in the store. *)
Definition long_series : DicomSeriesInfo :=
  {| file_paths := ["/dicom/0001.dcm"; "/dicom/0002.dcm"] |}.


(** * Properties *)

(** ** Components of a structured name *)

Lemma has_lookup n k :
  BidsName.has n k = present (BidsName.lookup_part k (BidsName.parts n)).
Proof.
  unfold BidsName.has.
  induction (BidsName.parts n) as [|[k' v] l IH]; simpl; [done|].
  destruct (String.eqb k' k); simpl; auto.
Qed.

Lemma lookup_remove k k' l :
  BidsName.lookup_part k (BidsName.remove_part k' l)
  = if String.eqb k' k then None else BidsName.lookup_part k l.
Proof.
  induction l as [|[k0 v] l IH]; simpl.
  - by destruct (String.eqb k' k).
  - destruct (String.eqb k0 k') eqn:E1.
    + apply String.eqb_eq in E1 as ->. rewrite IH. by destruct (String.eqb k' k).
    + simpl. rewrite IH. destruct (String.eqb k0 k) eqn:E2; [|done].
      apply String.eqb_eq in E2 as ->. rewrite String.eqb_sym in E1. by rewrite E1.
Qed.

Lemma lookup_set k k' v l :
  BidsName.lookup_part k (BidsName.set_part k' v l)
  = if String.eqb k' k then Some v else BidsName.lookup_part k l.
Proof.
  induction l as [|[k0 v0] l IH]; simpl; [done|].
  destruct (String.eqb k0 k') eqn:E1; simpl.
  - apply String.eqb_eq in E1 as ->. by destruct (String.eqb k' k).
  - rewrite IH. destruct (String.eqb k0 k) eqn:E2; [|done].
    apply String.eqb_eq in E2 as ->. rewrite String.eqb_sym in E1. by rewrite E1.
Qed.

(** Rewrites every query on a name built by [add] and [remove] into look-ups
    in the parts of the name it was built from. *)
Ltac to_lookups :=
  unfold BidsName.has_value, BidsName.get in *; rewrite ?has_lookup in *;
  cbn [BidsName.parts BidsName.add BidsName.remove BidsName.extension] in *;
  repeat (rewrite lookup_set || rewrite lookup_remove);
  cbn [String.eqb Ascii.eqb Bool.eqb] in *.

(** Case analysis on every look-up and on every string test left. *)
Ltac split_lookups :=
  repeat match goal with
  | |- context [BidsName.lookup_part ?k ?l] =>
      let o := fresh "o" in
      set (o := BidsName.lookup_part k l) in *; clearbody o;
      destruct o as [[?|]|]
  | H : context [BidsName.lookup_part ?k ?l] |- _ =>
      let o := fresh "o" in
      set (o := BidsName.lookup_part k l) in *; clearbody o;
      destruct o as [[?|]|]
  end; cbn [present andb orb negb] in *;
  repeat match goal with
  | |- context [String.eqb ?a ?b] =>
      let o := fresh "o" in
      set (o := String.eqb a b) in *; clearbody o; destruct o
  | H : context [String.eqb ?a ?b] |- _ =>
      let o := fresh "o" in
      set (o := String.eqb a b) in *; clearbody o; destruct o
  end; cbn [present andb orb negb] in *; try congruence.

Ltac unfold_guards :=
  unfold echo_run_guard, mtw_run_guard, ph_guard, part_mag_guard,
    t2starmap_guard, dwi_run_1_guard, dwi_run_2_guard in *.

(** The echo marker found by the search is [e] and one digit. *)
Lemma search_echo_shape s whole digit :
  BidsName.search_echo s = Some (whole, digit) ->
  exists c, Py.is_digit c = true
            /\ whole = String "e" (String c EmptyString)
            /\ digit = String c EmptyString.
Proof.
  induction s as [|c s IH]; simpl; [done|].
  destruct s as [|d s']; [done|].
  destruct (Ascii.eqb c "e" && Py.is_digit d) eqn:E.
  - intros [= <- <-]. apply andb_true_iff in E as [Ec Ed].
    apply Ascii.eqb_eq in Ec as ->. eauto.
  - apply IH.
Qed.

(** A key that does not start with [e] is out of reach of the echo rule. *)
Lemma lookup_replace_echo n k c k' :
  k = String c k' -> Ascii.eqb "e" c = false ->
  BidsName.lookup_part k (BidsName.parts (replace_echo n))
  = BidsName.lookup_part k (BidsName.parts n).
Proof.
  intros -> Hc. unfold replace_echo.
  destruct (BidsName.match_echo n) as [[whole digit]|] eqn:E; [|done].
  apply search_echo_shape in E as (d & _ & -> & ->).
  cbn [BidsName.parts BidsName.add BidsName.remove].
  rewrite lookup_set, lookup_remove. cbn [String.eqb]. by rewrite Hc.
Qed.

(** ** The rules one by one *)

(** No rule before the TB1TFL one touches the TB1TFL marker. *)
Lemma tb1tfl_marker_kept n :
  BidsName.has (rules_before_tb1tfl n) "TB1TFL" = BidsName.has n "TB1TFL".
Proof.
  rewrite !has_lookup. unfold rules_before_tb1tfl.
  rewrite <- (lookup_replace_echo n "TB1TFL" "T" "B1TFL") by done.
  generalize (replace_echo n). intros a.
  unfold replace_dwi_run_2, drop_dwi_run_1, replace_t2starw, add_part_mag,
    replace_ph, drop_run_of_mtw, drop_run_of_echo.
  repeat match goal with
  | |- context [if ?g then _ else _] => destruct g
  end;
  cbn [BidsName.parts BidsName.add BidsName.remove];
  repeat (rewrite lookup_set || rewrite lookup_remove); reflexivity.
Qed.

(** No rule before the TB1TFL one adds a [run] component. *)
Lemma run_not_added n :
  BidsName.has n "run" = false ->
  BidsName.get (rules_before_tb1tfl n) "run" = None.
Proof.
  rewrite has_lookup. unfold BidsName.get, rules_before_tb1tfl.
  rewrite <- (lookup_replace_echo n "run" "r" "un") by done.
  generalize (replace_echo n). intros a Ha.
  unfold replace_dwi_run_2, drop_dwi_run_1, replace_t2starw, add_part_mag,
    replace_ph, drop_run_of_mtw, drop_run_of_echo.
  repeat match goal with
  | |- context [if ?g then _ else _] => destruct g
  end;
  cbn [BidsName.parts BidsName.add BidsName.remove];
  repeat (rewrite lookup_set || rewrite lookup_remove);
  cbn [String.eqb Ascii.eqb Bool.eqb];
  by destruct (BidsName.lookup_part "run" (BidsName.parts a)).
Qed.

(** ** Python arithmetic *)

Lemma round_binary64_small r : Z.abs r < 2 ^ 53 -> Py.round_binary64 r = r.
Proof.
  intros Hr. unfold Py.round_binary64.
  destruct (Z.leb_spec (Z.log2 (Z.abs r) + 1) 53) as [|Hlt]; [done|].
  exfalso. destruct (Z.eq_dec (Z.abs r) 0) as [E|E].
  - rewrite E in Hlt. simpl in Hlt. lia.
  - assert (Z.log2 (Z.abs r) < 53) by (apply Z.log2_lt_pow2; lia). lia.
Qed.

Lemma ceil_half_small r : Z.abs r < 2 ^ 53 -> Py.ceil_half r = inr ((r + 1) / 2).
Proof.
  intros Hr. unfold Py.ceil_half. rewrite round_binary64_small by done.
  assert (2 ^ 53 < 2 ^ 1025) by (apply Z.pow_lt_mono_r; lia).
  destruct (Z.leb_spec (2 ^ 1025) (Z.abs r)); [lia | done].
Qed.

Lemma mod_2_is_odd r : (r mod 2 =? 1) = Z.odd r.
Proof. rewrite <- Z.bit0_mod, Z.bit0_odd. by destruct (Z.odd r). Qed.

(** What the TB1TFL rule makes of a run number below 2^53 in magnitude. *)
Lemma apply_tb1tfl_small n r :
  BidsName.has n "TB1TFL" = true ->
  run_number_of n = Some r ->
  Z.abs r < 2 ^ 53 ->
  exists n',
    apply_tb1tfl n = inr n'
    /\ BidsName.get n' "acq" = Some (if Z.odd r then "anat" else "sfam")
    /\ BidsName.get n' "run" = Some (Py.str_of_int ((r + 1) / 2)).
Proof.
  intros Hm Hr Hsmall. unfold apply_tb1tfl. rewrite Hm, Hr.
  rewrite ceil_half_small by done. eexists. split; [reflexivity|].
  unfold BidsName.get. cbn [BidsName.parts BidsName.add].
  rewrite !lookup_set. cbn [String.eqb Ascii.eqb Bool.eqb].
  by rewrite mod_2_is_odd.
Qed.

(** ** [patch_file_path] on a file of the directory *)

Lemma string_eqb_false a b : a ≠ b -> String.eqb a b = false.
Proof. intros H. by apply String.eqb_neq. Qed.

(** A file that no delete rule takes and whose rules end in the name [n'],
    which the file system takes, is found under [str(n')] afterwards. *)
Lemma patch_file_path_renames name w f n' :
  acq_dir w !! name = Some f ->
  is_mp2rage_gradient (BidsName.from_string name) = false ->
  BidsName.has (BidsName.from_string name) "ROI1" = false ->
  rename_rules (BidsName.from_string name) = inr n' ->
  (String.length (BidsName.to_string n') <= name_max)%nat ->
  file_patched_as name w n'.
Proof.
  intros Hf Hg Hroi Hr Hlen. unfold file_patched_as, patch_file_path.
  rewrite Hg, Hroi, Hr.
  destruct (String.eqb (BidsName.to_string n') name) eqn:E; cbn [negb].
  - apply String.eqb_eq in E. eexists. split; [reflexivity|]. by rewrite E.
  - unfold mbind, M_bind, print, rename_file. cbn [acq_dir]. rewrite Hf.
    destruct (Nat.ltb_spec name_max (String.length (BidsName.to_string n')));
      [lia|].
    eexists. split; [reflexivity|]. cbn [acq_dir set_acq_dir].
    by rewrite lookup_insert_eq.
Qed.

(** C3: a file whose name has the MP2RAGE marker and the extension [bval] or
    [bvec] is deleted: [patch_file_path] prints its notice, unlinks the file
    and returns; every other entry of the directory is as before, so nothing
    is renamed and no later rule is applied. *)
Theorem mp2rage_gradient_file_deleted (name : string) (w : world) (f : file) :
  acq_dir w !! name = Some f ->
  BidsName.has (BidsName.from_string name) "MP2RAGE" = true ->
  BidsName.extension (BidsName.from_string name) = "bval"
  \/ BidsName.extension (BidsName.from_string name) = "bvec" ->
  exists w',
    patch_file_path name w = (Return tt, w')
    /\ acq_dir w' = delete name (acq_dir w)
    /\ dicom_store w' = dicom_store w
    /\ console w'
       = (console w ++ [Info ("Remove MP2RAGE bval/bvec file '" ++ name ++ "'")])%list.
Proof.
  intros Hf Hm Hext. unfold patch_file_path, is_mp2rage_gradient.
  rewrite Hm. destruct Hext as [-> | ->]; simpl;
    unfold mbind, M_bind, print, unlink; simpl; rewrite Hf;
    eexists; repeat split; reflexivity.
Qed.

(** What the TB1TFL rule makes of a run number whose half is in the range
    of binary64. *)
Lemma apply_tb1tfl_run n r half :
  BidsName.has n "TB1TFL" = true ->
  run_number_of n = Some r ->
  Py.ceil_half r = inr half ->
  exists n',
    apply_tb1tfl n = inr n'
    /\ BidsName.get n' "acq" = Some (if Z.odd r then "anat" else "sfam")
    /\ BidsName.get n' "run" = Some (Py.str_of_int half).
Proof.
  intros Hm Hr Hhalf. unfold apply_tb1tfl. rewrite Hm, Hr, Hhalf.
  eexists. split; [reflexivity|].
  unfold BidsName.get. cbn [BidsName.parts BidsName.add].
  rewrite !lookup_set. cbn [String.eqb Ascii.eqb Bool.eqb].
  by rewrite mod_2_is_odd.
Qed.

(** C4, amended: a TB1TFL file that is not deleted, and whose run no earlier
    rule has removed, gets a name with [acq-anat] and [run-2] when it came
    with [run-3], and with [acq-sfam] and [run-2] when it came with [run-4];
    with no run component it gets [acq-sfam] and [run-0]. In general, with
    run number [r] (0 for an absent or empty run), [acq] is [anat] iff [r] is
    odd and [run] is what [math.ceil(r / 2)] gives, which is the ceiling of
    [r / 2] when [r] is below 2^53 in magnitude. The file is found under the
    new name when the file system takes the name. *)
Theorem tb1tfl_file_run_pairs (name : string) (w : world) (f : file) :
  let n := BidsName.from_string name in
  acq_dir w !! name = Some f ->
  is_mp2rage_gradient n = false ->
  BidsName.has n "ROI1" = false ->
  BidsName.has n "TB1TFL" = true ->
  (BidsName.get n "run" = Some "3" -> run_kept n ->
   exists n', rename_rules n = inr n'
              /\ BidsName.has_value n' "acq" "anat" = true
              /\ BidsName.has_value n' "run" "2" = true
              /\ (fits n' -> file_patched_as name w n'))
  /\ (BidsName.get n "run" = Some "4" -> run_kept n ->
      exists n', rename_rules n = inr n'
                 /\ BidsName.has_value n' "acq" "sfam" = true
                 /\ BidsName.has_value n' "run" "2" = true
                 /\ (fits n' -> file_patched_as name w n'))
  /\ (BidsName.has n "run" = false ->
      exists n', rename_rules n = inr n'
                 /\ BidsName.has_value n' "acq" "sfam" = true
                 /\ BidsName.has_value n' "run" "0" = true
                 /\ (fits n' -> file_patched_as name w n'))
  /\ (forall r half,
        run_number_of n = Some r -> run_kept n -> Py.ceil_half r = inr half ->
        exists n', rename_rules n = inr n'
                   /\ BidsName.get n' "acq" = Some (if Z.odd r then "anat" else "sfam")
                   /\ BidsName.get n' "run" = Some (Py.str_of_int half)
                   /\ (fits n' -> file_patched_as name w n'))
  /\ (forall r, Z.abs r < 2 ^ 53 -> Py.ceil_half r = inr ((r + 1) / 2)).
Proof.
  intros n Hf Hg Hroi Hm.
  assert (Hgen : forall r half,
            run_number_of (rules_before_tb1tfl n) = Some r ->
            Py.ceil_half r = inr half ->
            exists n', rename_rules n = inr n'
              /\ BidsName.get n' "acq" = Some (if Z.odd r then "anat" else "sfam")
              /\ BidsName.get n' "run" = Some (Py.str_of_int half)
              /\ (fits n' -> file_patched_as name w n')).
  { intros r half Hr Hhalf.
    destruct (apply_tb1tfl_run (rules_before_tb1tfl n) r half)
      as (n' & Hn' & Ha & Hrun); [by rewrite tb1tfl_marker_kept | done | done |].
    exists n'. repeat split; try done. intros Hfits.
    by eapply patch_file_path_renames. }
  split; [|split; [|split; [|split]]].
  - intros Hrun Hkept. destruct (Hgen 3 2) as (n' & ? & Ha & Hr & ?); [|done|].
    + unfold run_number_of. by rewrite Hkept, Hrun.
    + exists n'. unfold BidsName.has_value. by rewrite Ha, Hr.
  - intros Hrun Hkept. destruct (Hgen 4 2) as (n' & ? & Ha & Hr & ?); [|done|].
    + unfold run_number_of. by rewrite Hkept, Hrun.
    + exists n'. unfold BidsName.has_value. by rewrite Ha, Hr.
  - intros Hrun. destruct (Hgen 0 0) as (n' & ? & Ha & Hr & ?); [|done|].
    + unfold run_number_of. by rewrite run_not_added.
    + exists n'. unfold BidsName.has_value. by rewrite Ha, Hr.
  - intros r half Hr Hkept Hhalf. apply Hgen; [|done].
    unfold run_number_of in *. by rewrite Hkept.
  - apply ceil_half_small.
Qed.

(** C9, amended: a TB1TFL file that is not deleted, and whose run component
    no earlier rule has removed, makes [patch_file_path] raise [ValueError]
    when the value of the run is a non-empty string of ASCII characters that
    [int] rejects; the directory and the console are left as they were. The
    value is taken to be ASCII text because [int] also reads the decimal
    digits of Unicode, which [Py.int_of_str] does not decode. *)
Theorem tb1tfl_bad_run_raises (name : string) (w : world) (s : string) :
  let n := BidsName.from_string name in
  is_mp2rage_gradient n = false ->
  BidsName.has n "ROI1" = false ->
  BidsName.has n "TB1TFL" = true ->
  BidsName.get n "run" = Some s ->
  run_kept n ->
  s ≠ EmptyString ->
  Py.is_ascii s = true ->
  Py.int_of_str s = None ->
  patch_file_path name w = (Raise Py.ValueError, w).
Proof.
  intros n Hg Hroi Hm Hrun Hkept Hs _ Hint. unfold patch_file_path.
  fold n. rewrite Hg, Hroi. unfold rename_rules, apply_tb1tfl.
  rewrite tb1tfl_marker_kept, Hm. unfold run_number_of.
  rewrite Hkept, Hrun, (string_eqb_false s EmptyString Hs), Hint. done.
Qed.

(** ** Running a computation *)

Lemma bind_run {A B : Type} (m : M A) (f : A -> M B) (w : world) :
  (m ≫= f) w
  = match m w with
    | (Return a, w') => f a w'
    | (Raise e, w') => (Raise e, w')
    end.
Proof. reflexivity. Qed.

(** A relation between the world before and the world after that every step
    of a loop respects is respected by the loop. *)
Lemma for_each_respects {A : Type} (R : world -> world -> Prop)
    (l : list A) (body : A -> M unit) :
  (forall w, R w w) ->
  (forall w1 w2 w3, R w1 w2 -> R w2 w3 -> R w1 w3) ->
  (forall x w r w', x ∈ l -> body x w = (r, w') -> R w w') ->
  forall w r w', for_each l body w = (r, w') -> R w w'.
Proof.
  intros Hrefl Htrans. induction l as [|x l IH]; intros Hbody w r w' Hrun.
  - injection Hrun as <- <-. apply Hrefl.
  - simpl in Hrun. rewrite bind_run in Hrun.
    destruct (body x w) as [[[]|e] w1] eqn:Hx.
    + eapply Htrans; [eapply Hbody; [left | exact Hx] |].
      eapply IH; [|exact Hrun]. intros; eapply Hbody; [by right | done].
    + injection Hrun as <- <-. eapply Hbody; [left | exact Hx].
Qed.

(** ** [get_mt_flip_angle] *)

Section FlipAngle.

Variable float_of_str : string -> option float.

(** With the first file of the series read, what is left of
    [get_mt_flip_angle] is the inspection of the data set. *)
Lemma get_mt_flip_angle_read
    (dicom_series : DicomSeriesInfo) (w : world) (path : string) (d : dataset) :
  head (file_paths dicom_series) = Some path ->
  dicom_store w !! path = Some (DicomFile d) ->
  get_mt_flip_angle float_of_str dicom_series w
  = match csa_header d with
    | None => (Return None, w)
    | Some text =>
        match search_mt_flip_angle text with
        | None => (Return None, w)
        | Some captured =>
            match float_of_str captured with
            | Some x => (Return (Some x), w)
            | None =>
                (Return None,
                 snd (print_warning
                        ("Expected numeric MT flip angle but found value '"
                         ++ captured ++ "'.") w))
            end
        end
    end.
Proof.
  intros Hpath Hd. unfold get_mt_flip_angle.
  destruct (file_paths dicom_series) as [|p ps]; [done|].
  injection Hpath as ->.
  unfold mbind, M_bind, first_item, mret, M_ret, dcmread. rewrite Hd.
  destruct (csa_header d) as [text|]; [|done].
  destruct (search_mt_flip_angle text) as [captured|]; [|done].
  by destruct (float_of_str captured).
Qed.

(** C10: on a series with no file path, [get_mt_flip_angle] raises
    [IndexError] from reading the first path; it returns nothing and changes
    nothing. *)
Theorem get_mt_flip_angle_of_empty_series (w : world) :
  get_mt_flip_angle float_of_str {| file_paths := [] |} w
  = (Raise Py.IndexError, w).
Proof. reflexivity. Qed.

(** C6, amended: once the first file of the series is read as a DICOM data
    set, [get_mt_flip_angle] does not raise. Without the CSA element it
    returns no value and prints nothing; with the element but no match of the
    pattern it returns no value and prints nothing; when [float] rejects the
    captured text it prints one warning and returns no value; otherwise it
    returns the number. *)
Theorem get_mt_flip_angle_outcomes
    (dicom_series : DicomSeriesInfo) (w : world) (path : string) (d : dataset) :
  head (file_paths dicom_series) = Some path ->
  dicom_store w !! path = Some (DicomFile d) ->
  (exists value w',
     get_mt_flip_angle float_of_str dicom_series w = (Return value, w'))
  /\ (csa_header d = None ->
      get_mt_flip_angle float_of_str dicom_series w = (Return None, w))
  /\ (forall text,
        csa_header d = Some text -> search_mt_flip_angle text = None ->
        get_mt_flip_angle float_of_str dicom_series w = (Return None, w))
  /\ (forall text captured,
        csa_header d = Some text ->
        search_mt_flip_angle text = Some captured ->
        float_of_str captured = None ->
        get_mt_flip_angle float_of_str dicom_series w
        = (Return None,
           snd (print_warning ("Expected numeric MT flip angle but found value '"
                               ++ captured ++ "'.") w)))
  /\ (forall text captured x,
        csa_header d = Some text ->
        search_mt_flip_angle text = Some captured ->
        float_of_str captured = Some x ->
        get_mt_flip_angle float_of_str dicom_series w = (Return (Some x), w)).
Proof.
  intros Hpath Hd. rewrite (get_mt_flip_angle_read _ _ _ _ Hpath Hd).
  repeat split.
  - destruct (csa_header d) as [text|]; [|by eauto].
    destruct (search_mt_flip_angle text) as [captured|]; [|by eauto].
    destruct (float_of_str captured); by eauto.
  - by intros ->.
  - by intros text -> ->.
  - by intros text captured -> -> ->.
  - by intros text captured x -> -> ->.
Qed.

End FlipAngle.

(** ** [patch_json] *)

Lemma sidecar_frame_refl allowed w : sidecar_frame allowed w w.
Proof.
  repeat split. intros name.
  destruct (acq_dir w !! name) as [[obj| |]|]; eauto.
Qed.

Lemma sidecar_frame_trans allowed w1 w2 w3 :
  sidecar_frame allowed w1 w2 -> sidecar_frame allowed w2 w3 ->
  sidecar_frame allowed w1 w3.
Proof.
  intros (Hd1 & Hv1 & H1) (Hd2 & Hv2 & H2).
  split; [congruence|]. split; [congruence|]. intros name.
  specialize (H1 name). specialize (H2 name).
  destruct (acq_dir w1 !! name) as [[obj| |]|].
  - destruct H1 as (obj1 & E1 & Hk1 & Hs1). rewrite E1 in H2.
    destruct H2 as (obj2 & E2 & Hk2 & Hs2). exists obj2.
    split; [done|]. split.
    + intros key Hkey. by rewrite Hk2, Hk1.
    + intros key Hkey. auto.
  - by rewrite H1 in H2.
  - by rewrite H1 in H2.
  - by rewrite H1 in H2.
Qed.

Lemma sidecar_frame_mono (allowed allowed' : string -> string -> Prop) w w' :
  (forall name key, allowed name key -> allowed' name key) ->
  sidecar_frame allowed w w' -> sidecar_frame allowed' w w'.
Proof.
  intros Hsub (Hd & Hv & H). repeat split; [done..|]. intros name.
  specialize (H name). destruct (acq_dir w !! name) as [[obj| |]|]; [|done..].
  destruct H as (obj' & E & Hk & Hs). exists obj'. naive_solver.
Qed.

(** One [update_json] stays within [allowed] when its fields do. *)
Lemma update_json_frame (allowed : string -> string -> Prop)
    (name : string) (fields : gmap string json) w r w' :
  (forall key, is_Some (fields !! key) -> allowed name key) ->
  update_json name fields w = (r, w') ->
  sidecar_frame allowed w w'.
Proof.
  intros Hfields. unfold update_json.
  destruct (acq_dir w !! name) as [[obj| |]|] eqn:E; intros [= <- <-];
    try apply sidecar_frame_refl.
  repeat split. intros name'. simpl.
  destruct (decide (name = name')) as [<-|Hne].
  - rewrite E, lookup_insert_eq. exists (fields ∪ obj). split; [done|]. split.
    + intros key Hkey. rewrite lookup_union_r; [done|].
      destruct (fields !! key) eqn:Ek; [|done]. exfalso. eauto.
    + intros key [v Hv]. rewrite lookup_union.
      rewrite Hv. destruct (fields !! key); simpl; eauto.
  - rewrite lookup_insert_ne by done.
    destruct (acq_dir w !! name') as [[obj'| |]|]; eauto.
Qed.

Lemma rglob_json_run marker w :
  exists l, rglob_json marker w = (Return l, w)
            /\ forall name, name ∈ l <->
                 is_Some (acq_dir w !! name) /\ glob_json marker name = true.
Proof.
  eexists. split; [reflexivity|]. intros name.
  rewrite list_elem_of_In, filter_In, <- list_elem_of_In, list_elem_of_fmap.
  split.
  - intros [([k v] & -> & Hin) Hg]. apply elem_of_map_to_list in Hin.
    simpl. eauto.
  - intros [[v Hv] Hg]. split; [|done]. exists (name, v).
    split; [done|]. by apply elem_of_map_to_list.
Qed.

Lemma respects_seq {A B : Type} (R : world -> world -> Prop) (m : M A) (k : M B) :
  (forall w1 w2 w3, R w1 w2 -> R w2 w3 -> R w1 w3) ->
  respects R m -> respects R k -> respects R (m ;; k).
Proof.
  intros Htrans Hm Hk w r w' Hrun. rewrite bind_run in Hrun.
  destruct (m w) as [[a|e] w1] eqn:E.
  - eapply Htrans; [eapply Hm, E | eapply Hk, Hrun].
  - injection Hrun as <- <-. eapply Hm, E.
Qed.

Lemma stage_respects (R : world -> world -> Prop) marker body :
  (forall w, R w w) ->
  (forall w1 w2 w3, R w1 w2 -> R w2 w3 -> R w1 w3) ->
  (forall name w r w',
     glob_json marker name = true -> body name w = (r, w') -> R w w') ->
  respects R (stage marker body).
Proof.
  intros Hrefl Htrans Hbody w r w' Hrun. unfold stage in Hrun.
  rewrite bind_run in Hrun.
  destruct (rglob_json_run marker w) as (l & El & Hl). rewrite El in Hrun.
  eapply for_each_respects; [done | done | | exact Hrun].
  intros name w1 r1 w1' Hin. apply Hbody. by apply Hl.
Qed.

Lemma seq_return_inv {A B : Type} (m : M A) (k : M B) w b w' :
  (m ;; k) w = (Return b, w') ->
  exists a w1, m w = (Return a, w1) /\ k w1 = (Return b, w').
Proof.
  rewrite bind_run. destruct (m w) as [[a|e] w1]; [eauto | done].
Qed.

Section SidecarProperties.

Variable float_of_str : string -> option float.

Lemma get_mt_flip_angle_effect dicom_series w r w' :
  get_mt_flip_angle float_of_str dicom_series w = (r, w') ->
  acq_dir w' = acq_dir w /\ dicom_store w' = dicom_store w
  /\ visited w' = visited w.
Proof.
  unfold get_mt_flip_angle, mbind, M_bind, first_item, mret, M_ret, raise,
    dcmread, print_warning.
  destruct (file_paths dicom_series) as [|p ps]; [by intros [= <- <-]|].
  destruct (dicom_store w !! p) as [[| d |]|]; try by intros [= <- <-].
  destruct (csa_header d) as [text|]; [|by intros [= <- <-]].
  destruct (search_mt_flip_angle text) as [captured|]; [|by intros [= <- <-]].
  destruct (float_of_str captured); by intros [= <- <-].
Qed.

Lemma get_mt_flip_angle_result dicom_series w1 w2 :
  dicom_store w1 = dicom_store w2 ->
  fst (get_mt_flip_angle float_of_str dicom_series w1)
  = fst (get_mt_flip_angle float_of_str dicom_series w2).
Proof.
  intros Hd.
  unfold get_mt_flip_angle, mbind, M_bind, first_item, mret, M_ret, raise,
    dcmread, print_warning.
  destruct (file_paths dicom_series) as [|p ps]; [done|]. rewrite Hd.
  destruct (dicom_store w2 !! p) as [[| d |]|]; try done.
  destruct (csa_header d) as [text|]; [|done].
  destruct (search_mt_flip_angle text) as [captured|]; [|done].
  by destruct (float_of_str captured).
Qed.

Lemma patch_json_stages dicom_series w :
  patch_json float_of_str dicom_series w
  = (stage "part-phase" (fun p => update_json p {[ "Units" := JString "rad" ]}) ;;
     stage "mt-off" (fun p => update_json p {[ "MTState" := JBool false ]}) ;;
     stage "mt-on" (fun p => update_json p {[ "MTState" := JBool true ]}) ;;
     stage "neuromelaninMTw" (set_mt_flip_angle float_of_str dicom_series)) w.
Proof. reflexivity. Qed.

Lemma may_set_when_may_set resolved name key :
  may_set_when resolved name key -> may_set name key.
Proof. unfold may_set_when, may_set. tauto. Qed.

Lemma frame_of_same_dir allowed w w' :
  acq_dir w' = acq_dir w -> dicom_store w' = dicom_store w ->
  visited w' = visited w -> sidecar_frame allowed w w'.
Proof.
  intros Ha Hd Hv. repeat split; [done..|]. intros name. rewrite Ha.
  destruct (acq_dir w !! name) as [[obj| |]|]; eauto.
Qed.

Lemma singleton_field_frame (allowed : string -> string -> Prop)
    name key (v : json) w r w' :
  allowed name key ->
  update_json name {[ key := v ]} w = (r, w') ->
  sidecar_frame allowed w w'.
Proof.
  intros Hk. apply update_json_frame. intros key' [v' Hv'].
  by apply lookup_singleton_Some in Hv' as [<- _].
Qed.

(** The neuromelanin loop body writes [MTFlipAngle], and only when the value
    is resolved in a world with the DICOM store of [w0]. *)
Lemma set_mt_flip_angle_frame dicom_series w0 name w r w' :
  glob_json "neuromelaninMTw" name = true ->
  dicom_store w = dicom_store w0 ->
  set_mt_flip_angle float_of_str dicom_series name w = (r, w') ->
  sidecar_frame (may_set_when (exists x, resolves float_of_str dicom_series w0 x)) w w'.
Proof.
  intros Hg Hd. unfold set_mt_flip_angle. rewrite bind_run.
  pose proof (get_mt_flip_angle_result dicom_series w w0 Hd) as Hres.
  destruct (get_mt_flip_angle float_of_str dicom_series w) as [[[x|]|e] w1] eqn:E;
    apply get_mt_flip_angle_effect in E as (Ea & Ed & Ev); simpl in Hres.
  - intros Hu. eapply sidecar_frame_trans; [by apply frame_of_same_dir|].
    eapply singleton_field_frame; [|exact Hu].
    right. right. unfold resolves. eauto.
  - intros [= <- <-]. by apply frame_of_same_dir.
  - intros [= <- <-]. by apply frame_of_same_dir.
Qed.

(** Every run of [patch_json] stays within the fields it may set. *)
Lemma patch_json_respects_frame dicom_series w r w' :
  patch_json float_of_str dicom_series w = (r, w') ->
  sidecar_frame (may_set_when (exists x, resolves float_of_str dicom_series w x)) w w'.
Proof.
  rewrite patch_json_stages. intros Hrun.
  set (allowed := may_set_when (exists x, resolves float_of_str dicom_series w x)).
  set (R := fun w1 w2 : world =>
              dicom_store w1 = dicom_store w -> sidecar_frame allowed w1 w2).
  assert (Hrefl : forall w1, R w1 w1) by (intros w1 _; apply sidecar_frame_refl).
  assert (Htrans : forall w1 w2 w3, R w1 w2 -> R w2 w3 -> R w1 w3).
  { intros w1 w2 w3 H12 H23 Hd. specialize (H12 Hd).
    eapply sidecar_frame_trans; [exact H12|]. apply H23.
    destruct H12 as (-> & _). exact Hd. }
  enough (HR : R w w') by (by apply HR).
  revert Hrun. generalize w at 1 2 as w1. intros w1.
  revert w1 r w'. change (respects R
    (stage "part-phase" (fun p => update_json p {[ "Units" := JString "rad" ]}) ;;
     stage "mt-off" (fun p => update_json p {[ "MTState" := JBool false ]}) ;;
     stage "mt-on" (fun p => update_json p {[ "MTState" := JBool true ]}) ;;
     stage "neuromelaninMTw" (set_mt_flip_angle float_of_str dicom_series))).
  repeat apply respects_seq; try done; apply stage_respects; try done.
  - intros name w1 r1 w1' Hg Hu _. eapply singleton_field_frame; [|exact Hu].
    left. done.
  - intros name w1 r1 w1' Hg Hu _. eapply singleton_field_frame; [|exact Hu].
    right. left. eauto.
  - intros name w1 r1 w1' Hg Hu _. eapply singleton_field_frame; [|exact Hu].
    right. left. eauto.
  - intros name w1 r1 w1' Hg Hu Hd. by eapply set_mt_flip_angle_frame.
Qed.

(** C8: whatever [patch_json] does, a sidecar stays a sidecar, no field of
    it is removed, and a field keeps its value unless it is [Units] in a
    part-phase file, [MTState] in an mt-off or mt-on file, or [MTFlipAngle]
    in a neuromelaninMTw file. *)
Theorem patch_json_touches_named_keys_only
    (dicom_series : DicomSeriesInfo) (w w' : world) (r : outcome unit)
    (name : string) (obj : gmap string json) :
  patch_json float_of_str dicom_series w = (r, w') ->
  acq_dir w !! name = Some (JsonFile obj) ->
  exists obj',
    acq_dir w' !! name = Some (JsonFile obj')
    /\ (forall key, ~ may_set name key -> obj' !! key = obj !! key)
    /\ (forall key, is_Some (obj !! key) -> is_Some (obj' !! key)).
Proof.
  intros Hrun Hname.
  apply patch_json_respects_frame in Hrun.
  apply (sidecar_frame_mono _ may_set) in Hrun;
    [|intros ? ?; apply may_set_when_may_set].
  destruct Hrun as (_ & _ & H). specialize (H name). by rewrite Hname in H.
Qed.

Lemma resolves_same_store dicom_series w1 w2 x :
  dicom_store w1 = dicom_store w2 ->
  resolves float_of_str dicom_series w1 x -> resolves float_of_str dicom_series w2 x.
Proof.
  unfold resolves. intros Hd.
  by rewrite (get_mt_flip_angle_result dicom_series w1 w2 Hd).
Qed.

(** A returning step of the neuromelanin loop on [name] leaves the resolved
    flip angle in the sidecar. *)
Lemma set_mt_flip_angle_sets dicom_series name x w w' :
  resolves float_of_str dicom_series w x ->
  set_mt_flip_angle float_of_str dicom_series name w = (Return tt, w') ->
  has_flip_angle name x w'.
Proof.
  unfold resolves, set_mt_flip_angle. rewrite bind_run.
  destruct (get_mt_flip_angle float_of_str dicom_series w) as [[[y|]|e] w1];
    simpl; intros Hres; try done. injection Hres as ->.
  unfold update_json.
  destruct (acq_dir w1 !! name) as [[obj| |]|]; intros [= <-].
  exists ({[ "MTFlipAngle" := JFloat x ]} ∪ obj). simpl.
  rewrite lookup_insert_eq. split; [done|].
  by rewrite lookup_union_l', lookup_singleton_eq.
Qed.

(** Any step of the neuromelanin loop keeps a flip angle that is in place. *)
Lemma set_mt_flip_angle_keeps dicom_series name x path w r w' :
  resolves float_of_str dicom_series w x -> has_flip_angle name x w ->
  set_mt_flip_angle float_of_str dicom_series path w = (r, w') ->
  has_flip_angle name x w'.
Proof.
  unfold resolves, set_mt_flip_angle. rewrite bind_run. intros Hres Hhas.
  destruct (get_mt_flip_angle float_of_str dicom_series w) as [[[y|]|e] w1] eqn:E;
    simpl in Hres; try done. injection Hres as ->.
  apply get_mt_flip_angle_effect in E as (Ea & _ & _).
  assert (Hhas1 : has_flip_angle name x w1).
  { destruct Hhas as (obj & ? & ?). exists obj. by rewrite Ea. }
  unfold update_json.
  destruct (acq_dir w1 !! path) as [[obj| |]|] eqn:Ep; intros [= <- <-];
    try done.
  destruct Hhas1 as (obj1 & E1 & F1). unfold has_flip_angle. simpl.
  destruct (decide (path = name)) as [->|Hne].
  - rewrite lookup_insert_eq. eexists. split; [done|].
    by rewrite lookup_union_l', lookup_singleton_eq.
  - rewrite lookup_insert_ne by done. eauto.
Qed.

Lemma update_json_store name fields w r w' :
  update_json name fields w = (r, w') -> dicom_store w' = dicom_store w.
Proof.
  unfold update_json.
  destruct (acq_dir w !! name) as [[obj| |]|]; by intros [= <- <-].
Qed.

Lemma set_mt_flip_angle_store dicom_series path w r w' :
  set_mt_flip_angle float_of_str dicom_series path w = (r, w') ->
  dicom_store w' = dicom_store w.
Proof.
  unfold set_mt_flip_angle. rewrite bind_run.
  destruct (get_mt_flip_angle float_of_str dicom_series w) as [[[y|]|e] w1] eqn:E;
    apply get_mt_flip_angle_effect in E as (_ & Ed & _).
  - intros Hu%update_json_store. congruence.
  - by intros [= <- <-].
  - by intros [= <- <-].
Qed.

Lemma flip_angle_loop_keeps dicom_series name x l w r w' :
  resolves float_of_str dicom_series w x -> has_flip_angle name x w ->
  for_each l (set_mt_flip_angle float_of_str dicom_series) w = (r, w') ->
  has_flip_angle name x w' /\ resolves float_of_str dicom_series w' x.
Proof.
  intros Hres Hhas Hrun. revert Hres Hhas.
  eapply (for_each_respects
            (fun w1 w2 => resolves float_of_str dicom_series w1 x -> has_flip_angle name x w1 ->
                          has_flip_angle name x w2 /\ resolves float_of_str dicom_series w2 x)
            l (set_mt_flip_angle float_of_str dicom_series)); [| | |exact Hrun].
  - done.
  - intros w1 w2 w3 H12 H23 H1 H1'. destruct (H12 H1 H1'). by apply H23.
  - intros path w1 r1 w2 _ Hstep H1 H1'. split.
    + by eapply set_mt_flip_angle_keeps.
    + eapply resolves_same_store; [|exact H1].
      symmetry. by eapply set_mt_flip_angle_store.
Qed.

(** A returning run of the neuromelanin loop over a list with [name] leaves
    the resolved flip angle in the sidecar [name]. *)
Lemma flip_angle_loop_sets dicom_series name x l :
  name ∈ l ->
  forall w w',
    resolves float_of_str dicom_series w x ->
    for_each l (set_mt_flip_angle float_of_str dicom_series) w = (Return tt, w') ->
    has_flip_angle name x w'.
Proof.
  induction l as [|path l IH]; intros Hin w w' Hres Hrun.
  - by apply elem_of_nil in Hin.
  - simpl in Hrun. apply seq_return_inv in Hrun as ([] & w1 & Hstep & Hrest).
    assert (Hres1 : resolves float_of_str dicom_series w1 x).
    { eapply resolves_same_store; [|exact Hres].
      symmetry. by eapply set_mt_flip_angle_store. }
    apply elem_of_cons in Hin as [->|Hin].
    + eapply flip_angle_loop_keeps; [exact Hres1 | | exact Hrest].
      exact (set_mt_flip_angle_sets _ _ _ _ _ Hres Hstep).
    + exact (IH Hin w1 w' Hres1 Hrest).
Qed.

Lemma field_stage_frame marker key (v : json) w r w' :
  (forall name, glob_json marker name = true -> may_set name key) ->
  stage marker (fun p => update_json p {[ key := v ]}) w = (r, w') ->
  sidecar_frame may_set w w'.
Proof.
  intros Hkey.
  apply (stage_respects (sidecar_frame may_set) marker
           (fun p => update_json p {[ key := v ]})
           (sidecar_frame_refl may_set) (sidecar_frame_trans may_set)).
  intros p wa ra wb Hg. apply singleton_field_frame. by apply Hkey.
Qed.

(** C7, amended: for a sidecar whose name matches the neuromelaninMTw
    pattern, a run of [patch_json] that returns has merged the flip angle
    that [get_mt_flip_angle] resolves; and when [get_mt_flip_angle] resolves
    no value (it returns none, or raises), the [MTFlipAngle] field of the
    sidecar is as it was, present or not, however the run ends. *)
Theorem neuromelanin_sidecar_flip_angle
    (dicom_series : DicomSeriesInfo) (w w' : world) (r : outcome unit)
    (name : string) (obj : gmap string json) :
  patch_json float_of_str dicom_series w = (r, w') ->
  acq_dir w !! name = Some (JsonFile obj) ->
  glob_json "neuromelaninMTw" name = true ->
  exists obj',
    acq_dir w' !! name = Some (JsonFile obj')
    /\ (forall x, resolves float_of_str dicom_series w x -> r = Return tt ->
                  obj' !! "MTFlipAngle" = Some (JFloat x))
    /\ ((forall x, ~ resolves float_of_str dicom_series w x) ->
        obj' !! "MTFlipAngle" = obj !! "MTFlipAngle").
Proof.
  intros Hrun Hname Hglob.
  pose proof (patch_json_respects_frame _ _ _ _ Hrun) as (_ & _ & Hframe).
  specialize (Hframe name). rewrite Hname in Hframe.
  destruct Hframe as (obj' & Hobj' & Hkeep & _). exists obj'.
  split; [done|]. split.
  - intros x Hres ->. rewrite patch_json_stages in Hrun.
    apply seq_return_inv in Hrun as ([] & w1 & H1 & Hrun).
    apply seq_return_inv in Hrun as ([] & w2 & H2 & Hrun).
    apply seq_return_inv in Hrun as ([] & w3 & H3 & Hrun).
    assert (H03 : sidecar_frame may_set w w3).
    { eapply sidecar_frame_trans; [|eapply sidecar_frame_trans].
      - eapply field_stage_frame; [|exact H1]. intros p Hg. by left.
      - eapply field_stage_frame; [|exact H2]. intros p Hg. right; left; eauto.
      - eapply field_stage_frame; [|exact H3]. intros p Hg. right; left; eauto. }
    destruct H03 as (Hd & _ & H03). specialize (H03 name).
    rewrite Hname in H03. destruct H03 as (obj3 & Hobj3 & _).
    unfold stage in Hrun. rewrite bind_run in Hrun.
    destruct (rglob_json_run "neuromelaninMTw" w3) as (l & El & Hl).
    rewrite El in Hrun.
    assert (Hin : name ∈ l) by (apply Hl; by rewrite Hobj3).
    destruct (flip_angle_loop_sets dicom_series name x l Hin w3 w') as (o & Ho & Hx);
      [|done|].
    + eapply resolves_same_store; [|exact Hres]. done.
    + rewrite Hobj' in Ho. by injection Ho as ->.
  - intros Hnone. apply Hkeep. unfold may_set_when.
    intros [[? _]|[[? _]|(_ & _ & x & Hx)]]; [done | done |].
    by apply (Hnone x).
Qed.

End SidecarProperties.

(** ** [patch_files]: the per-file pass *)

(** [patch_file_path] leaves the ghost record of the pass alone. *)
Lemma patch_file_path_visited name w r w' :
  patch_file_path name w = (r, w') -> visited w' = visited w.
Proof.
  unfold patch_file_path.
  destruct (is_mp2rage_gradient _); [|destruct (BidsName.has _ "ROI1")].
  - unfold mbind, M_bind, print, unlink. simpl.
    destruct (acq_dir w !! name); by intros [= <- <-].
  - unfold mbind, M_bind, print, unlink. simpl.
    destruct (acq_dir w !! name); by intros [= <- <-].
  - destruct (rename_rules _) as [e|n']; [by intros [= <- <-]|].
    destruct (negb _); [|by intros [= <- <-]].
    unfold mbind, M_bind, print, rename_file. cbn [acq_dir].
    destruct (acq_dir w !! name); [|by intros [= <- <-]].
    destruct (_ <? _)%nat; by intros [= <- <-].
Qed.

(** The loop of [patch_files] over a listing [l] takes up the entries of [l]
    in order: a run that returns has taken up all of them, a run that raises
    has taken up those up to the entry that raised. *)
Lemma per_file_pass_visits l :
  forall w r w',
    for_each l (fun file_path => visit file_path ;; patch_file_path file_path) w
    = (r, w') ->
    exists taken,
      visited w' = (visited w ++ taken)%list
      /\ taken `prefix_of` l
      /\ (r = Return tt -> taken = l).
Proof.
  induction l as [|name l IH]; intros w r w' Hrun.
  - injection Hrun as <- <-. exists []. by rewrite app_nil_r.
  - simpl in Hrun. rewrite bind_run in Hrun.
    destruct ((visit name ;; patch_file_path name) w) as [[[]|e] w1] eqn:Hstep.
    + rewrite bind_run in Hstep. simpl in Hstep.
      apply patch_file_path_visited in Hstep. simpl in Hstep.
      apply IH in Hrun as (taken & Hv & Hp & Hall).
      exists (name :: taken). rewrite Hv, Hstep, <- app_assoc.
      split; [done|]. split; [by apply prefix_cons|].
      intros Hr. by rewrite (Hall Hr).
    + injection Hrun as <- <-. rewrite bind_run in Hstep. simpl in Hstep.
      apply patch_file_path_visited in Hstep. simpl in Hstep.
      exists [name]. split; [done|]. split; [|done].
      by apply prefix_cons, prefix_nil.
Qed.


(** ** A second application of the rules *)

(** Past a rule, its guard is off, and so stay the guards that were off:
    each such fact needs its own guard before the rule and nothing else. *)
Ltac settle_guards :=
  match goal with
  | H : ?g ?x = false |- ?g (_ ?x) = false => clear - H
  | _ => repeat match goal with H : _ = false |- _ => clear H end
  end;
  unfold_guards;
  unfold replace_dwi_run_2, drop_dwi_run_1, replace_t2starw, add_part_mag,
    replace_ph, drop_run_of_mtw, drop_run_of_echo;
  unfold_guards;
  repeat match goal with
  | |- context [if ?g then _ else _] => destruct g eqn:?
  end;
  to_lookups; split_lookups.

Lemma settled_after_echo_run x : echo_run_guard (drop_run_of_echo x) = false.
Proof. settle_guards. Qed.

Lemma settled_after_mtw_run x :
  echo_run_guard x = false ->
  echo_run_guard (drop_run_of_mtw x) = false
  /\ mtw_run_guard (drop_run_of_mtw x) = false.
Proof. split; settle_guards. Qed.

Lemma settled_after_ph x :
  echo_run_guard x = false /\ mtw_run_guard x = false ->
  echo_run_guard (replace_ph x) = false
  /\ mtw_run_guard (replace_ph x) = false
  /\ ph_guard (replace_ph x) = false.
Proof. intros [? ?]. repeat split; settle_guards. Qed.

Lemma settled_after_part_mag x :
  echo_run_guard x = false /\ mtw_run_guard x = false /\ ph_guard x = false ->
  echo_run_guard (add_part_mag x) = false
  /\ mtw_run_guard (add_part_mag x) = false
  /\ ph_guard (add_part_mag x) = false
  /\ part_mag_guard (add_part_mag x) = false.
Proof. intros (? & ? & ?). repeat split; settle_guards. Qed.

Lemma settled_after_t2starw x :
  echo_run_guard x = false /\ mtw_run_guard x = false /\ ph_guard x = false
  /\ part_mag_guard x = false ->
  echo_run_guard (replace_t2starw x) = false
  /\ mtw_run_guard (replace_t2starw x) = false
  /\ ph_guard (replace_t2starw x) = false
  /\ part_mag_guard (replace_t2starw x) = false
  /\ t2starmap_guard (replace_t2starw x) = false.
Proof. intros (? & ? & ? & ?). repeat split; settle_guards. Qed.

Lemma settled_after_dwi_run_1 x :
  echo_run_guard x = false /\ mtw_run_guard x = false /\ ph_guard x = false
  /\ part_mag_guard x = false /\ t2starmap_guard x = false ->
  echo_run_guard (drop_dwi_run_1 x) = false
  /\ mtw_run_guard (drop_dwi_run_1 x) = false
  /\ ph_guard (drop_dwi_run_1 x) = false
  /\ part_mag_guard (drop_dwi_run_1 x) = false
  /\ t2starmap_guard (drop_dwi_run_1 x) = false
  /\ dwi_run_1_guard (drop_dwi_run_1 x) = false.
Proof. intros (? & ? & ? & ? & ?). repeat split; settle_guards. Qed.

Lemma settled_after_dwi_run_2 x :
  echo_run_guard x = false /\ mtw_run_guard x = false /\ ph_guard x = false
  /\ part_mag_guard x = false /\ t2starmap_guard x = false
  /\ dwi_run_1_guard x = false ->
  echo_run_guard (replace_dwi_run_2 x) = false
  /\ mtw_run_guard (replace_dwi_run_2 x) = false
  /\ ph_guard (replace_dwi_run_2 x) = false
  /\ part_mag_guard (replace_dwi_run_2 x) = false
  /\ t2starmap_guard (replace_dwi_run_2 x) = false
  /\ dwi_run_1_guard (replace_dwi_run_2 x) = false
  /\ dwi_run_2_guard (replace_dwi_run_2 x) = false.
Proof. intros (? & ? & ? & ? & ? & ?). repeat split; settle_guards. Qed.

(** Every guard from the echo/run rule on is off in a name that the rules
    have produced. *)
Lemma rules_settle n :
  let h := rules_before_tb1tfl n in
  echo_run_guard h = false /\ mtw_run_guard h = false /\ ph_guard h = false
  /\ part_mag_guard h = false /\ t2starmap_guard h = false
  /\ dwi_run_1_guard h = false /\ dwi_run_2_guard h = false.
Proof.
  unfold rules_before_tb1tfl.
  apply settled_after_dwi_run_2, settled_after_dwi_run_1,
    settled_after_t2starw, settled_after_part_mag, settled_after_ph,
    settled_after_mtw_run, settled_after_echo_run.
Qed.

(** The rules after the echo rule leave a produced name as it is; so does
    the whole sequence when the echo rule does. *)
Lemma rules_before_tb1tfl_twice n :
  let h := rules_before_tb1tfl n in
  replace_echo h = h -> rules_before_tb1tfl h = h.
Proof.
  intros h He.
  destruct (rules_settle n) as (H4 & H5 & H6 & H7 & H8 & H9 & H10).
  fold h in H4, H5, H6, H7, H8, H9, H10.
  unfold rules_before_tb1tfl at 1. rewrite He.
  unfold drop_run_of_echo. rewrite H4.
  unfold drop_run_of_mtw. rewrite H5.
  unfold replace_ph. rewrite H6.
  unfold add_part_mag. rewrite H7.
  unfold replace_t2starw. rewrite H8.
  unfold drop_dwi_run_1. rewrite H9.
  unfold replace_dwi_run_2. by rewrite H10.
Qed.

(** ** Parsing a serialized name back *)

Lemma has_char_app c a b :
  has_char c (a ++ b) = has_char c a || has_char c b.
Proof.
  induction a as [|d a IH]; simpl; [done|]. rewrite IH. by rewrite orb_assoc.
Qed.

Lemma partition_clean c a :
  has_char c a = false -> Str.partition c a = (a, None).
Proof.
  induction a as [|d a IH]; simpl; [done|].
  intros [Hd Ha]%orb_false_iff. rewrite Hd. by rewrite (IH Ha).
Qed.

Lemma partition_app c a b :
  has_char c a = false -> Str.partition c (a ++ String c b) = (a, Some b).
Proof.
  induction a as [|d a IH]; simpl.
  - by rewrite Ascii.eqb_refl.
  - intros [Hd Ha]%orb_false_iff. rewrite Hd. by rewrite (IH Ha).
Qed.

Lemma split_clean c a : has_char c a = false -> Str.split c a = [a].
Proof.
  induction a as [|d a IH]; simpl; [done|].
  intros [Hd Ha]%orb_false_iff. rewrite Hd. by rewrite (IH Ha).
Qed.

Lemma split_app c a b :
  has_char c a = false ->
  Str.split c (a ++ String c b) = a :: Str.split c b.
Proof.
  induction a as [|d a IH]; simpl.
  - by rewrite Ascii.eqb_refl.
  - intros [Hd Ha]%orb_false_iff. rewrite Hd. by rewrite (IH Ha).
Qed.

Lemma split_join (l : list string) :
  l ≠ [] -> Forall (fun t => has_char "_" t = false) l ->
  Str.split "_" (Str.join "_" l) = l.
Proof.
  induction l as [|x l IH]; [done|]. intros _ Hl.
  apply Forall_cons in Hl as [Hx Hl]. destruct l as [|y l].
  - simpl. by apply split_clean.
  - change (Str.join "_" (x :: y :: l)) with (x ++ String "_" (Str.join "_" (y :: l))).
    rewrite split_app by done. by rewrite IH.
Qed.

Lemma has_char_join c (l : list string) :
  Ascii.eqb "_" c = false ->
  Forall (fun t => has_char c t = false) l ->
  has_char c (Str.join "_" l) = false.
Proof.
  intros Hc. induction l as [|x l IH]; [done|]. intros Hl.
  apply Forall_cons in Hl as [Hx Hl]. destruct l as [|y l]; [done|].
  change (Str.join "_" (x :: y :: l)) with (x ++ String "_" (Str.join "_" (y :: l))).
  rewrite has_char_app, Hx. cbn [has_char orb]. rewrite Hc. by apply IH.
Qed.

Lemma token_round_trip p :
  clean_part p -> BidsName.part_of_token (BidsName.token_of_part p) = p.
Proof.
  destruct p as [k [v|]]; intros (_ & Hk & _); simpl in *.
  - unfold BidsName.part_of_token.
    change (k ++ "-" ++ v) with (k ++ String "-" v). by apply partition_app.
  - by apply partition_clean.
Qed.

Lemma token_has_no c p :
  clean_part p -> c = "_"%char \/ c = "."%char ->
  has_char c (BidsName.token_of_part p) = false.
Proof.
  destruct p as [k [v|]]; intros (Hu & _ & Hd & Hv) [-> | ->]; simpl in *;
    rewrite ?has_char_app; simpl; try done.
  - destruct Hv as [-> _]. by rewrite Hu.
  - destruct Hv as [_ ->]. by rewrite Hd.
Qed.

Lemma set_part_fresh k v l :
  k ∉ map fst l -> BidsName.set_part k v l = (l ++ [(k, v)])%list.
Proof.
  induction l as [|[k0 v0] l IH]; simpl; [done|].
  intros [Hne Hl]%not_elem_of_cons.
  rewrite (string_eqb_false k0 k) by done. by rewrite IH.
Qed.

Lemma fold_set_part (l acc : list (string * option string)) :
  NoDup (map fst (acc ++ l)%list) ->
  fold_left (fun a p => BidsName.set_part (fst p) (snd p) a) l acc
  = (acc ++ l)%list.
Proof.
  revert acc. induction l as [|[k v] l IH]; intros acc Hnd; simpl.
  - by rewrite app_nil_r.
  - rewrite set_part_fresh.
    + rewrite IH; rewrite <- app_assoc; done.
    + rewrite fmap_app in Hnd. apply NoDup_app in Hnd as (_ & Hdis & _).
      intros Hin. apply (Hdis k Hin). simpl. left.
Qed.

(** [from_string] undoes [str] on a well-formed name. *)
Lemma from_string_to_string n :
  well_formed n -> BidsName.from_string (BidsName.to_string n) = n.
Proof.
  destruct n as [parts ext]. intros (Hne & Hnd & Hclean). simpl in *.
  unfold BidsName.from_string, BidsName.to_string. simpl.
  set (stem := Str.join "_" (map BidsName.token_of_part parts)).
  assert (Hdot : has_char "." stem = false).
  { apply has_char_join; [done|]. apply Forall_fmap.
    eapply Forall_impl; [exact Hclean|]. intros p Hp. simpl.
    apply token_has_no; auto. }
  assert (Hparts : fold_left (fun a p => BidsName.set_part (fst p) (snd p) a)
            (map BidsName.part_of_token (Str.split "_" stem)) [] = parts).
  { unfold stem. rewrite split_join.
    - rewrite <- list_fmap_compose.
      rewrite (list_fmap_ext _ id parts); [rewrite list_fmap_id|].
      + by apply fold_set_part.
      + intros i p Hp. simpl. apply token_round_trip.
        eapply Forall_lookup_1; [exact Hclean | exact Hp].
    - by destruct parts.
    - apply Forall_fmap. eapply Forall_impl; [exact Hclean|]. intros p Hp.
      simpl. apply token_has_no; auto. }
  destruct (String.eqb ext EmptyString) eqn:E.
  - apply String.eqb_eq in E as ->. rewrite partition_clean by done.
    simpl. by rewrite Hparts.
  - change (stem ++ "." ++ ext) with (stem ++ String "." ext).
    rewrite partition_app by done. simpl. by rewrite Hparts.
Qed.

Lemma partition_fst_clean c s : has_char c (fst (Str.partition c s)) = false.
Proof.
  induction s as [|d s IH]; simpl; [done|].
  destruct (Ascii.eqb d c) eqn:E; [done|].
  destruct (Str.partition c s) as [a b]. simpl in *. by rewrite E, IH.
Qed.

Lemma partition_keeps_clean d c s :
  has_char d s = false ->
  has_char d (fst (Str.partition c s)) = false
  /\ match snd (Str.partition c s) with
     | Some v => has_char d v = false
     | None => True
     end.
Proof.
  induction s as [|e s IH]; simpl; [done|].
  intros [He Hs]%orb_false_iff. destruct (Ascii.eqb e c); [done|].
  destruct (IH Hs) as [H1 H2].
  destruct (Str.partition c s) as [a b]. simpl in *. by rewrite He, H1.
Qed.

Lemma split_nonempty c s : Str.split c s ≠ [].
Proof.
  destruct s as [|d s]; simpl; [done|].
  destruct (Ascii.eqb d c); [done|]. by destruct (Str.split c s).
Qed.

Lemma split_no_sep c s : Forall (fun t => has_char c t = false) (Str.split c s).
Proof.
  induction s as [|d s IH]; simpl; [by repeat constructor|].
  destruct (Ascii.eqb d c) eqn:E; [by constructor|].
  destruct (Str.split c s) as [|t ts]; [by repeat constructor; simpl; rewrite E|].
  apply Forall_cons in IH as [Ht Hts]. constructor; [|done].
  simpl. by rewrite E, Ht.
Qed.

Lemma split_keeps_clean d c s :
  has_char d s = false -> Forall (fun t => has_char d t = false) (Str.split c s).
Proof.
  induction s as [|e s IH]; simpl; [by repeat constructor|].
  intros [He Hs]%orb_false_iff. specialize (IH Hs).
  destruct (Ascii.eqb e c); [by constructor|].
  destruct (Str.split c s) as [|t ts]; [by repeat constructor; simpl; rewrite He|].
  apply Forall_cons in IH as [Ht Hts]. constructor; [|done].
  simpl. by rewrite He, Ht.
Qed.

Lemma set_part_keys k v l :
  map fst (BidsName.set_part k v l)
  = if decide (k ∈ map fst l) then map fst l else (map fst l ++ [k])%list.
Proof.
  induction l as [|[k0 v0] l IH].
  - destruct (decide (k ∈ map fst [])) as [H|H]; [by apply elem_of_nil in H | done].
  - cbn [BidsName.set_part map fst]. destruct (String.eqb k0 k) eqn:E.
    + apply String.eqb_eq in E as ->. cbn [map fst].
      destruct (decide (k ∈ k :: map fst l)) as [H|H]; [done|].
      exfalso. apply H. left.
    + apply String.eqb_neq in E. cbn [map fst]. rewrite IH.
      destruct (decide (k ∈ map fst l)) as [H|H];
        destruct (decide (k ∈ k0 :: map fst l)) as [H'|H']; try done.
      * exfalso. apply H'. by right.
      * apply elem_of_cons in H' as [?|?]; [by subst | done].
Qed.

Lemma set_part_tidy k v l :
  clean_part (k, v) -> tidy l -> tidy (BidsName.set_part k v l).
Proof.
  intros Hkv [Hnd Hcl]. split.
  - rewrite set_part_keys. destruct (decide (k ∈ map fst l)); [done|].
    apply NoDup_app. split; [done|]. split; [|apply NoDup_singleton].
    intros k' Hk' ->%list_elem_of_singleton. done.
  - clear Hnd. induction l as [|[k0 v0] l IH]; simpl.
    + constructor; [done | constructor].
    + apply Forall_cons in Hcl as [H0 Hl].
      destruct (String.eqb k0 k) eqn:E.
      * apply String.eqb_eq in E as ->. by constructor.
      * constructor; [done | by apply IH].
Qed.

Lemma remove_part_keys k k' l :
  k' ∈ map fst (BidsName.remove_part k l) -> k' ∈ map fst l.
Proof.
  induction l as [|[k0 v0] l IH]; simpl; [done|].
  destruct (String.eqb k0 k); simpl.
  - intros H. right. by apply IH.
  - intros [->|H]%elem_of_cons; [by left | right; by apply IH].
Qed.

Lemma remove_part_tidy k l : tidy l -> tidy (BidsName.remove_part k l).
Proof.
  intros [Hnd Hcl]. induction l as [|[k0 v0] l IH]; simpl; [done|].
  simpl in Hnd. apply NoDup_cons in Hnd as [Hk0 Hnd].
  apply Forall_cons in Hcl as [H0 Hcl]. destruct (IH Hnd Hcl) as [IH1 IH2].
  destruct (String.eqb k0 k); [done|]. split.
  - simpl. apply NoDup_cons. split; [|done].
    intros Hin. by apply Hk0, (remove_part_keys k).
  - by constructor.
Qed.

Lemma set_part_nonempty k v l : BidsName.set_part k v l ≠ [].
Proof. destruct l as [|[k0 v0] l]; simpl; [done|]. by destruct (String.eqb k0 k). Qed.

Lemma nonempty_of_lookup k l :
  present (BidsName.lookup_part k l) = true -> l ≠ [].
Proof. by destruct l. Qed.

(** [from_string] builds well-formed names. *)
Lemma from_string_well_formed name : well_formed (BidsName.from_string name).
Proof.
  unfold BidsName.from_string.
  pose proof (partition_fst_clean "." name) as Hdot.
  destruct (Str.partition "." name) as [stem ext]. simpl in Hdot.
  unfold well_formed. simpl.
  assert (Htokens : Forall clean_part
            (map BidsName.part_of_token (Str.split "_" stem))).
  { apply Forall_fmap.
    pose proof (split_no_sep "_" stem) as H1.
    pose proof (split_keeps_clean "." "_" stem Hdot) as H2.
    apply Forall_forall. intros t Ht.
    rewrite Forall_forall in H1. rewrite Forall_forall in H2.
    specialize (H1 t Ht). specialize (H2 t Ht). simpl in H1, H2.
    unfold BidsName.part_of_token, clean_part. simpl.
    destruct (partition_keeps_clean "_" "-" t H1) as [Ha Hb].
    destruct (partition_keeps_clean "." "-" t H2) as [Hc Hd].
    pose proof (partition_fst_clean "-" t) as He.
    destruct (Str.partition "-" t) as [k [v|]]; simpl in *; done. }
  pose proof (split_nonempty "_" stem) as Hne.
  assert (Hgen : forall l acc,
            Forall clean_part l -> tidy acc -> (acc ≠ [] \/ l ≠ []) ->
            let r := fold_left
                       (fun a p => BidsName.set_part (fst p) (snd p) a) l acc in
            r ≠ [] /\ tidy r).
  { induction l as [|[k v] l IH]; intros acc Hl Hacc Hor; simpl.
    - destruct Hor; done.
    - apply Forall_cons in Hl as [Hkv Hl]. apply IH; [done | |].
      + by apply set_part_tidy.
      + left. apply set_part_nonempty. }
  destruct (Hgen (map BidsName.part_of_token (Str.split "_" stem)) [])
    as (Hr & Hnd & Hcl); [done | by split; constructor | |done].
  right. by destruct (Str.split "_" stem).
Qed.

Lemma well_formed_tidy n : well_formed n -> tidy (BidsName.parts n).
Proof. by intros (_ & ? & ?). Qed.

Lemma add_well_formed n k v :
  clean_part (k, v) -> tidy (BidsName.parts n) ->
  well_formed (BidsName.add n k v).
Proof.
  intros Hkv Hn. destruct (set_part_tidy k v _ Hkv Hn) as [? ?].
  split; [apply set_part_nonempty | done].
Qed.

Lemma remove_well_formed n k k' :
  String.eqb k k' = false ->
  present (BidsName.lookup_part k' (BidsName.parts n)) = true ->
  tidy (BidsName.parts n) ->
  well_formed (BidsName.remove n k).
Proof.
  intros Hne Hk' Hn. destruct (remove_part_tidy k _ Hn) as [? ?].
  split; [|done]. apply (nonempty_of_lookup k'). simpl.
  by rewrite lookup_remove, Hne.
Qed.

Lemma digit_is_clean c :
  Py.is_digit c = true -> Ascii.eqb c "_" = false /\ Ascii.eqb c "." = false.
Proof. destruct c as [[] [] [] [] [] [] [] []]; by intros. Qed.

Lemma has_value_present n k v :
  BidsName.has_value n k v = true ->
  present (BidsName.lookup_part k (BidsName.parts n)) = true.
Proof.
  unfold BidsName.has_value, BidsName.get.
  by destruct (BidsName.lookup_part k (BidsName.parts n)).
Qed.

(** The rules before the TB1TFL one keep a name well-formed. *)
Lemma rules_before_tb1tfl_well_formed n :
  well_formed n -> well_formed (rules_before_tb1tfl n).
Proof.
  intros Hn. unfold rules_before_tb1tfl.
  assert (H3 : well_formed (replace_echo n)).
  { unfold replace_echo.
    destruct (BidsName.match_echo n) as [[whole digit]|] eqn:E; [|done].
    apply search_echo_shape in E as (c & Hc & -> & ->).
    apply digit_is_clean in Hc as [Hu Hd].
    apply add_well_formed; [|by apply remove_part_tidy, well_formed_tidy].
    repeat split; simpl; by rewrite ?Hu, ?Hd. }
  revert H3. generalize (replace_echo n). clear n Hn. intros n Hn.
  assert (H4 : well_formed (drop_run_of_echo n)).
  { unfold drop_run_of_echo. destruct (echo_run_guard n) eqn:G; [|done].
    unfold echo_run_guard in G.
    apply andb_true_iff in G as [[He _]%andb_true_iff _].
    rewrite has_lookup in He.
    by apply (remove_well_formed n "run" "echo"); [| |apply well_formed_tidy]. }
  revert H4. generalize (drop_run_of_echo n). clear n Hn. intros n Hn.
  assert (H5 : well_formed (drop_run_of_mtw n)).
  { unfold drop_run_of_mtw. destruct (mtw_run_guard n) eqn:G; [|done].
    unfold mtw_run_guard in G. apply andb_true_iff in G as [Ha _].
    apply has_value_present in Ha.
    by apply (remove_well_formed n "run" "acq"); [| |apply well_formed_tidy]. }
  revert H5. generalize (drop_run_of_mtw n). clear n Hn. intros n Hn.
  assert (H6 : well_formed (replace_ph n)).
  { unfold replace_ph. destruct (ph_guard n); [|done].
    apply add_well_formed; [by repeat split|].
    by apply remove_part_tidy, well_formed_tidy. }
  revert H6. generalize (replace_ph n). clear n Hn. intros n Hn.
  assert (H7 : well_formed (add_part_mag n)).
  { unfold add_part_mag. destruct (part_mag_guard n); [|done].
    apply add_well_formed; [by repeat split | by apply well_formed_tidy]. }
  revert H7. generalize (add_part_mag n). clear n Hn. intros n Hn.
  assert (H8 : well_formed (replace_t2starw n)).
  { unfold replace_t2starw. destruct (t2starmap_guard n); [|done].
    apply add_well_formed; [by repeat split|].
    by apply remove_part_tidy, remove_part_tidy, well_formed_tidy. }
  revert H8. generalize (replace_t2starw n). clear n Hn. intros n Hn.
  assert (H9 : well_formed (drop_dwi_run_1 n)).
  { unfold drop_dwi_run_1. destruct (dwi_run_1_guard n) eqn:G; [|done].
    unfold dwi_run_1_guard in G. apply andb_true_iff in G as [Hd _].
    rewrite has_lookup in Hd.
    by apply (remove_well_formed n "run" "dwi"); [| |apply well_formed_tidy]. }
  revert H9. generalize (drop_dwi_run_1 n). clear n Hn. intros n Hn.
  unfold replace_dwi_run_2. destruct (dwi_run_2_guard n); [|done].
  apply add_well_formed; [by repeat split|].
  by apply remove_part_tidy, well_formed_tidy.
Qed.

(** A key that no rule before the TB1TFL one removes or adds keeps its
    component: the key does not start with [e] (the echo rule) and is none
    of [run], [ph], [part], [T2starw] and [T2starmap]. *)
Lemma rules_keep_other_keys n k c k' :
  k = String c k' -> Ascii.eqb "e" c = false ->
  String.eqb "run" k = false -> String.eqb "ph" k = false ->
  String.eqb "part" k = false -> String.eqb "T2starw" k = false ->
  String.eqb "T2starmap" k = false ->
  BidsName.lookup_part k (BidsName.parts (rules_before_tb1tfl n))
  = BidsName.lookup_part k (BidsName.parts n).
Proof.
  intros Hk Hc Hrun Hph Hpart Hw Hmap. unfold rules_before_tb1tfl.
  rewrite <- (lookup_replace_echo n k c k' Hk Hc).
  generalize (replace_echo n). intros a.
  unfold replace_dwi_run_2, drop_dwi_run_1, replace_t2starw, add_part_mag,
    replace_ph, drop_run_of_mtw, drop_run_of_echo.
  repeat match goal with
  | |- context [if ?g then _ else _] => destruct g
  end;
  cbn [BidsName.parts BidsName.add BidsName.remove];
  repeat (rewrite lookup_set || rewrite lookup_remove);
  by rewrite ?Hrun, ?Hph, ?Hpart, ?Hw, ?Hmap.
Qed.

Lemma rules_keep_extension n :
  BidsName.extension (rules_before_tb1tfl n) = BidsName.extension n.
Proof.
  unfold rules_before_tb1tfl, replace_dwi_run_2, drop_dwi_run_1,
    replace_t2starw, add_part_mag, replace_ph, drop_run_of_mtw,
    drop_run_of_echo, replace_echo.
  repeat match goal with
  | |- context [if ?g then _ else _] => destruct g
  end;
  cbn [BidsName.extension BidsName.add BidsName.remove];
  by destruct (BidsName.match_echo n) as [[? ?]|].
Qed.

(** * Further properties *)

(** ** [patch_file_path] *)

(** X1: a file that exists and whose name has the ROI1 marker is deleted
    under the ROI notice, unless it is an MP2RAGE bval or bvec file, which
    the first rule has taken before. *)
Theorem roi_file_deleted (name : string) (w : world) (f : file) :
  acq_dir w !! name = Some f ->
  is_mp2rage_gradient (BidsName.from_string name) = false ->
  BidsName.has (BidsName.from_string name) "ROI1" = true ->
  exists w',
    patch_file_path name w = (Return tt, w')
    /\ acq_dir w' = delete name (acq_dir w)
    /\ dicom_store w' = dicom_store w
    /\ console w' = (console w ++ [Info ("Remove ROI file '" ++ name ++ "'")])%list.
Proof.
  intros Hf Hg Hroi. unfold patch_file_path. rewrite Hg, Hroi.
  unfold mbind, M_bind, print, unlink. simpl. rewrite Hf.
  eexists. repeat split; reflexivity.
Qed.

(** X2: [patch_file_path] leaves the DICOM store alone, and in the directory
    it leaves every entry alone but the file itself and the entry of the
    name its rules produce. *)
Theorem patch_file_path_touches_two_entries
    (name other : string) (w w' : world) (r : outcome unit) :
  patch_file_path name w = (r, w') ->
  other ≠ name ->
  (forall n', rename_rules (BidsName.from_string name) = inr n' ->
              other ≠ BidsName.to_string n') ->
  dicom_store w' = dicom_store w
  /\ acq_dir w' !! other = acq_dir w !! other.
Proof.
  intros Hrun Hne Hnew. unfold patch_file_path in Hrun.
  destruct (is_mp2rage_gradient _); [|destruct (BidsName.has _ "ROI1")].
  - unfold mbind, M_bind, print, unlink in Hrun. simpl in Hrun.
    destruct (acq_dir w !! name); injection Hrun as <- <-; simpl; [|done].
    by rewrite lookup_delete_ne.
  - unfold mbind, M_bind, print, unlink in Hrun. simpl in Hrun.
    destruct (acq_dir w !! name); injection Hrun as <- <-; simpl; [|done].
    by rewrite lookup_delete_ne.
  - destruct (rename_rules _) as [e|n']; [by injection Hrun as <- <-|].
    destruct (negb _); [|by injection Hrun as <- <-].
    unfold mbind, M_bind, print, rename_file in Hrun. cbn [acq_dir] in Hrun.
    destruct (acq_dir w !! name); [|by injection Hrun as <- <-].
    destruct (_ <? _)%nat; injection Hrun as <- <-; simpl; [done|].
    rewrite lookup_insert_ne by (symmetry; by apply Hnew).
    by rewrite lookup_delete_ne.
Qed.

(** The rules raise nothing but the two exceptions of the TB1TFL rule, and
    nothing at all on a name without the TB1TFL marker. *)
Lemma rename_rules_exceptions n e :
  rename_rules n = inl e ->
  BidsName.has n "TB1TFL" = true
  /\ (e = Py.ValueError \/ e = Py.OverflowError).
Proof.
  unfold rename_rules, apply_tb1tfl. rewrite tb1tfl_marker_kept.
  destruct (BidsName.has n "TB1TFL"); [|done].
  destruct (run_number_of _) as [run_number|]; [|intros [= <-]; by auto].
  unfold Py.ceil_half. destruct (2 ^ 1025 <=? _); [intros [= <-]; by auto | done].
Qed.

(** X3: on a file that exists, [patch_file_path] returns, or raises the
    [ValueError] or the [OverflowError] of the TB1TFL rule, or the [OSError]
    of a rename to a name that the file system does not take. An exception
    of the TB1TFL rule comes before anything is printed or changed; the
    [OSError] comes after the notice of the rename, with the directory as
    it was. *)
Theorem patch_file_path_outcomes
    (name : string) (w w' : world) (f : file) (r : outcome unit) :
  acq_dir w !! name = Some f ->
  patch_file_path name w = (r, w') ->
  (r = Return tt \/ r = Raise Py.ValueError \/ r = Raise Py.OverflowError
   \/ r = Raise Py.OSError)
  /\ (BidsName.has (BidsName.from_string name) "TB1TFL" = false ->
      r = Return tt \/ r = Raise Py.OSError)
  /\ (r = Raise Py.ValueError \/ r = Raise Py.OverflowError -> w' = w)
  /\ (r = Raise Py.OSError ->
      exists n',
        rename_rules (BidsName.from_string name) = inr n'
        /\ ~ fits n'
        /\ acq_dir w' = acq_dir w
        /\ dicom_store w' = dicom_store w
        /\ console w'
           = (console w
              ++ [Info ("Renaming '" ++ name ++ "' to '"
                        ++ BidsName.to_string n' ++ "'.")])%list)
  /\ (forall n', rename_rules (BidsName.from_string name) = inr n' ->
                 fits n' -> r = Return tt).
Proof.
  intros Hf Hrun. unfold patch_file_path in Hrun.
  assert (Hret : r = Return tt ->
            (r = Return tt \/ r = Raise Py.ValueError \/ r = Raise Py.OverflowError
             \/ r = Raise Py.OSError)
            /\ (BidsName.has (BidsName.from_string name) "TB1TFL" = false ->
                r = Return tt \/ r = Raise Py.OSError)
            /\ (r = Raise Py.ValueError \/ r = Raise Py.OverflowError -> w' = w)
            /\ (r = Raise Py.OSError ->
                exists n',
                  rename_rules (BidsName.from_string name) = inr n'
                  /\ ~ fits n'
                  /\ acq_dir w' = acq_dir w
                  /\ dicom_store w' = dicom_store w
                  /\ console w'
                     = (console w
                        ++ [Info ("Renaming '" ++ name ++ "' to '"
                                  ++ BidsName.to_string n' ++ "'.")])%list)
            /\ (forall n', rename_rules (BidsName.from_string name) = inr n' ->
                           fits n' -> r = Return tt)).
  { intros ->. repeat split; auto; try by intros [|]. done. }
  destruct (is_mp2rage_gradient _); [|destruct (BidsName.has _ "ROI1")].
  - unfold mbind, M_bind, print, unlink in Hrun. cbn [acq_dir] in Hrun.
    rewrite Hf in Hrun. injection Hrun as <- <-. by apply Hret.
  - unfold mbind, M_bind, print, unlink in Hrun. cbn [acq_dir] in Hrun.
    rewrite Hf in Hrun. injection Hrun as <- <-. by apply Hret.
  - destruct (rename_rules _) as [e|n'] eqn:E.
    + apply rename_rules_exceptions in E as [Hm He].
      injection Hrun as <- <-. split; [|split; [|split; [|split]]].
      * destruct He as [-> | ->]; auto.
      * rewrite Hm. done.
      * done.
      * destruct He as [-> | ->]; done.
      * done.
    + destruct (negb _); [|injection Hrun as <- <-; by apply Hret].
      unfold mbind, M_bind, print, rename_file in Hrun. cbn [acq_dir] in Hrun.
      rewrite Hf in Hrun.
      destruct (Nat.ltb_spec name_max (String.length (BidsName.to_string n')))
        as [Hlong|Hfits]; injection Hrun as <- <-; [|by apply Hret].
      split; [auto|]. split; [auto|]. split; [by intros [|]|]. split.
      * intros _. exists n'. repeat split. unfold fits. lia.
      * intros n'' [= <-] Hfit. unfold fits in Hfit. lia.
Qed.

(** ** The rules on the components of a name *)

Lemma rules_before_tb1tfl_echo_first n :
  rules_before_tb1tfl n = rules_after_echo (replace_echo n).
Proof. reflexivity. Qed.

(** The rules after the echo rule touch no component but [run], [ph],
    [part], [T2starw] and [T2starmap]. *)
Lemma rules_after_echo_keep a k :
  String.eqb "run" k = false -> String.eqb "ph" k = false ->
  String.eqb "part" k = false -> String.eqb "T2starw" k = false ->
  String.eqb "T2starmap" k = false ->
  BidsName.lookup_part k (BidsName.parts (rules_after_echo a))
  = BidsName.lookup_part k (BidsName.parts a).
Proof.
  intros Hrun Hph Hpart Hw Hmap.
  unfold rules_after_echo, replace_dwi_run_2, drop_dwi_run_1, replace_t2starw,
    add_part_mag, replace_ph, drop_run_of_mtw, drop_run_of_echo.
  repeat match goal with
  | |- context [if ?g then _ else _] => destruct g
  end;
  cbn [BidsName.parts BidsName.add BidsName.remove];
  repeat (rewrite lookup_set || rewrite lookup_remove);
  by rewrite ?Hrun, ?Hph, ?Hpart, ?Hw, ?Hmap.
Qed.

(** The TB1TFL rule touches no component but [acq] and [run]. *)
Lemma apply_tb1tfl_keep m n' k :
  apply_tb1tfl m = inr n' ->
  String.eqb "acq" k = false -> String.eqb "run" k = false ->
  BidsName.lookup_part k (BidsName.parts n')
  = BidsName.lookup_part k (BidsName.parts m).
Proof.
  unfold apply_tb1tfl. intros Hrun Hacq Hr.
  destruct (BidsName.has m "TB1TFL"); [|by injection Hrun as <-].
  destruct (run_number_of m); [|done].
  destruct (Py.ceil_half z); [done|]. injection Hrun as <-.
  cbn [BidsName.parts BidsName.add]. by rewrite !lookup_set, Hacq, Hr.
Qed.

(** X4: when the raw name has an echo marker [e<digit>], the name that the
    rules produce has the component [echo-<digit>] and no component named by
    the marker. *)
Theorem echo_marker_replaced (n n' : BidsName.t) (whole digit : string) :
  BidsName.match_echo n = Some (whole, digit) ->
  rename_rules n = inr n' ->
  BidsName.get n' "echo" = Some digit /\ BidsName.has n' whole = false.
Proof.
  intros Hm Hrules. unfold rename_rules in Hrules.
  rewrite rules_before_tb1tfl_echo_first in Hrules.
  rewrite has_lookup. unfold BidsName.get.
  pose proof (search_echo_shape _ _ _ Hm) as (c & Hc & -> & ->).
  rewrite !(apply_tb1tfl_keep _ _ _ Hrules) by done.
  rewrite !rules_after_echo_keep by done.
  unfold replace_echo. rewrite Hm.
  cbn [BidsName.parts BidsName.add BidsName.remove].
  rewrite !lookup_set, !lookup_remove. cbn [String.eqb Ascii.eqb Bool.eqb].
  split; [done|].
  destruct c as [b0 b1 b2 b3 b4 b5 b6 b7].
  destruct b0, b1, b2, b3, b4, b5, b6, b7; reflexivity.
Qed.

(** X5: the name that the rules produce carries no [ph] marker, and with
    [T2starw] and [echo] it carries a [part]. When the name has no TB1TFL
    marker, the produced name moreover has neither [run-1] nor [run-2] beside
    [dwi], no [run] beside [acq-mtw], and no [run] beside [echo] unless the
    task is [rest]. *)
Theorem produced_name_is_settled (n n' : BidsName.t) :
  rename_rules n = inr n' ->
  BidsName.has n' "ph" = false
  /\ (BidsName.has n' "T2starw" = true -> BidsName.has n' "echo" = true ->
      BidsName.has n' "part" = true)
  /\ (BidsName.has n "TB1TFL" = false ->
      (BidsName.has n' "dwi" = true ->
       BidsName.has_value n' "run" "1" = false
       /\ BidsName.has_value n' "run" "2" = false)
      /\ (BidsName.has_value n' "acq" "mtw" = true -> BidsName.has n' "run" = false)
      /\ (BidsName.has n' "echo" = true -> BidsName.has n' "run" = true ->
          BidsName.has_value n' "task" "rest" = true)).
Proof.
  intros Hrules.
  destruct (rules_settle n) as (H4 & H5 & H6 & H7 & _ & H9 & H10).
  unfold rename_rules in Hrules.
  pose proof (tb1tfl_marker_kept n) as Hmarker.
  revert Hrules H4 H5 H6 H7 H9 H10 Hmarker.
  generalize (rules_before_tb1tfl n). intros h Hrules H4 H5 H6 H7 H9 H10 Hmarker.
  assert (Hkeep : forall k, String.eqb "acq" k = false -> String.eqb "run" k = false ->
            BidsName.has n' k = BidsName.has h k).
  { intros k Ha Hr. rewrite !has_lookup. by rewrite (apply_tb1tfl_keep h n' k). }
  split; [|split].
  - rewrite Hkeep by done. exact H6.
  - rewrite !Hkeep by done. unfold part_mag_guard in H7.
    destruct (BidsName.has h "T2starw"), (BidsName.has h "echo"),
      (BidsName.has h "part"); done.
  - intros Hm. unfold apply_tb1tfl in Hrules.
    rewrite Hmarker, Hm in Hrules. injection Hrules as <-.
    unfold dwi_run_1_guard in H9. unfold dwi_run_2_guard in H10.
    unfold mtw_run_guard in H5. unfold echo_run_guard in H4.
    clear - H4 H5 H9 H10.
    destruct (BidsName.has h "dwi"), (BidsName.has_value h "run" "1"),
      (BidsName.has_value h "run" "2"), (BidsName.has_value h "acq" "mtw"),
      (BidsName.has h "run"), (BidsName.has h "echo"),
      (BidsName.has_value h "task" "rest"); done.
Qed.

(** X6: an [acq-aspire] [T2starw] name with no [desc], no [part], no [ph] and
    no echo (neither the component nor a marker) comes out of the rules
    before the TB1TFL one as the same name without [run] and [T2starw] and
    with [T2starmap]. *)
Theorem aspire_t2starw_becomes_map (n : BidsName.t) :
  BidsName.has_value n "acq" "aspire" = true ->
  BidsName.has n "T2starw" = true ->
  BidsName.has n "desc" = false ->
  BidsName.has n "part" = false ->
  BidsName.has n "ph" = false ->
  BidsName.has n "echo" = false ->
  BidsName.match_echo n = None ->
  let h := rules_before_tb1tfl n in
  h = BidsName.add (BidsName.remove (BidsName.remove n "run") "T2starw")
        "T2starmap" None
  /\ BidsName.has h "T2starmap" = true
  /\ BidsName.has h "T2starw" = false
  /\ BidsName.has h "run" = false.
Proof.
  intros Hacq Hw Hdesc Hpart Hph Hecho Hmatch h.
  assert (Hh : h = BidsName.add
                     (BidsName.remove (BidsName.remove n "run") "T2starw")
                     "T2starmap" None).
  { unfold h, rules_before_tb1tfl, replace_echo. rewrite Hmatch.
    assert (G4 : echo_run_guard n = false)
      by (unfold echo_run_guard; by rewrite Hecho).
    unfold drop_run_of_echo. rewrite G4.
    assert (G5 : mtw_run_guard n = false).
    { unfold mtw_run_guard. unfold BidsName.has_value in *.
      destruct (BidsName.get n "acq") as [v|]; [|done].
      by apply String.eqb_eq in Hacq as ->. }
    unfold drop_run_of_mtw. rewrite G5.
    unfold replace_ph, ph_guard. rewrite Hph.
    assert (G7 : part_mag_guard n = false)
      by (unfold part_mag_guard; by rewrite Hw, Hecho).
    unfold add_part_mag. rewrite G7.
    assert (G8 : t2starmap_guard n = true)
      by (unfold t2starmap_guard; by rewrite Hacq, Hw, Hdesc, Hpart).
    unfold replace_t2starw. rewrite G8.
    set (x := BidsName.add _ _ _).
    assert (G9 : dwi_run_1_guard x = false).
    { unfold x. clear. unfold_guards. to_lookups. by rewrite andb_false_r. }
    unfold drop_dwi_run_1. rewrite G9.
    assert (G10 : dwi_run_2_guard x = false).
    { unfold x. clear. unfold_guards. to_lookups. by rewrite andb_false_r. }
    unfold replace_dwi_run_2. by rewrite G10. }
  split; [done|]. rewrite Hh. clear. to_lookups. done.
Qed.

(** The three rules after the echo rule touch no component but [run], [ph]
    and [part]. *)
Lemma first_rules_keep a k :
  String.eqb "run" k = false -> String.eqb "ph" k = false ->
  String.eqb "part" k = false ->
  BidsName.lookup_part k
    (BidsName.parts (replace_ph (drop_run_of_mtw (drop_run_of_echo a))))
  = BidsName.lookup_part k (BidsName.parts a).
Proof.
  intros Hrun Hph Hpart.
  unfold replace_ph, drop_run_of_mtw, drop_run_of_echo.
  repeat match goal with
  | |- context [if ?g then _ else _] => destruct g
  end;
  cbn [BidsName.parts BidsName.add BidsName.remove];
  repeat (rewrite lookup_set || rewrite lookup_remove);
  by rewrite ?Hrun, ?Hph, ?Hpart.
Qed.

(** The two DWI rules touch no component but [run] and [part], and leave a
    [part] where there is one. *)
Lemma dwi_rules_keep x k :
  String.eqb "run" k = false ->
  (String.eqb "part" k = false ->
   BidsName.lookup_part k (BidsName.parts (replace_dwi_run_2 (drop_dwi_run_1 x)))
   = BidsName.lookup_part k (BidsName.parts x))
  /\ (present (BidsName.lookup_part k (BidsName.parts x)) = true ->
      present (BidsName.lookup_part k
                 (BidsName.parts (replace_dwi_run_2 (drop_dwi_run_1 x)))) = true).
Proof.
  intros Hrun. unfold replace_dwi_run_2, drop_dwi_run_1.
  split; intros H;
    repeat match goal with
    | |- context [if ?g then _ else _] => destruct g
    end;
    cbn [BidsName.parts BidsName.add BidsName.remove];
    repeat (rewrite lookup_set || rewrite lookup_remove);
    rewrite ?Hrun, ?H; try done.
  all: by destruct (String.eqb "part" k).
Qed.

(** X7: a [T2starw] name with an echo, as a component or as a marker in the
    raw name, keeps [T2starw] through the rules and has a [part] afterwards;
    the rule that turns [T2starw] into [T2starmap] does not apply to it. *)
Theorem t2starw_with_echo_keeps_its_suffix (n n' : BidsName.t) :
  rename_rules n = inr n' ->
  BidsName.has n "T2starw" = true ->
  BidsName.has n "echo" = true \/ is_Some (BidsName.match_echo n) ->
  BidsName.has n' "T2starw" = true
  /\ BidsName.has n' "echo" = true
  /\ BidsName.has n' "part" = true
  /\ BidsName.has n' "T2starmap" = BidsName.has n "T2starmap".
Proof.
  intros Hrules Hw Hecho. unfold rename_rules in Hrules.
  rewrite !has_lookup in *.
  rewrite !(apply_tb1tfl_keep _ _ _ Hrules) by done.
  rewrite rules_before_tb1tfl_echo_first.
  assert (Ha : present (BidsName.lookup_part "T2starw"
                          (BidsName.parts (replace_echo n))) = true
               /\ present (BidsName.lookup_part "echo"
                             (BidsName.parts (replace_echo n))) = true
               /\ BidsName.lookup_part "T2starmap" (BidsName.parts (replace_echo n))
                  = BidsName.lookup_part "T2starmap" (BidsName.parts n)).
  { rewrite (lookup_replace_echo n "T2starw" "T" "2starw") by done.
    rewrite (lookup_replace_echo n "T2starmap" "T" "2starmap") by done.
    split; [done|]. split; [|done]. unfold replace_echo.
    destruct (BidsName.match_echo n) as [[whole digit]|] eqn:E.
    - cbn [BidsName.parts BidsName.add]. by rewrite lookup_set.
    - destruct Hecho as [H|[? H]]; done. }
  destruct Ha as (Ha1 & Ha2 & Ha3). rewrite <- Ha3. clear Ha3 Hw Hecho Hrules.
  revert Ha1 Ha2. generalize (replace_echo n). clear n. intros a Ha1 Ha2.
  unfold rules_after_echo.
  set (x := replace_ph (drop_run_of_mtw (drop_run_of_echo a))).
  assert (Hx1 : present (BidsName.lookup_part "T2starw" (BidsName.parts x)) = true)
    by (unfold x; by rewrite first_rules_keep).
  assert (Hx2 : present (BidsName.lookup_part "echo" (BidsName.parts x)) = true)
    by (unfold x; by rewrite first_rules_keep).
  assert (Hx3 : BidsName.lookup_part "T2starmap" (BidsName.parts x)
                = BidsName.lookup_part "T2starmap" (BidsName.parts a))
    by (unfold x; by rewrite first_rules_keep).
  rewrite <- Hx3. clearbody x. clear a Ha1 Ha2 Hx3.
  set (y := add_part_mag x).
  assert (Hy : present (BidsName.lookup_part "T2starw" (BidsName.parts y)) = true
               /\ present (BidsName.lookup_part "echo" (BidsName.parts y)) = true
               /\ present (BidsName.lookup_part "part" (BidsName.parts y)) = true
               /\ BidsName.lookup_part "T2starmap" (BidsName.parts y)
                  = BidsName.lookup_part "T2starmap" (BidsName.parts x)).
  { unfold y, add_part_mag, part_mag_guard. rewrite !has_lookup, Hx1, Hx2.
    destruct (present (BidsName.lookup_part "part" (BidsName.parts x))) eqn:Hp;
      cbn [andb negb BidsName.parts BidsName.add];
      rewrite ?lookup_set; cbn [String.eqb Ascii.eqb Bool.eqb]; done. }
  destruct Hy as (Hy1 & Hy2 & Hy3 & Hy4). rewrite <- Hy4.
  clearbody y. clear x Hx1 Hx2 Hy4.
  assert (Hz : replace_t2starw y = y).
  { unfold replace_t2starw, t2starmap_guard. rewrite (has_lookup y "part"), Hy3.
    by rewrite andb_false_r. }
  rewrite Hz.
  destruct (dwi_rules_keep y "T2starw" eq_refl) as [K1 _].
  destruct (dwi_rules_keep y "echo" eq_refl) as [K2 _].
  destruct (dwi_rules_keep y "T2starmap" eq_refl) as [K3 _].
  destruct (dwi_rules_keep y "part" eq_refl) as [_ K4].
  rewrite K1, K2, K3 by done. auto.
Qed.

(** X8: on a [dwi] name with [run-2] and no echo (neither the component nor
    a marker), whose [acq] is neither [mtw] nor [aspire], the rules before
    the TB1TFL one end in the name after the [ph] rule with [run] removed and
    [part-phase] added. *)
Theorem dwi_second_run_becomes_phase (n : BidsName.t) :
  BidsName.has n "dwi" = true ->
  BidsName.has_value n "run" "2" = true ->
  BidsName.has n "echo" = false ->
  BidsName.match_echo n = None ->
  BidsName.has_value n "acq" "mtw" = false ->
  BidsName.has_value n "acq" "aspire" = false ->
  let h := rules_before_tb1tfl n in
  h = BidsName.add (BidsName.remove (replace_ph n) "run") "part" (Some "phase")
  /\ BidsName.has h "run" = false
  /\ BidsName.has_value h "part" "phase" = true.
Proof.
  intros Hdwi Hrun Hecho Hmatch Hmtw Haspire h.
  assert (Hh : h = BidsName.add (BidsName.remove (replace_ph n) "run")
                     "part" (Some "phase")).
  { unfold h, rules_before_tb1tfl, replace_echo. rewrite Hmatch.
    unfold drop_run_of_echo, echo_run_guard. rewrite Hecho. cbn [andb].
    unfold drop_run_of_mtw, mtw_run_guard. rewrite Hmtw. cbn [andb].
    set (x := replace_ph n).
    assert (Hx : forall k, String.eqb "ph" k = false -> String.eqb "part" k = false ->
              BidsName.lookup_part k (BidsName.parts x)
              = BidsName.lookup_part k (BidsName.parts n)).
    { intros k Hph Hpart. unfold x, replace_ph. destruct (ph_guard n); [|done].
      cbn [BidsName.parts BidsName.add BidsName.remove].
      by rewrite lookup_set, lookup_remove, Hph, Hpart. }
    assert (G7 : part_mag_guard x = false).
    { unfold part_mag_guard. rewrite (has_lookup x "echo"), Hx by done.
      rewrite <- has_lookup, Hecho. by rewrite andb_false_r. }
    unfold add_part_mag. rewrite G7.
    assert (G8 : t2starmap_guard x = false).
    { unfold t2starmap_guard, BidsName.has_value, BidsName.get.
      rewrite Hx by done. unfold BidsName.has_value, BidsName.get in Haspire.
      by rewrite Haspire. }
    unfold replace_t2starw. rewrite G8.
    assert (G9 : dwi_run_1_guard x = false).
    { unfold dwi_run_1_guard, BidsName.has_value, BidsName.get.
      rewrite Hx by done. unfold BidsName.has_value, BidsName.get in Hrun.
      destruct (BidsName.lookup_part "run" (BidsName.parts n)) as [[v|]|];
        try done.
      apply String.eqb_eq in Hrun as ->. by rewrite andb_false_r. }
    unfold drop_dwi_run_1. rewrite G9.
    assert (G10 : dwi_run_2_guard x = true).
    { unfold dwi_run_2_guard, BidsName.has_value, BidsName.get.
      rewrite has_lookup, !Hx by done. rewrite <- has_lookup, Hdwi.
      unfold BidsName.has_value, BidsName.get in Hrun. by rewrite Hrun. }
    unfold replace_dwi_run_2. by rewrite G10. }
  split; [done|]. rewrite Hh. clear.
  unfold BidsName.has_value, BidsName.get. rewrite has_lookup.
  cbn [BidsName.parts BidsName.add BidsName.remove].
  by rewrite !lookup_set, lookup_remove.
Qed.

(** ** The TB1TFL rule *)

Lemma str_of_int_inj a b : Py.str_of_int a = Py.str_of_int b -> a = b.
Proof.
  unfold Py.str_of_int. intros H.
  assert (Hnz : forall z, Z.to_int z <> Decimal.Pos Decimal.Nil
                          /\ Z.to_int z <> Decimal.Neg Decimal.Nil).
  { intros [|p|p]; simpl; split; try done;
      intros [= Hp]; by apply DecimalPos.Unsigned.to_uint_nonnil in Hp. }
  assert (Hi : Some (Z.to_int a) = Some (Z.to_int b)).
  { rewrite <- (NilZero.isi (Z.to_int a)) by apply Hnz.
    rewrite <- (NilZero.isi (Z.to_int b)) by apply Hnz. by rewrite H. }
  injection Hi as Hi. rewrite <- (DecimalZ.of_to a), <- (DecimalZ.of_to b).
  by rewrite Hi.
Qed.

Lemma parity_and_half_determine r1 r2 :
  Z.odd r1 = Z.odd r2 -> (r1 + 1) / 2 = (r2 + 1) / 2 -> r1 = r2.
Proof.
  intros Hodd Hhalf.
  pose proof (Zmod_odd r1) as H1. pose proof (Zmod_odd r2) as H2.
  rewrite Hodd in H1. destruct (Z.odd r2); Z.div_mod_to_equations; lia.
Qed.

(** X9: two TB1TFL names whose run no earlier rule removes, and whose runs
    are different integers below 2^53 in magnitude, get different pairs of
    [acq] and [run] from the rules. *)
Theorem tb1tfl_pairs_are_distinct
    (n1 n2 n1' n2' : BidsName.t) (r1 r2 : Z) :
  BidsName.has n1 "TB1TFL" = true -> BidsName.has n2 "TB1TFL" = true ->
  run_kept n1 -> run_kept n2 ->
  run_number_of n1 = Some r1 -> run_number_of n2 = Some r2 ->
  Z.abs r1 < 2 ^ 53 -> Z.abs r2 < 2 ^ 53 ->
  rename_rules n1 = inr n1' -> rename_rules n2 = inr n2' ->
  r1 <> r2 ->
  ~ (BidsName.get n1' "acq" = BidsName.get n2' "acq"
     /\ BidsName.get n1' "run" = BidsName.get n2' "run").
Proof.
  intros Hm1 Hm2 Hk1 Hk2 Hr1 Hr2 Hs1 Hs2 Ha1 Ha2 Hne [Hacq Hrun]. apply Hne.
  unfold rename_rules in Ha1, Ha2.
  assert (Hr1' : run_number_of (rules_before_tb1tfl n1) = Some r1)
    by (unfold run_number_of in *; by rewrite Hk1).
  assert (Hr2' : run_number_of (rules_before_tb1tfl n2) = Some r2)
    by (unfold run_number_of in *; by rewrite Hk2).
  rewrite <- tb1tfl_marker_kept in Hm1, Hm2.
  destruct (apply_tb1tfl_small _ r1 Hm1 Hr1' Hs1) as (m1 & E1 & A1 & R1).
  destruct (apply_tb1tfl_small _ r2 Hm2 Hr2' Hs2) as (m2 & E2 & A2 & R2).
  rewrite Ha1 in E1. rewrite Ha2 in E2.
  injection E1 as <-. injection E2 as <-.
  rewrite A1, A2 in Hacq. rewrite R1, R2 in Hrun.
  injection Hrun as Hrun%str_of_int_inj.
  apply parity_and_half_determine; [|done].
  destruct (Z.odd r1), (Z.odd r2); done.
Qed.

(** ** The loops of [patch_json] *)

(** A loop that writes one field writes it into the sidecars of its marker
    only. *)
Lemma field_stage_writes_own_field marker key (v : json) w r w' :
  stage marker (fun p => update_json p {[ key := v ]}) w = (r, w') ->
  sidecar_frame (fun name k => k = key /\ glob_json marker name = true) w w'.
Proof.
  apply (stage_respects
           (sidecar_frame (fun name k => k = key /\ glob_json marker name = true))
           marker (fun p => update_json p {[ key := v ]})
           (sidecar_frame_refl _) (sidecar_frame_trans _)).
  intros p wa ra wb Hg. by apply singleton_field_frame.
Qed.

Lemma frame_same_entries allowed w w' name :
  sidecar_frame allowed w w' ->
  is_Some (acq_dir w' !! name) <-> is_Some (acq_dir w !! name).
Proof.
  intros (_ & _ & H). specialize (H name).
  destruct (acq_dir w !! name) as [[obj| |]|].
  - destruct H as (obj' & -> & _). split; eauto.
  - by rewrite H.
  - by rewrite H.
  - by rewrite H.
Qed.

(** Once a sidecar has the field that a loop writes, the loop keeps it. *)
Lemma update_loop_keeps (fields : gmap string json) key v name l :
  fields !! key = Some v ->
  forall w r w',
    (exists obj, acq_dir w !! name = Some (JsonFile obj) /\ obj !! key = Some v) ->
    for_each l (fun p => update_json p fields) w = (r, w') ->
    exists obj, acq_dir w' !! name = Some (JsonFile obj) /\ obj !! key = Some v.
Proof.
  intros Hfield w r w' Hhas Hrun. revert Hhas.
  eapply (for_each_respects
            (fun w1 w2 =>
               (exists obj, acq_dir w1 !! name = Some (JsonFile obj)
                            /\ obj !! key = Some v) ->
               exists obj, acq_dir w2 !! name = Some (JsonFile obj)
                           /\ obj !! key = Some v)
            l (fun p => update_json p fields)); [| | |exact Hrun].
  - done.
  - intros w1 w2 w3 H12 H23 H1. auto.
  - intros p w1 r1 w2 _ Hstep (obj & Hobj & Hk). unfold update_json in Hstep.
    destruct (acq_dir w1 !! p) as [[o| |]|] eqn:Ep; injection Hstep as <- <-;
      eauto.
    simpl. destruct (decide (p = name)) as [->|Hne].
    + rewrite lookup_insert_eq. eexists. split; [done|].
      by rewrite lookup_union_l'.
    + rewrite lookup_insert_ne by done. eauto.
Qed.

(** A loop that returns has written its field into every sidecar it went
    over. *)
Lemma update_loop_sets (fields : gmap string json) key v name l :
  fields !! key = Some v ->
  name ∈ l ->
  forall w w',
    for_each l (fun p => update_json p fields) w = (Return tt, w') ->
    exists obj, acq_dir w' !! name = Some (JsonFile obj) /\ obj !! key = Some v.
Proof.
  intros Hfield. induction l as [|p l IH]; intros Hin w w' Hrun.
  - by apply elem_of_nil in Hin.
  - simpl in Hrun. apply seq_return_inv in Hrun as ([] & w1 & Hstep & Hrest).
    apply elem_of_cons in Hin as [->|Hin]; [|by eapply IH].
    eapply update_loop_keeps; [exact Hfield | | exact Hrest].
    unfold update_json in Hstep.
    destruct (acq_dir w !! p) as [[o| |]|]; try discriminate Hstep.
    injection Hstep as <-.
    simpl. rewrite lookup_insert_eq. eexists. split; [done|].
    by rewrite lookup_union_l'.
Qed.

Lemma field_stage_sets marker key (v : json) name w w' :
  stage marker (fun p => update_json p {[ key := v ]}) w = (Return tt, w') ->
  is_Some (acq_dir w !! name) -> glob_json marker name = true ->
  exists obj, acq_dir w' !! name = Some (JsonFile obj) /\ obj !! key = Some v.
Proof.
  unfold stage. rewrite bind_run.
  destruct (rglob_json_run marker w) as (l & -> & Hl). intros Hrun Hsome Hg.
  eapply (update_loop_sets {[ key := v ]} key v name l);
    [apply lookup_singleton_eq | by apply Hl | exact Hrun].
Qed.

(** A field that is in place stays through a run that does not write it. *)
Lemma frame_keeps_field (allowed : string -> string -> Prop) name key v w w' :
  sidecar_frame allowed w w' -> ~ allowed name key ->
  (exists obj, acq_dir w !! name = Some (JsonFile obj) /\ obj !! key = Some v) ->
  exists obj, acq_dir w' !! name = Some (JsonFile obj) /\ obj !! key = Some v.
Proof.
  intros (_ & _ & H) Hna (obj & Hobj & Hk). specialize (H name).
  rewrite Hobj in H. destruct H as (obj' & Hobj' & Hkeep & _).
  exists obj'. split; [done|]. by rewrite Hkeep.
Qed.

Section MoreSidecarProperties.

Variable float_of_str : string -> option float.

Lemma patch_json_after_field_stages dicom_series w :
  patch_json float_of_str dicom_series w
  = (field_stages ;;
     stage "neuromelaninMTw" (set_mt_flip_angle float_of_str dicom_series)) w.
Proof.
  rewrite patch_json_stages. unfold field_stages. rewrite !bind_run.
  destruct (stage "part-phase"
              (fun p => update_json p {[ "Units" := JString "rad" ]}) w)
    as [[[]|e] w1]; [|reflexivity].
  rewrite !bind_run.
  destruct (stage "mt-off"
              (fun p => update_json p {[ "MTState" := JBool false ]}) w1)
    as [[[]|e] w2]; [|reflexivity].
  rewrite !bind_run.
  destruct (stage "mt-on"
                 (fun p => update_json p {[ "MTState" := JBool true ]}) w2)
    as [[[]|e] w3]; reflexivity.
Qed.

(** The neuromelanin loop writes [MTFlipAngle] into the sidecars of its
    marker only. *)
Lemma neuromelanin_stage_frame dicom_series w r w' :
  stage "neuromelaninMTw" (set_mt_flip_angle float_of_str dicom_series) w = (r, w') ->
  sidecar_frame
    (fun name k => k = "MTFlipAngle" /\ glob_json "neuromelaninMTw" name = true)
    w w'.
Proof.
  apply (stage_respects _ "neuromelaninMTw"
           (set_mt_flip_angle float_of_str dicom_series)
           (sidecar_frame_refl _) (sidecar_frame_trans _)).
  intros name w1 r1 w2 Hg. unfold set_mt_flip_angle. rewrite bind_run.
  destruct (get_mt_flip_angle float_of_str dicom_series w1) as [[[x|]|e] w1'] eqn:E;
    apply get_mt_flip_angle_effect in E as (Ea & Ed & Ev).
  - intros Hu. eapply sidecar_frame_trans; [by apply frame_of_same_dir|].
    by eapply singleton_field_frame; [|exact Hu].
  - intros [= <- <-]. by apply frame_of_same_dir.
  - intros [= <- <-]. by apply frame_of_same_dir.
Qed.

(** X10: [patch_json] creates, deletes and renames nothing: the directory
    has the same entry names afterwards, every entry that is not a JSON
    object is as before, and the DICOM store is as before. *)
Theorem patch_json_keeps_the_entries
    (dicom_series : DicomSeriesInfo) (w w' : world) (r : outcome unit) :
  patch_json float_of_str dicom_series w = (r, w') ->
  dom (acq_dir w') = dom (acq_dir w)
  /\ dicom_store w' = dicom_store w
  /\ (forall name,
        (forall obj, acq_dir w !! name ≠ Some (JsonFile obj)) ->
        acq_dir w' !! name = acq_dir w !! name).
Proof.
  intros Hrun. apply patch_json_respects_frame in Hrun.
  split; [|split].
  - apply set_eq. intros name. rewrite !elem_of_dom.
    by eapply frame_same_entries.
  - by destruct Hrun as (? & _).
  - intros name Hno. destruct Hrun as (_ & _ & H). specialize (H name).
    destruct (acq_dir w !! name) as [[obj| |]|]; try done.
    by destruct (Hno obj).
Qed.

(** X11: a run of [patch_json] that returns leaves [Units] = "rad" in every
    sidecar whose name matches the part-phase pattern. *)
Theorem part_phase_sidecar_gets_units
    (dicom_series : DicomSeriesInfo) (w w' : world)
    (name : string) (obj : gmap string json) :
  patch_json float_of_str dicom_series w = (Return tt, w') ->
  acq_dir w !! name = Some (JsonFile obj) ->
  glob_json "part-phase" name = true ->
  exists obj',
    acq_dir w' !! name = Some (JsonFile obj')
    /\ obj' !! "Units" = Some (JString "rad").
Proof.
  intros Hrun Hname Hg. rewrite patch_json_stages in Hrun.
  apply seq_return_inv in Hrun as ([] & w1 & H1 & Hrun).
  apply seq_return_inv in Hrun as ([] & w2 & H2 & Hrun).
  apply seq_return_inv in Hrun as ([] & w3 & H3 & Hrun).
  eapply frame_keeps_field; [exact (neuromelanin_stage_frame _ _ _ _ Hrun) | |].
  { by intros [? _]. }
  eapply frame_keeps_field; [exact (field_stage_writes_own_field _ _ _ _ _ _ H3) | |].
  { by intros [? _]. }
  eapply frame_keeps_field; [exact (field_stage_writes_own_field _ _ _ _ _ _ H2) | |].
  { by intros [? _]. }
  eapply field_stage_sets; [exact H1 | by rewrite Hname | done].
Qed.

(** X12: a run of [patch_json] that returns leaves [MTState] true in every
    sidecar whose name matches the mt-on pattern, also when the name matches
    the mt-off pattern as well, and [MTState] false in every sidecar whose
    name matches the mt-off pattern and not the mt-on one. *)
Theorem mt_sidecar_gets_state
    (dicom_series : DicomSeriesInfo) (w w' : world)
    (name : string) (obj : gmap string json) :
  patch_json float_of_str dicom_series w = (Return tt, w') ->
  acq_dir w !! name = Some (JsonFile obj) ->
  (glob_json "mt-on" name = true ->
   exists obj', acq_dir w' !! name = Some (JsonFile obj')
                /\ obj' !! "MTState" = Some (JBool true))
  /\ (glob_json "mt-off" name = true -> glob_json "mt-on" name = false ->
      exists obj', acq_dir w' !! name = Some (JsonFile obj')
                   /\ obj' !! "MTState" = Some (JBool false)).
Proof.
  intros Hrun Hname. rewrite patch_json_stages in Hrun.
  apply seq_return_inv in Hrun as ([] & w1 & H1 & Hrun).
  apply seq_return_inv in Hrun as ([] & w2 & H2 & Hrun).
  apply seq_return_inv in Hrun as ([] & w3 & H3 & Hrun).
  pose proof (field_stage_writes_own_field _ _ _ _ _ _ H1) as F1.
  pose proof (field_stage_writes_own_field _ _ _ _ _ _ H2) as F2.
  pose proof (field_stage_writes_own_field _ _ _ _ _ _ H3) as F3.
  pose proof (neuromelanin_stage_frame _ _ _ _ Hrun) as F4.
  assert (S1 : is_Some (acq_dir w1 !! name))
    by (apply (frame_same_entries _ _ _ _ F1); by rewrite Hname).
  assert (S2 : is_Some (acq_dir w2 !! name))
    by (by apply (frame_same_entries _ _ _ _ F2)).
  split.
  - intros Hon.
    eapply frame_keeps_field; [exact F4 | by intros [? _] |].
    eapply field_stage_sets; [exact H3 | done | done].
  - intros Hoff Hon.
    eapply frame_keeps_field; [exact F4 | by intros [? _] |].
    eapply frame_keeps_field; [exact F3 | |].
    { intros [_ Hon']. congruence. }
    eapply field_stage_sets; [exact H2 | done | done].
Qed.

End MoreSidecarProperties.

Lemma field_stages_frame w r w' :
  field_stages w = (r, w') -> sidecar_frame may_set w w'.
Proof.
  revert w r w'.
  change (respects (sidecar_frame may_set) field_stages).
  unfold field_stages.
  repeat apply respects_seq; try apply sidecar_frame_trans;
    intros w r w' Hrun; (eapply field_stage_frame; [|exact Hrun]);
    intros name Hg; unfold may_set; auto.
Qed.

Lemma frame_keeps_objects allowed w w' :
  sidecar_frame allowed w w' ->
  json_entries_are_objects w -> json_entries_are_objects w'.
Proof.
  intros (_ & _ & H) Hw name f Hf Hs. specialize (H name). specialize (Hw name).
  destruct (acq_dir w !! name) as [[obj| |]|].
  - destruct H as (obj' & Hobj' & _). rewrite Hobj' in Hf.
    injection Hf as <-. eauto.
  - destruct (Hw _ eq_refl Hs) as [? [=]].
  - destruct (Hw _ eq_refl Hs) as [? [=]].
  - by rewrite H in Hf.
Qed.

Lemma glob_json_suffix marker name :
  glob_json marker name = true -> Str.is_suffix ".json" name = true.
Proof. unfold glob_json. by intros [? _]%andb_true_iff. Qed.

(** A loop of updates returns when the files it goes over are JSON
    objects. *)
Lemma update_loop_returns (fields : gmap string json) l :
  forall w,
    (forall p, p ∈ l -> exists obj, acq_dir w !! p = Some (JsonFile obj)) ->
    exists w', for_each l (fun p => update_json p fields) w = (Return tt, w').
Proof.
  induction l as [|p l IH]; intros w Hl; simpl; [by eexists|].
  rewrite bind_run. unfold update_json at 1.
  destruct (Hl p) as [obj Hobj]; [by left|]. rewrite Hobj.
  apply IH. intros p' Hp'. simpl.
  destruct (decide (p = p')) as [<-|Hne].
  - rewrite lookup_insert_eq. eauto.
  - rewrite lookup_insert_ne by done. apply Hl. by right.
Qed.

Lemma field_stage_returns marker key (v : json) w :
  json_entries_are_objects w ->
  exists w', stage marker (fun p => update_json p {[ key := v ]}) w = (Return tt, w').
Proof.
  intros Hw. unfold stage. rewrite bind_run.
  destruct (rglob_json_run marker w) as (l & -> & Hl).
  apply update_loop_returns. intros p [[f Hf] Hg]%Hl.
  destruct (Hw p f Hf (glob_json_suffix _ _ Hg)) as [obj ->]. eauto.
Qed.

Lemma field_stages_return w :
  json_entries_are_objects w ->
  exists w', field_stages w = (Return tt, w').
Proof.
  intros Hw. unfold field_stages. rewrite bind_run.
  destruct (field_stage_returns "part-phase" "Units" (JString "rad") w Hw)
    as [w1 H1].
  rewrite H1. rewrite bind_run.
  assert (Hw1 : json_entries_are_objects w1).
  { eapply frame_keeps_objects; [|exact Hw].
    exact (field_stage_writes_own_field _ _ _ _ _ _ H1). }
  destruct (field_stage_returns "mt-off" "MTState" (JBool false) w1 Hw1)
    as [w2 H2].
  rewrite H2.
  apply field_stage_returns. eapply frame_keeps_objects; [|exact Hw1].
  exact (field_stage_writes_own_field _ _ _ _ _ _ H2).
Qed.

(** X13: in a directory without sub-directories and without a sidecar whose
    name matches the neuromelaninMTw pattern, [patch_json] does not read the
    series: it runs the same for every series and every conversion of
    numbers. *)
Theorem patch_json_reads_series_for_neuromelanin_only
    (f f' : string -> option float) (ds ds' : DicomSeriesInfo) (w : world) :
  (forall name, is_Some (acq_dir w !! name) ->
                glob_json "neuromelaninMTw" name = false) ->
  patch_json f ds w = patch_json f' ds' w.
Proof.
  intros Hnone. rewrite !patch_json_after_field_stages, !bind_run.
  destruct (field_stages w) as [[[]|e] w3] eqn:E; [|done].
  apply field_stages_frame in E.
  unfold stage. rewrite !bind_run.
  destruct (rglob_json_run "neuromelaninMTw" w3) as (l & -> & Hl).
  destruct l as [|p l]; [done|]. exfalso.
  destruct (proj1 (Hl p)) as [Hp Hg]; [by left|].
  apply (frame_same_entries _ _ _ _ E) in Hp. by rewrite (Hnone p Hp) in Hg.
Qed.

(** X14: in a directory without sub-directories whose [.json] entries are
    JSON objects, [patch_json] on a series without files raises [IndexError]
    when some sidecar matches the neuromelaninMTw pattern, and returns when
    none does. *)
Theorem patch_json_on_series_without_files
    (f : string -> option float) (w : world) :
  json_entries_are_objects w ->
  ((exists name, is_Some (acq_dir w !! name)
                 /\ glob_json "neuromelaninMTw" name = true) ->
   exists w', patch_json f {| file_paths := [] |} w = (Raise Py.IndexError, w'))
  /\ ((forall name, is_Some (acq_dir w !! name) ->
                    glob_json "neuromelaninMTw" name = false) ->
      exists w', patch_json f {| file_paths := [] |} w = (Return tt, w')).
Proof.
  intros Hw. destruct (field_stages_return w Hw) as [w3 H3].
  pose proof (field_stages_frame _ _ _ H3) as F3.
  split.
  - intros (name & Hname & Hg).
    rewrite patch_json_after_field_stages, bind_run, H3.
    unfold stage. rewrite bind_run.
    destruct (rglob_json_run "neuromelaninMTw" w3) as (l & -> & Hl).
    destruct l as [|p l].
    + exfalso. eapply not_elem_of_nil, Hl. split; [|exact Hg].
      by apply (frame_same_entries _ _ _ _ F3).
    + by eexists.
  - intros Hnone. rewrite patch_json_after_field_stages, bind_run, H3.
    unfold stage. rewrite bind_run.
    destruct (rglob_json_run "neuromelaninMTw" w3) as (l & -> & Hl).
    destruct l as [|p l]; [by eexists|]. exfalso.
    destruct (proj1 (Hl p)) as [Hp Hg]; [by left|].
    apply (frame_same_entries _ _ _ _ F3) in Hp. by rewrite (Hnone p Hp) in Hg.
Qed.

(** A step of the neuromelanin loop returns on a JSON object when the first
    file of the series is read as a DICOM data set. *)
Lemma set_mt_flip_angle_returns f ds path d p obj w :
  head (file_paths ds) = Some path ->
  dicom_store w !! path = Some (DicomFile d) ->
  acq_dir w !! p = Some (JsonFile obj) ->
  exists w', set_mt_flip_angle f ds p w = (Return tt, w').
Proof.
  intros Hpath Hd Hp. unfold set_mt_flip_angle. rewrite bind_run.
  rewrite (get_mt_flip_angle_read f ds w path d Hpath Hd).
  unfold update_json.
  destruct (csa_header d) as [text|]; [|by eexists].
  destruct (search_mt_flip_angle text) as [captured|]; [|by eexists].
  destruct (f captured); [|by eexists]. rewrite Hp. by eexists.
Qed.

(** X15: in a directory without sub-directories, [patch_json] returns when
    the [.json] entries are JSON objects and the first file of the series is
    read as a DICOM data set. *)
Theorem patch_json_returns
    (f : string -> option float) (ds : DicomSeriesInfo) (w : world)
    (path : string) (d : dataset) :
  json_entries_are_objects w ->
  head (file_paths ds) = Some path ->
  dicom_store w !! path = Some (DicomFile d) ->
  exists w', patch_json f ds w = (Return tt, w').
Proof.
  intros Hw Hpath Hd. destruct (field_stages_return w Hw) as [w3 H3].
  pose proof (field_stages_frame _ _ _ H3) as F3.
  rewrite patch_json_after_field_stages, bind_run, H3.
  unfold stage. rewrite bind_run.
  destruct (rglob_json_run "neuromelaninMTw" w3) as (l & -> & Hl).
  assert (Hl3 : forall p, p ∈ l -> exists obj, acq_dir w3 !! p = Some (JsonFile obj)).
  { intros p [[v Hv] Hg]%Hl.
    destruct (frame_keeps_objects _ _ _ F3 Hw p v Hv (glob_json_suffix _ _ Hg))
      as [obj ->]. eauto. }
  assert (Hd3 : dicom_store w3 !! path = Some (DicomFile d))
    by (destruct F3 as (-> & _); done).
  clear Hl H3 F3 Hw Hd. revert w3 Hl3 Hd3.
  induction l as [|p l IH]; intros w3 Hl3 Hd3; [by eexists|].
  simpl. rewrite bind_run.
  destruct (Hl3 p) as [obj Hobj]; [by left|].
  destruct (set_mt_flip_angle_returns f ds path d p obj w3 Hpath Hd3 Hobj)
    as [w4 H4].
  rewrite H4.
  pose proof (set_mt_flip_angle_store f ds p w3 _ w4 H4) as Hs.
  assert (F4 : sidecar_frame (fun _ _ => True) w3 w4).
  { unfold set_mt_flip_angle in H4. rewrite bind_run in H4.
    destruct (get_mt_flip_angle f ds w3) as [[[x|]|e] w3'] eqn:E;
      apply get_mt_flip_angle_effect in E as (Ea & Ed & Ev).
    - eapply sidecar_frame_trans; [by apply frame_of_same_dir|].
      by eapply singleton_field_frame; [|exact H4].
    - injection H4 as <-. by apply frame_of_same_dir.
    - done. }
  apply IH.
  - intros p' Hp'. destruct (Hl3 p') as [obj' Hobj']; [by right|].
    destruct F4 as (_ & _ & F4). specialize (F4 p'). rewrite Hobj' in F4.
    destruct F4 as (o & -> & _). eauto.
  - by rewrite Hs.
Qed.

(** ** [get_mt_flip_angle] *)

(** X16: [get_mt_flip_angle] changes neither the directory nor the DICOM
    store; what it prints is the one warning of a value that is not a
    number, and then it returns no value. *)
Theorem get_mt_flip_angle_only_warns
    (f : string -> option float) (ds : DicomSeriesInfo) (w w' : world)
    (r : outcome (option float)) :
  get_mt_flip_angle f ds w = (r, w') ->
  acq_dir w' = acq_dir w
  /\ dicom_store w' = dicom_store w
  /\ (console w' = console w
      \/ exists captured,
           r = Return None
           /\ f captured = None
           /\ console w'
              = (console w
                 ++ [Warning ("Expected numeric MT flip angle but found value '"
                              ++ captured ++ "'.")])%list).
Proof.
  unfold get_mt_flip_angle, mbind, M_bind, first_item, mret, M_ret, raise,
    dcmread, print_warning.
  destruct (file_paths ds) as [|p ps]; [intros [= <- <-]; by auto|].
  destruct (dicom_store w !! p) as [[| d |]|]; try (intros [= <- <-]; by auto).
  destruct (csa_header d) as [text|]; [|intros [= <- <-]; by auto].
  destruct (search_mt_flip_angle text) as [captured|];
    [|intros [= <- <-]; by auto].
  destruct (f captured) eqn:E; intros [= <- <-]; [by auto|].
  repeat split. right. by exists captured.
Qed.

(** X17: what [get_mt_flip_angle] gives depends on the first path of the
    series and on the file under that path alone. *)
Theorem get_mt_flip_angle_reads_first_file
    (f : string -> option float) (ds ds' : DicomSeriesInfo) (w1 w2 : world) :
  head (file_paths ds) = head (file_paths ds') ->
  (forall path, head (file_paths ds) = Some path ->
                dicom_store w1 !! path = dicom_store w2 !! path) ->
  fst (get_mt_flip_angle f ds w1) = fst (get_mt_flip_angle f ds' w2).
Proof.
  unfold get_mt_flip_angle, mbind, M_bind, first_item, mret, M_ret, raise,
    dcmread, print_warning.
  destruct (file_paths ds) as [|p ps], (file_paths ds') as [|p' ps'];
    try done.
  intros [= <-] Hp. simpl in Hp. rewrite (Hp p eq_refl).
  destruct (dicom_store w2 !! p) as [[| d |]|]; try done.
  destruct (csa_header d) as [text|]; [|done].
  destruct (search_mt_flip_angle text) as [captured|]; [|done].
  by destruct (f captured).
Qed.

(** ** The search for the flip angle in the CSA text *)

Lemma is_prefix_app p q s :
  Str.is_prefix p s = true ->
  Str.is_prefix q (Str.drop (String.length p) s) = true ->
  Str.is_prefix (p ++ q) s = true.
Proof.
  revert s. induction p as [|a p IH]; intros s; simpl.
  - intros _. by destruct s.
  - destruct s as [|b s]; [done|]. intros [Hab Hp]%andb_true_iff Hq.
    rewrite Hab. simpl. by apply IH.
Qed.

Lemma is_prefix_contains p s :
  Str.is_prefix p s = true -> Str.contains p s = true.
Proof. intros H. destruct s; simpl in *; by rewrite H. Qed.

Lemma contains_tail p c s :
  Str.contains p s = true -> Str.contains p (String c s) = true.
Proof. intros H. cbn [Str.contains]. rewrite H. by rewrite orb_true_r. Qed.

(** What the lazy group has captured is not empty, has no line feed, and is
    followed by the terminator. *)
Lemma lazy_capture_sound s captured :
  lazy_capture s = Some captured ->
  captured ≠ EmptyString
  /\ has_char "010" captured = false
  /\ Str.is_prefix (captured ++ mt_terminator) s = true.
Proof.
  revert captured.
  induction s as [|c s IH]; intros captured; cbn [lazy_capture]; [done|].
  destruct (Ascii.eqb c "010") eqn:Ec; [done|].
  destruct (Str.is_prefix mt_terminator s) eqn:Et.
  - intros [= <-].
    change (String c EmptyString ++ mt_terminator) with (String c mt_terminator).
    cbn [has_char Str.is_prefix]. rewrite Ec, Ascii.eqb_refl. by rewrite Et.
  - destruct (lazy_capture s) as [rest|]; [|done]. intros [= <-].
    destruct (IH rest eq_refl) as (_ & Hlf & Hp).
    change (String c rest ++ mt_terminator) with (String c (rest ++ mt_terminator)).
    cbn [has_char Str.is_prefix].
    by rewrite Ec, Hlf, Ascii.eqb_refl, Hp.
Qed.

(** X18: the text that [search_mt_flip_angle] captures is not empty, has no
    line feed, and stands in the CSA text between the fixed prefix and the
    escaped line end. *)
Theorem search_mt_flip_angle_sound (text captured : string) :
  search_mt_flip_angle text = Some captured ->
  captured ≠ EmptyString
  /\ has_char "010" captured = false
  /\ Str.contains (mt_prefix ++ captured ++ mt_terminator) text = true.
Proof.
  induction text as [|c text IH].
  - done.
  - cbn [search_mt_flip_angle].
    destruct (Str.is_prefix mt_prefix (String c text)) eqn:Ep.
    + destruct (lazy_capture (Str.drop (String.length mt_prefix) (String c text)))
        as [found|] eqn:El.
      * intros [= <-]. destruct (lazy_capture_sound _ _ El) as (Hne & Hlf & Hp).
        split; [done|]. split; [done|].
        apply is_prefix_contains. by apply is_prefix_app.
      * intros H. destruct (IH H) as (? & ? & ?).
        repeat split; try done. by apply contains_tail.
    + intros H. destruct (IH H) as (? & ? & ?).
      repeat split; try done. by apply contains_tail.
Qed.

Lemma lazy_capture_complete value rest :
  value ≠ EmptyString ->
  has_char "010" value = false ->
  has_char "\" value = false ->
  lazy_capture (value ++ mt_terminator ++ rest) = Some value.
Proof.
  induction value as [|c value IH]; [done|]. intros _ Hlf Hbs.
  cbn [has_char] in Hlf, Hbs. apply orb_false_iff in Hlf as [Hc Hlf].
  apply orb_false_iff in Hbs as [Hb Hbs].
  change (String c value ++ mt_terminator ++ rest)
    with (String c (value ++ mt_terminator ++ rest)).
  cbn [lazy_capture]. rewrite Hc.
  destruct value as [|c' value].
  - reflexivity.
  - change (String c' value ++ mt_terminator ++ rest)
      with (String c' (value ++ mt_terminator ++ rest)) in *.
    cbn [has_char] in Hbs. apply orb_false_iff in Hbs as [Hb' Hbs'].
    assert (Ht : Str.is_prefix mt_terminator
                   (String c' (value ++ mt_terminator ++ rest)) = false).
    { unfold mt_terminator at 1. cbn [Str.is_prefix].
      rewrite Ascii.eqb_sym. by rewrite Hb'. }
    rewrite Ht. rewrite IH; [done | done | done |].
    cbn [has_char]. by rewrite Hb', Hbs'.
Qed.

Lemma is_prefix_of_app p s : Str.is_prefix p (p ++ s) = true.
Proof.
  induction p as [|a p IH]; [done|].
  change (String a p ++ s) with (String a (p ++ s)).
  cbn [Str.is_prefix]. by rewrite Ascii.eqb_refl, IH.
Qed.

Lemma drop_of_app p s : Str.drop (String.length p) (p ++ s) = s.
Proof. induction p as [|a p IH]; [by destruct s | exact IH]. Qed.

Lemma search_mt_flip_angle_here text captured :
  Str.is_prefix mt_prefix text = true ->
  lazy_capture (Str.drop (String.length mt_prefix) text) = Some captured ->
  search_mt_flip_angle text = Some captured.
Proof. intros Hp Hc. destruct text; cbn [search_mt_flip_angle]; by rewrite Hp, Hc. Qed.

(** X19: a CSA text that starts with the fixed prefix, a value and the
    escaped line end gives that value back, when the value is not empty and
    has neither a line feed nor a backslash. *)
Theorem search_mt_flip_angle_finds_value (value rest : string) :
  value ≠ EmptyString ->
  has_char "010" value = false ->
  has_char "\" value = false ->
  search_mt_flip_angle (mt_prefix ++ value ++ mt_terminator ++ rest) = Some value.
Proof.
  intros Hne Hlf Hbs. apply search_mt_flip_angle_here.
  - apply is_prefix_of_app.
  - rewrite drop_of_app. by apply lazy_capture_complete.
Qed.

(** ** [patch_files] *)

Lemma moved_only_refl w : moved_only w w.
Proof. repeat split; [done|]. eauto. Qed.

Lemma moved_only_trans w1 w2 w3 :
  moved_only w1 w2 -> moved_only w2 w3 -> moved_only w1 w3.
Proof.
  intros (Hd1 & Hs1 & Hf1) (Hd2 & Hs2 & Hf2). split; [congruence|].
  split; [lia|]. intros name f Hf. destruct (Hf2 _ _ Hf) as [name0 H0]. eauto.
Qed.

Lemma unlink_moved_only name w r w' :
  unlink name w = (r, w') -> moved_only w w'.
Proof.
  unfold unlink. destruct (acq_dir w !! name) eqn:E; intros [= <- <-];
    [|apply moved_only_refl].
  split; [done|]. split.
  - cbn [acq_dir set_acq_dir]. rewrite map_size_delete, E. lia.
  - intros n g. cbn [acq_dir set_acq_dir].
    intros [_ H]%lookup_delete_Some. eauto.
Qed.

Lemma rename_file_moved_only name new_name w r w' :
  rename_file name new_name w = (r, w') -> moved_only w w'.
Proof.
  unfold rename_file. destruct (acq_dir w !! name) as [f0|] eqn:E;
    [|intros [= <- <-]; apply moved_only_refl].
  destruct (_ <? _)%nat; intros [= <- <-]; [apply moved_only_refl|].
  split; [done|]. split.
  - cbn [acq_dir set_acq_dir]. rewrite map_size_insert, map_size_delete, E.
    assert (0 < size (acq_dir w))%nat.
    { destruct (decide (size (acq_dir w) = 0%nat)) as [Hz|]; [|lia].
      apply map_size_empty_inv in Hz. by rewrite Hz in E. }
    destruct (delete name (acq_dir w) !! new_name); simpl; lia.
  - intros n g. cbn [acq_dir set_acq_dir].
    intros [[_ <-]|[_ [_ H]%lookup_delete_Some]]%lookup_insert_Some; eauto.
Qed.

Lemma print_moved_only text w r w' : print text w = (r, w') -> moved_only w w'.
Proof. intros [= <- <-]. repeat split; [done|]. eauto. Qed.

Lemma visit_moved_only name w r w' : visit name w = (r, w') -> moved_only w w'.
Proof. intros [= <- <-]. repeat split; [done|]. eauto. Qed.

Lemma patch_file_path_moved_only name :
  respects moved_only (patch_file_path name).
Proof.
  unfold patch_file_path.
  destruct (is_mp2rage_gradient _); [|destruct (BidsName.has _ "ROI1")].
  - apply respects_seq; [apply moved_only_trans | |]; intros w r w'.
    + apply print_moved_only.
    + apply unlink_moved_only.
  - apply respects_seq; [apply moved_only_trans | |]; intros w r w'.
    + apply print_moved_only.
    + apply unlink_moved_only.
  - destruct (rename_rules _) as [e|n'];
      [intros w r w' [= <- <-]; apply moved_only_refl|].
    destruct (negb _); [|intros w r w' [= <- <-]; apply moved_only_refl].
    apply respects_seq; [apply moved_only_trans | |]; intros w r w'.
    + apply print_moved_only.
    + apply rename_file_moved_only.
Qed.

Lemma per_file_pass_moved_only : respects moved_only per_file_pass.
Proof.
  intros w r w'. unfold per_file_pass. rewrite bind_run.
  change (iterdir w) with (Return (map fst (map_to_list (acq_dir w))), w).
  cbv beta iota.
  apply (for_each_respects moved_only);
    [apply moved_only_refl | apply moved_only_trans |].
  intros name w1 r1 w2 _.
  apply (respects_seq moved_only); [apply moved_only_trans | |].
  - intros ???. apply visit_moved_only.
  - apply patch_file_path_moved_only.
Qed.

Lemma patch_files_after_pass f ds w :
  patch_files f ds w = (per_file_pass ;; patch_json f ds) w.
Proof.
  unfold patch_files, per_file_pass. rewrite !bind_run.
  change (iterdir w) with (Return (map fst (map_to_list (acq_dir w))), w).
  cbv beta iota. by rewrite bind_run.
Qed.

(** The only exceptions of a loop are those of its body. *)
Lemma for_each_raises {A : Type} (P : Py.exn -> Prop) (l : list A)
    (body : A -> M unit) :
  (forall x w e w', body x w = (Raise e, w') -> P e) ->
  forall w e w', for_each l body w = (Raise e, w') -> P e.
Proof.
  intros Hbody. induction l as [|x l IH]; intros w e w'; [done|].
  simpl. rewrite bind_run. destruct (body x w) as [[[]|e1] w1] eqn:E.
  - apply IH.
  - intros [= <- <-]. by eapply Hbody.
Qed.

Lemma stage_raises (P : Py.exn -> Prop) marker (body : string -> M unit) :
  (forall x w e w', body x w = (Raise e, w') -> P e) ->
  forall w e w', stage marker body w = (Raise e, w') -> P e.
Proof.
  intros Hbody w e w'. unfold stage. rewrite bind_run.
  destruct (rglob_json_run marker w) as (l & -> & _).
  by apply for_each_raises.
Qed.

Lemma update_json_raises name fields w e w' :
  update_json name fields w = (Raise e, w') -> sidecar_exn e.
Proof.
  unfold update_json, sidecar_exn.
  destruct (acq_dir w !! name) as [[| |]|]; intros [= <-]; auto.
Qed.

(** [patch_json] raises neither of the exceptions of the TB1TFL rule. *)
Lemma patch_json_raises f ds w e w' :
  patch_json f ds w = (Raise e, w') ->
  e ≠ Py.ValueError /\ e ≠ Py.OverflowError.
Proof.
  rewrite patch_json_stages.
  set (P := fun e : Py.exn => e ≠ Py.ValueError /\ e ≠ Py.OverflowError).
  assert (Hu : forall name fields w e w',
             update_json name fields w = (Raise e, w') -> P e).
  { intros ????? [-> | ->]%update_json_raises; by split. }
  assert (Hs : forall marker key (v : json) w e w',
             stage marker (fun p => update_json p {[ key := v ]}) w
             = (Raise e, w') -> P e).
  { intros marker key v. apply stage_raises. intros x. apply Hu. }
  rewrite bind_run.
  destruct (stage "part-phase" _ w) as [[[]|e1] w1] eqn:E1;
    [|intros [= <- <-]; by eapply Hs].
  rewrite bind_run.
  destruct (stage "mt-off" _ w1) as [[[]|e2] w2] eqn:E2;
    [|intros [= <- <-]; by eapply Hs].
  rewrite bind_run.
  destruct (stage "mt-on" _ w2) as [[[]|e3] w3] eqn:E3;
    [|intros [= <- <-]; by eapply Hs].
  apply (stage_raises P). intros p wa ea wb. unfold set_mt_flip_angle.
  rewrite bind_run.
  destruct (get_mt_flip_angle f ds wa) as [[[x|]|e4] wa'] eqn:E4.
  - apply Hu.
  - done.
  - intros [= <- <-]. revert E4.
    unfold get_mt_flip_angle, mbind, M_bind, first_item, mret, M_ret, raise,
      dcmread, print_warning.
    destruct (file_paths ds) as [|p0 ps]; [by intros [= <- <-]|].
    destruct (dicom_store wa !! p0) as [[| d |]|]; try by intros [= <- <-].
    destruct (csa_header d) as [text|]; [|done].
    destruct (search_mt_flip_angle text) as [captured|]; [|done].
    by destruct (f captured).
Qed.

(** X20: [patch_file_path] writes no file: the DICOM store is as before,
    the directory has no more entries than before, and every file in it was
    there before, under some name. *)
Theorem patch_file_path_writes_no_file
    (name : string) (w w' : world) (r : outcome unit) :
  patch_file_path name w = (r, w') ->
  dicom_store w' = dicom_store w
  /\ (size (acq_dir w') <= size (acq_dir w))%nat
  /\ forall other f, acq_dir w' !! other = Some f ->
                     exists name0, acq_dir w !! name0 = Some f.
Proof. apply patch_file_path_moved_only. Qed.

(** X21: [patch_files] never touches the DICOM store and never leaves more
    entries in the directory than it found. *)
Theorem patch_files_never_adds
    (f : string -> option float) (ds : DicomSeriesInfo)
    (w w' : world) (r : outcome unit) :
  patch_files f ds w = (r, w') ->
  dicom_store w' = dicom_store w
  /\ (size (acq_dir w') <= size (acq_dir w))%nat.
Proof.
  rewrite patch_files_after_pass, bind_run.
  destruct (per_file_pass w) as [[[]|e] w1] eqn:E;
    apply per_file_pass_moved_only in E as (Hd & Hs & _).
  - intros Hrun. apply patch_json_respects_frame in Hrun.
    assert (Hdom : dom (acq_dir w') = dom (acq_dir w1)).
    { apply set_eq. intros name. rewrite !elem_of_dom.
      by eapply frame_same_entries. }
    destruct Hrun as (Hd' & _). split; [congruence|].
    rewrite <- (size_dom (acq_dir w')), Hdom, size_dom. done.
  - by intros [= <- <-].
Qed.

(** X22: when [patch_files] raises [ValueError] or [OverflowError], the
    exception is from the per-file pass and the sidecars have not been
    written: every file of the directory is a file that was there at the
    start, under some name. *)
Theorem patch_files_rule_error_skips_sidecars
    (f : string -> option float) (ds : DicomSeriesInfo)
    (w w' : world) (e : Py.exn) :
  patch_files f ds w = (Raise e, w') ->
  e = Py.ValueError \/ e = Py.OverflowError ->
  per_file_pass w = (Raise e, w')
  /\ forall name file, acq_dir w' !! name = Some file ->
                       exists name0, acq_dir w !! name0 = Some file.
Proof.
  rewrite patch_files_after_pass, bind_run. intros Hrun He.
  destruct (per_file_pass w) as [[[]|e1] w1] eqn:E.
  - apply patch_json_raises in Hrun as [? ?]. by destruct He.
  - injection Hrun as <- <-. split; [done|].
    by apply per_file_pass_moved_only in E as (_ & _ & ?).
Qed.

Lemma stage_on_empty marker body w :
  acq_dir w = ∅ -> stage marker body w = (Return tt, w).
Proof.
  intros He. unfold stage, rglob_json. rewrite bind_run.
  by rewrite He, map_to_list_empty.
Qed.

(** X23: on an empty directory [patch_files] returns and changes nothing,
    whatever the series, also a series without files. *)
Theorem patch_files_on_empty_directory
    (f : string -> option float) (ds : DicomSeriesInfo) (w : world) :
  acq_dir w = ∅ -> patch_files f ds w = (Return tt, w).
Proof.
  intros He. unfold patch_files, iterdir. rewrite !bind_run.
  rewrite He, map_to_list_empty. cbn [map for_each]. cbv beta iota.
  change ((mret tt : M unit) w) with (Return tt, w). cbv beta iota.
  rewrite patch_json_stages.
  by rewrite bind_run, stage_on_empty, bind_run, stage_on_empty, bind_run,
    stage_on_empty, stage_on_empty.
Qed.

(** ** From the renamed file to the loops of [patch_json] *)

Lemma str_app_assoc (a b c : string) : (a ++ b) ++ c = a ++ (b ++ c).
Proof.
  induction a as [|x a IH]; [done|].
  change ((String x a ++ b) ++ c) with (String x ((a ++ b) ++ c)).
  by rewrite IH.
Qed.

Lemma rev_app_spec s acc : String.rev_app s acc = String.rev s ++ acc.
Proof.
  unfold String.rev. revert acc.
  induction s as [|x s IH]; intros acc; [done|].
  cbn [String.rev_app]. rewrite (IH (String x acc)), (IH (String x "")).
  by rewrite str_app_assoc.
Qed.

Lemma rev_of_app a b : String.rev (a ++ b) = String.rev b ++ String.rev a.
Proof.
  unfold String.rev at 1 3. generalize EmptyString.
  induction a as [|x a IH]; intros acc.
  - apply rev_app_spec.
  - change (String x a ++ b) with (String x (a ++ b)).
    cbn [String.rev_app]. apply IH.
Qed.

Lemma rev_of_rev s : String.rev (String.rev s) = s.
Proof.
  induction s as [|x s IH]; [done|].
  change (String x s) with (String x "" ++ s) at 1.
  by rewrite rev_of_app, rev_of_app, IH.
Qed.

Lemma length_of_rev_app s acc :
  String.length (String.rev_app s acc) = (String.length s + String.length acc)%nat.
Proof.
  revert acc. induction s as [|x s IH]; intros acc; [done|].
  cbn [String.rev_app]. rewrite IH. simpl. lia.
Qed.

Lemma is_suffix_of_app s p : Str.is_suffix p (s ++ p) = true.
Proof. unfold Str.is_suffix. rewrite rev_of_app. apply is_prefix_of_app. Qed.

Lemma drop_suffix_of_app s p : Str.drop_suffix p (s ++ p) = s.
Proof.
  unfold Str.drop_suffix. rewrite is_suffix_of_app, rev_of_app.
  assert (Hl : String.length p = String.length (String.rev p)).
  { unfold String.rev. rewrite length_of_rev_app. simpl. lia. }
  by rewrite Hl, drop_of_app, rev_of_rev.
Qed.

Lemma is_prefix_app_r m x b :
  Str.is_prefix m x = true -> Str.is_prefix m (x ++ b) = true.
Proof.
  revert x. induction m as [|c m IH]; intros x; [done|].
  destruct x as [|d x]; [done|].
  change (String d x ++ b) with (String d (x ++ b)). cbn [Str.is_prefix].
  intros [-> H]%andb_true_iff. by rewrite IH.
Qed.

Lemma contains_app_l m x b :
  Str.contains m x = true -> Str.contains m (x ++ b) = true.
Proof.
  induction x as [|d x IH].
  - cbn [Str.contains]. rewrite orb_false_r. intros H.
    apply is_prefix_contains. by apply (is_prefix_app_r m "" b).
  - change (String d x ++ b) with (String d (x ++ b)). cbn [Str.contains].
    intros [H|H]%orb_true_iff.
    + apply (is_prefix_app_r m (String d x) b) in H.
      change (String d x ++ b) with (String d (x ++ b)) in H. by rewrite H.
    + rewrite (IH H). by rewrite orb_true_r.
Qed.

Lemma contains_app_r m a x :
  Str.contains m x = true -> Str.contains m (a ++ x) = true.
Proof.
  intros H. induction a as [|d a IH]; [done|].
  change (String d a ++ x) with (String d (a ++ x)). by apply contains_tail.
Qed.

Lemma contains_join m sep (l : list string) x :
  x ∈ l -> Str.contains m x = true -> Str.contains m (Str.join sep l) = true.
Proof.
  intros Hin Hx. induction l as [|y l IH]; [by apply elem_of_nil in Hin|].
  destruct l as [|z l].
  - apply list_elem_of_singleton in Hin as ->. done.
  - change (Str.join sep (y :: z :: l)) with (y ++ sep ++ Str.join sep (z :: l)).
    apply elem_of_cons in Hin as [->|Hin].
    + by apply contains_app_l.
    + by apply contains_app_r, contains_app_r, IH.
Qed.

(** A [.json] name with a component that holds the marker matches the
    pattern of the marker. *)
Lemma glob_json_of_component n p marker :
  BidsName.extension n = "json" ->
  p ∈ BidsName.parts n ->
  Str.contains marker (BidsName.token_of_part p) = true ->
  glob_json marker (BidsName.to_string n) = true.
Proof.
  intros He Hp Hm. unfold glob_json, BidsName.to_string. rewrite He.
  cbn [String.eqb].
  change (?s ++ "." ++ "json") with (s ++ ".json").
  rewrite is_suffix_of_app, drop_suffix_of_app. cbn [andb].
  apply (contains_join _ _ _ (BidsName.token_of_part p)); [|done].
  apply list_elem_of_fmap. by exists p.
Qed.

Lemma lookup_part_elem k v l :
  BidsName.lookup_part k l = Some v -> (k, v) ∈ l.
Proof.
  induction l as [|[k0 v0] l IH]; simpl; [done|].
  destruct (String.eqb k0 k) eqn:E.
  - apply String.eqb_eq in E as ->. intros [= ->]. by left.
  - intros H. right. by apply IH.
Qed.

(** The rules turn a [ph] marker into the component [part-phase]. *)
Lemma ph_becomes_part_phase n n' :
  BidsName.has n "ph" = true ->
  rename_rules n = inr n' ->
  BidsName.lookup_part "part" (BidsName.parts n') = Some (Some "phase").
Proof.
  intros Hph Hrules. unfold rename_rules in Hrules.
  rewrite (apply_tb1tfl_keep _ _ _ Hrules) by done.
  rewrite rules_before_tb1tfl_echo_first.
  rewrite has_lookup in Hph.
  rewrite <- (lookup_replace_echo n "ph" "p" "h") in Hph by done.
  revert Hph. generalize (replace_echo n). clear. intros a Hph.
  unfold rules_after_echo.
  set (x := drop_run_of_mtw (drop_run_of_echo a)).
  assert (Hx : ph_guard x = true).
  { unfold ph_guard. rewrite has_lookup.
    assert (Hk : BidsName.lookup_part "ph" (BidsName.parts x)
                 = BidsName.lookup_part "ph" (BidsName.parts a)).
    { unfold x, drop_run_of_mtw, drop_run_of_echo.
      repeat match goal with
      | |- context [if ?g then _ else _] => destruct g
      end;
      cbn [BidsName.parts BidsName.remove];
      by rewrite ?lookup_remove. }
    by rewrite Hk. }
  unfold replace_ph. rewrite Hx. clearbody x. clear a Hph Hx.
  set (y := BidsName.add (BidsName.remove x "ph") "part" (Some "phase")).
  assert (Hy : BidsName.lookup_part "part" (BidsName.parts y) = Some (Some "phase")).
  { unfold y. cbn [BidsName.parts BidsName.add]. by rewrite lookup_set. }
  clearbody y. clear x.
  assert (Hm : add_part_mag y = y).
  { unfold add_part_mag, part_mag_guard. rewrite (has_lookup y "part"), Hy.
    by rewrite andb_false_r. }
  rewrite Hm. clear Hm.
  unfold replace_dwi_run_2, drop_dwi_run_1, replace_t2starw.
  repeat match goal with
  | |- context [if ?g then _ else _] => destruct g
  end;
  cbn [BidsName.parts BidsName.add BidsName.remove];
  repeat (rewrite lookup_set || rewrite lookup_remove);
  cbn [String.eqb Ascii.eqb Bool.eqb]; done.
Qed.

Lemma rename_rules_keep_extension n n' :
  rename_rules n = inr n' -> BidsName.extension n' = BidsName.extension n.
Proof.
  unfold rename_rules, apply_tb1tfl. rewrite <- (rules_keep_extension n).
  destruct (BidsName.has _ "TB1TFL"); [|by intros [= <-]].
  destruct (run_number_of _); [|done].
  destruct (Py.ceil_half _); [done|]. by intros [= <-].
Qed.

(** X24: the name that the rules give a [.json] file with the [ph] marker
    matches the pattern of the first loop of [patch_json]. *)
Theorem ph_sidecar_name_matches_part_phase (n n' : BidsName.t) :
  BidsName.has n "ph" = true ->
  BidsName.extension n = "json" ->
  rename_rules n = inr n' ->
  glob_json "part-phase" (BidsName.to_string n') = true.
Proof.
  intros Hph He Hrules.
  apply (glob_json_of_component n' ("part", Some "phase")).
  - by rewrite (rename_rules_keep_extension n n').
  - by apply lookup_part_elem, (ph_becomes_part_phase n).
  - reflexivity.
Qed.


(** ** Checks over the listing of a directory *)

Lemma json_entries_checked_sound w :
  json_entries_checked w = true -> json_entries_are_objects w.
Proof.
  unfold json_entries_checked. rewrite forallb_forall.
  intros H name f Hf Hs. specialize (H (name, f)).
  cbn [fst snd] in H. rewrite Hs in H.
  destruct f as [obj| |]; [by exists obj | |];
    (discriminate H; apply list_elem_of_In; by apply elem_of_map_to_list).
Qed.

Lemma no_entry_matches_sound marker w :
  no_entry_matches marker w = true ->
  forall name, is_Some (acq_dir w !! name) -> glob_json marker name = false.
Proof.
  unfold no_entry_matches. rewrite forallb_forall.
  intros H name [f Hf]. apply negb_true_iff, H.
  apply list_elem_of_In, list_elem_of_fmap. exists (name, f).
  split; [done|]. by apply elem_of_map_to_list.
Qed.


(** * The rules in the sequence and the pass over the directory *)

(** ** The echo/run rule within the rule sequence *)

(** The echo rule keeps an echo component in place and a name that has one
    still has one. *)
Lemma echo_kept_by_replace_echo n :
  BidsName.has n "echo" = true -> BidsName.has (replace_echo n) "echo" = true.
Proof.
  intros He. unfold replace_echo.
  destruct (BidsName.match_echo n) as [[whole digit]|]; [|done].
  rewrite has_lookup. cbn [BidsName.parts BidsName.add].
  by rewrite lookup_set.
Qed.

(** No rule after the echo/run rule adds a [run] component. *)
Lemma no_run_after_echo_run x :
  BidsName.lookup_part "run" (BidsName.parts x) = None ->
  BidsName.lookup_part "run"
    (BidsName.parts
       (replace_dwi_run_2 (drop_dwi_run_1 (replace_t2starw (add_part_mag
          (replace_ph (drop_run_of_mtw x))))))) = None.
Proof.
  intros Hx.
  unfold replace_dwi_run_2, drop_dwi_run_1, replace_t2starw, add_part_mag,
    replace_ph, drop_run_of_mtw.
  repeat match goal with
  | |- context [if ?g then _ else _] => destruct g
  end;
  cbn [BidsName.parts BidsName.add BidsName.remove];
  repeat (rewrite lookup_set || rewrite lookup_remove);
  cbn [String.eqb Ascii.eqb Bool.eqb]; done.
Qed.

(** With an echo, a [T2starw] name has a [part] once the part rule has run,
    so the T2starmap rule does not apply. *)
Lemma t2starmap_guard_off_with_echo y :
  BidsName.has y "echo" = true ->
  t2starmap_guard (add_part_mag y) = false.
Proof.
  intros He. unfold add_part_mag, part_mag_guard, t2starmap_guard.
  rewrite He.
  destruct (BidsName.has y "T2starw") eqn:Hw,
    (BidsName.has y "part") eqn:Hp; cbn [andb negb].
  - by rewrite Hw, Hp, !andb_false_r.
  - rewrite !has_lookup. cbn [BidsName.parts BidsName.add].
    rewrite !lookup_set. cbn [String.eqb Ascii.eqb Bool.eqb present negb].
    by rewrite !andb_false_r.
  - by rewrite Hw, !andb_false_r.
  - by rewrite Hw, !andb_false_r.
Qed.

(** With the task [rest] the echo/run rule keeps the run, and so do the
    later rules before the TB1TFL one, unless the run is that of an
    [acq-mtw] name or the first or second of a [dwi] name. *)
Lemma rest_run_kept n :
  BidsName.has n "echo" = true ->
  BidsName.has_value n "task" "rest" = true ->
  mtw_run_guard n = false ->
  dwi_run_1_guard n = false ->
  dwi_run_2_guard n = false ->
  run_kept n.
Proof.
  intros He Hrest Hmtw Hd1 Hd2. unfold run_kept, BidsName.get.
  rewrite rules_before_tb1tfl_echo_first.
  pose proof (echo_kept_by_replace_echo n He) as He'.
  assert (Hrest' : BidsName.has_value (replace_echo n) "task" "rest" = true).
  { unfold BidsName.has_value, BidsName.get in *.
    by rewrite (lookup_replace_echo n "task" "t" "ask"). }
  assert (Hmtw' : mtw_run_guard (replace_echo n) = false).
  { unfold mtw_run_guard, BidsName.has_value, BidsName.get in *.
    rewrite has_lookup in *.
    by rewrite (lookup_replace_echo n "acq" "a" "cq"), (lookup_replace_echo n "run" "r" "un"). }
  assert (Hd1' : dwi_run_1_guard (replace_echo n) = false).
  { unfold dwi_run_1_guard, BidsName.has_value, BidsName.get in *.
    rewrite has_lookup in *.
    by rewrite (lookup_replace_echo n "dwi" "d" "wi"), (lookup_replace_echo n "run" "r" "un"). }
  assert (Hd2' : dwi_run_2_guard (replace_echo n) = false).
  { unfold dwi_run_2_guard, BidsName.has_value, BidsName.get in *.
    rewrite has_lookup in *.
    by rewrite (lookup_replace_echo n "dwi" "d" "wi"), (lookup_replace_echo n "run" "r" "un"). }
  rewrite <- (lookup_replace_echo n "run" "r" "un") by done.
  clear He Hrest Hmtw Hd1 Hd2. revert He' Hrest' Hmtw' Hd1' Hd2'.
  generalize (replace_echo n). clear n. intros a He Hrest Hmtw Hd1 Hd2.
  unfold rules_after_echo.
  assert (E1 : drop_run_of_echo a = a).
  { unfold drop_run_of_echo, echo_run_guard. rewrite Hrest.
    by rewrite andb_false_r. }
  rewrite E1. unfold drop_run_of_mtw. rewrite Hmtw.
  set (y := replace_ph a).
  assert (Hy : forall k, String.eqb "ph" k = false -> String.eqb "part" k = false ->
            BidsName.lookup_part k (BidsName.parts y)
            = BidsName.lookup_part k (BidsName.parts a)).
  { intros k Hph Hpart. unfold y, replace_ph. destruct (ph_guard a); [|done].
    cbn [BidsName.parts BidsName.add BidsName.remove].
    by rewrite lookup_set, lookup_remove, Hph, Hpart. }
  assert (Hey : BidsName.has y "echo" = true)
    by (rewrite has_lookup, Hy by done; by rewrite <- has_lookup).
  rewrite <- (Hy "run") by done.
  assert (Hd1y : dwi_run_1_guard y = false).
  { unfold dwi_run_1_guard, BidsName.has_value, BidsName.get in *.
    rewrite has_lookup in *. by rewrite !Hy. }
  assert (Hd2y : dwi_run_2_guard y = false).
  { unfold dwi_run_2_guard, BidsName.has_value, BidsName.get in *.
    rewrite has_lookup in *. by rewrite !Hy. }
  clearbody y. clear a He Hrest Hmtw Hd1 Hd2 E1 Hy.
  pose proof (t2starmap_guard_off_with_echo y Hey) as Ht.
  unfold replace_t2starw. rewrite Ht.
  set (z := add_part_mag y).
  assert (Hz : forall k, String.eqb "part" k = false ->
            BidsName.lookup_part k (BidsName.parts z)
            = BidsName.lookup_part k (BidsName.parts y)).
  { intros k Hpart. unfold z, add_part_mag. destruct (part_mag_guard y); [|done].
    cbn [BidsName.parts BidsName.add]. by rewrite lookup_set, Hpart. }
  assert (Hd1z : dwi_run_1_guard z = false).
  { unfold dwi_run_1_guard, BidsName.has_value, BidsName.get in *.
    rewrite has_lookup in *. by rewrite !Hz. }
  assert (Hd2z : dwi_run_2_guard z = false).
  { unfold dwi_run_2_guard, BidsName.has_value, BidsName.get in *.
    rewrite has_lookup in *. by rewrite !Hz. }
  unfold drop_dwi_run_1. rewrite Hd1z.
  unfold replace_dwi_run_2. rewrite Hd2z. by rewrite Hz.
Qed.

(** Without the task [rest] the echo/run rule removes the run, and no later
    rule before the TB1TFL one brings one back. *)
Lemma other_task_run_dropped n :
  BidsName.has n "echo" = true ->
  BidsName.has n "run" = true ->
  BidsName.has_value n "task" "rest" = false ->
  BidsName.has (rules_before_tb1tfl n) "run" = false.
Proof.
  intros He Hr Hrest. rewrite has_lookup.
  unfold rules_before_tb1tfl.
  pose proof (echo_kept_by_replace_echo n He) as He'.
  assert (Hr' : BidsName.has (replace_echo n) "run" = true).
  { rewrite has_lookup in *.
    by rewrite (lookup_replace_echo n "run" "r" "un"). }
  assert (Hrest' : BidsName.has_value (replace_echo n) "task" "rest" = false).
  { unfold BidsName.has_value, BidsName.get in *.
    by rewrite (lookup_replace_echo n "task" "t" "ask"). }
  rewrite no_run_after_echo_run; [done|].
  unfold drop_run_of_echo, echo_run_guard. rewrite He', Hr', Hrest'.
  cbn [andb negb BidsName.parts BidsName.remove]. by rewrite lookup_remove.
Qed.

(** C5: take a name with an echo and a run component, and the name that
    the rule sequence of [patch_file_path] produces for it. When the task is
    not [rest] (or there is none), the run is gone after the rules before
    the TB1TFL one, and from the produced name unless the name has the
    TB1TFL marker, whose rule then writes [acq-sfam] and [run-0]. When the
    task is [rest], the echo/run rule keeps the run: it is in the produced
    name with its value, unless the run is that of an [acq-mtw] name, the
    first or second of a [dwi] name, or rewritten by the TB1TFL rule. *)
Theorem echo_run_rule_spares_rest (n n' : BidsName.t) :
  BidsName.has n "echo" = true ->
  BidsName.has n "run" = true ->
  rename_rules n = inr n' ->
  (BidsName.has_value n "task" "rest" = false ->
   BidsName.has (rules_before_tb1tfl n) "run" = false
   /\ (BidsName.has n "TB1TFL" = false -> BidsName.has n' "run" = false)
   /\ (BidsName.has n "TB1TFL" = true ->
       BidsName.get n' "run" = Some "0" /\ BidsName.get n' "acq" = Some "sfam"))
  /\ (BidsName.has_value n "task" "rest" = true ->
      mtw_run_guard n = false ->
      dwi_run_1_guard n = false ->
      dwi_run_2_guard n = false ->
      BidsName.get (rules_before_tb1tfl n) "run" = BidsName.get n "run"
      /\ (BidsName.has n "TB1TFL" = false ->
          BidsName.get n' "run" = BidsName.get n "run")).
Proof.
  intros He Hr Hrules. unfold rename_rules, apply_tb1tfl in Hrules.
  rewrite tb1tfl_marker_kept in Hrules. split.
  - intros Hrest. pose proof (other_task_run_dropped n He Hr Hrest) as Hgone.
    split; [done|]. split.
    + intros Hm. rewrite Hm in Hrules. by injection Hrules as <-.
    + intros Hm. rewrite Hm in Hrules.
      assert (H0 : run_number_of (rules_before_tb1tfl n) = Some 0).
      { unfold run_number_of, BidsName.get. rewrite has_lookup in Hgone.
        by destruct (BidsName.lookup_part "run" _). }
      rewrite H0 in Hrules. injection Hrules as <-.
      unfold BidsName.get. cbn [BidsName.parts BidsName.add].
      by rewrite !lookup_set.
  - intros Hrest Hmtw Hd1 Hd2.
    pose proof (rest_run_kept n He Hrest Hmtw Hd1 Hd2) as Hkept.
    split; [exact Hkept|]. intros Hm. rewrite Hm in Hrules.
    by injection Hrules as <-.
Qed.

(** ** The per-file pass *)

(** [patch_file_path] removes no entry but the one it is applied to. *)
Lemma patch_file_path_keeps_others name other w r w' :
  patch_file_path name w = (r, w') ->
  other ≠ name ->
  is_Some (acq_dir w !! other) -> is_Some (acq_dir w' !! other).
Proof.
  intros Hrun Hne Hother. unfold patch_file_path in Hrun.
  destruct (is_mp2rage_gradient _); [|destruct (BidsName.has _ "ROI1")].
  - unfold mbind, M_bind, print, unlink in Hrun. cbn [acq_dir] in Hrun.
    destruct (acq_dir w !! name); injection Hrun as <- <-; [|done].
    cbn [acq_dir set_acq_dir]. by rewrite lookup_delete_ne.
  - unfold mbind, M_bind, print, unlink in Hrun. cbn [acq_dir] in Hrun.
    destruct (acq_dir w !! name); injection Hrun as <- <-; [|done].
    cbn [acq_dir set_acq_dir]. by rewrite lookup_delete_ne.
  - destruct (rename_rules _) as [e|n']; [by injection Hrun as <- <-|].
    destruct (negb _); [|by injection Hrun as <- <-].
    unfold mbind, M_bind, print, rename_file in Hrun. cbn [acq_dir] in Hrun.
    destruct (acq_dir w !! name); [|by injection Hrun as <- <-].
    destruct (_ <? _)%nat; injection Hrun as <- <-; [done|].
    cbn [acq_dir set_acq_dir].
    destruct (decide (BidsName.to_string n' = other)) as [->|Hnew].
    + rewrite lookup_insert_eq. eauto.
    + rewrite lookup_insert_ne by done. by rewrite lookup_delete_ne.
Qed.

(** The loop over a listing without repetition, whose entries are all in
    the directory, finds every entry in the directory when its turn comes:
    the entries before it have deleted and renamed other entries only. *)
Lemma per_file_pass_run l :
  NoDup l ->
  forall w r w',
    (forall name, name ∈ l -> is_Some (acq_dir w !! name)) ->
    for_each l (fun file_path => visit file_path ;; patch_file_path file_path) w
    = (r, w') ->
    pass_run l w r w'.
Proof.
  induction 1 as [|name l Hnotin Hnd IH]; intros w r w' Hin Hrun.
  - injection Hrun as <- <-. constructor.
  - cbn [for_each] in Hrun. rewrite bind_run in Hrun.
    destruct ((visit name ;; patch_file_path name) w) as [[[]|e] w1] eqn:Hstep.
    + eapply pass_next; [apply Hin; by left | exact Hstep |].
      apply IH; [|exact Hrun]. intros other Hother.
      rewrite bind_run in Hstep. cbn [visit] in Hstep.
      eapply patch_file_path_keeps_others; [exact Hstep | |].
      * intros ->. done.
      * cbn [acq_dir]. apply Hin. by right.
    + injection Hrun as <- <-.
      eapply pass_raise; [apply Hin; by left | exact Hstep].
Qed.

Section PatchFiles.

Variable float_of_str : string -> option float.

(** C2: [patch_files] runs the per-file pass over the listing of the
    directory taken at the start, which has every entry of the start once:
    each entry of that listing is in the directory when its turn comes,
    whatever the entries before it have deleted or renamed, and
    [patch_file_path] is applied to it then; the names that the renames
    create are not taken up. The pass ends with the listing, and then
    [patch_json] runs, or with the first exception, which is that of
    [patch_files]. *)
Theorem patch_files_visits_initial_listing
    (dicom_series : DicomSeriesInfo) (w w' : world) (r : outcome unit) :
  patch_files float_of_str dicom_series w = (r, w') ->
  exists listing taken r1 w1,
    NoDup listing
    /\ (forall name, name ∈ listing <-> is_Some (acq_dir w !! name))
    /\ pass_run listing w r1 w1
    /\ match r1 with
       | Return _ => patch_json float_of_str dicom_series w1 = (r, w')
       | Raise e => r = Raise e /\ w' = w1
       end
    /\ visited w' = (visited w ++ taken)%list
    /\ taken `prefix_of` listing
    /\ (r = Return tt -> taken = listing).
Proof.
  intros Hrun. exists (map fst (map_to_list (acq_dir w))).
  assert (Hlisting : forall name,
            name ∈ map fst (map_to_list (acq_dir w))
            <-> is_Some (acq_dir w !! name)).
  { intros name. rewrite list_elem_of_fmap. split.
    - intros ([k v] & -> & Hin). apply elem_of_map_to_list in Hin. eauto.
    - intros [v Hv0]. exists (name, v). split; [done|].
      by apply elem_of_map_to_list. }
  unfold patch_files in Hrun. rewrite bind_run in Hrun.
  change (iterdir w) with (Return (map fst (map_to_list (acq_dir w))), w) in Hrun.
  cbv beta iota in Hrun. rewrite bind_run in Hrun.
  destruct (for_each _ _ w) as [r1 w1] eqn:Hloop.
  pose proof (per_file_pass_run _ (NoDup_fst_map_to_list _) w r1 w1
                (fun name => proj1 (Hlisting name)) Hloop) as Hpass.
  apply per_file_pass_visits in Hloop as (taken & Hv & Hp & Hall).
  exists taken, r1, w1.
  split; [apply NoDup_fst_map_to_list|]. split; [exact Hlisting|].
  split; [exact Hpass|].
  destruct r1 as [[]|e].
  - split; [exact Hrun|].
    apply patch_json_respects_frame in Hrun as (_ & Hv' & _).
    split; [congruence|]. split; [done|]. intros _. by apply Hall.
  - injection Hrun as <- <-. by repeat split.
Qed.

End PatchFiles.

(** ** The echo search over a serialized name *)

Lemma search_echo_cons c s :
  BidsName.search_echo (String c s) = None -> BidsName.search_echo s = None.
Proof.
  cbn [BidsName.search_echo]. destruct s as [|d s']; [done|].
  by destruct (Ascii.eqb c "e" && Py.is_digit d).
Qed.

(** No match in a text, none in its parts. *)
Lemma search_echo_app_inv a b :
  BidsName.search_echo (a ++ b) = None ->
  BidsName.search_echo a = None /\ BidsName.search_echo b = None.
Proof.
  induction a as [|x a IH].
  - done.
  - change (String x a ++ b) with (String x (a ++ b)). intros H.
    pose proof (search_echo_cons _ _ H) as H'.
    destruct (IH H') as [Ha Hb]. split; [|done].
    destruct a as [|d a']; [done|].
    change (String d a' ++ b) with (String d (a' ++ b)) in H.
    cbn [BidsName.search_echo] in H |- *.
    destruct (Ascii.eqb x "e" && Py.is_digit d); [done|]. exact Ha.
Qed.

(** No match on either side of a separator that is neither [e] nor a
    digit, none in the whole. *)
Lemma search_echo_app c a b :
  Ascii.eqb c "e" = false -> Py.is_digit c = false ->
  BidsName.search_echo a = None -> BidsName.search_echo b = None ->
  BidsName.search_echo (a ++ String c b) = None.
Proof.
  intros Hc Hd Ha Hb. induction a as [|x a IH].
  - change (EmptyString ++ String c b) with (String c b).
    cbn [BidsName.search_echo]. destruct b as [|d b']; [done|].
    by rewrite Hc.
  - change (String x a ++ String c b) with (String x (a ++ String c b)).
    pose proof (search_echo_cons _ _ Ha) as Ha'.
    destruct a as [|d a'].
    + change (EmptyString ++ String c b) with (String c b) in *.
      cbn [BidsName.search_echo]. rewrite Hd, andb_false_r.
      by apply IH.
    + change (String d a' ++ String c b) with (String d (a' ++ String c b)) in *.
      cbn [BidsName.search_echo] in Ha |- *.
      destruct (Ascii.eqb x "e" && Py.is_digit d); [done|]. by apply IH.
Qed.

Lemma search_echo_token p :
  BidsName.search_echo (BidsName.token_of_part p) = None <-> echo_free_part p.
Proof.
  destruct p as [k [v|]]; unfold echo_free_part; cbn [fst snd BidsName.token_of_part].
  - change (k ++ "-" ++ v) with (k ++ String "-" v). split.
    + intros [Hk Hv]%search_echo_app_inv. split; [done|].
      by apply search_echo_cons in Hv.
    + intros [Hk Hv]. by apply search_echo_app.
  - tauto.
Qed.

Lemma search_echo_join (l : list string) :
  BidsName.search_echo (Str.join "_" l) = None
  <-> Forall (fun t => BidsName.search_echo t = None) l.
Proof.
  induction l as [|x l IH]; [by split|].
  destruct l as [|y l].
  - cbn [Str.join]. split; [by repeat constructor | by intros [H _]%Forall_cons].
  - change (Str.join "_" (x :: y :: l)) with (x ++ String "_" (Str.join "_" (y :: l))).
    split.
    + intros [Hx Hl]%search_echo_app_inv. constructor; [done|].
      apply IH. by apply search_echo_cons in Hl.
    + intros [Hx Hl]%Forall_cons. apply search_echo_app; [done..|]. by apply IH.
Qed.

(** The echo rule finds nothing in a name exactly when its components and
    its extension have no [e<digit>]. *)
Lemma match_echo_none n : BidsName.match_echo n = None <-> echo_free n.
Proof.
  unfold BidsName.match_echo, BidsName.to_string, echo_free.
  assert (Hstem : BidsName.search_echo
                    (Str.join "_" (map BidsName.token_of_part (BidsName.parts n)))
                  = None
                  <-> Forall echo_free_part (BidsName.parts n)).
  { rewrite search_echo_join, Forall_fmap. apply Forall_iff. intros p.
    apply search_echo_token. }
  destruct (String.eqb (BidsName.extension n) EmptyString) eqn:E.
  - apply String.eqb_eq in E. rewrite E. rewrite Hstem. by intuition.
  - change (?s ++ "." ++ ?e) with (s ++ String "." e). split.
    + intros [Hs He]%search_echo_app_inv. split; [by apply Hstem|].
      by apply search_echo_cons in He.
    + intros [Hs He]. apply search_echo_app; [done | done | by apply Hstem | done].
Qed.

Lemma remove_part_echo_free k l :
  Forall echo_free_part l -> Forall echo_free_part (BidsName.remove_part k l).
Proof.
  induction 1 as [|[k0 v0] l H0 Hl IH]; simpl; [done|].
  destruct (String.eqb k0 k); [done|]. by constructor.
Qed.

Lemma set_part_echo_free k v l :
  echo_free_part (k, v) ->
  Forall echo_free_part l -> Forall echo_free_part (BidsName.set_part k v l).
Proof.
  intros Hkv. induction 1 as [|[k0 v0] l H0 Hl IH]; simpl.
  - constructor; [done | constructor].
  - destruct (String.eqb k0 k) eqn:E.
    + apply String.eqb_eq in E as ->. by constructor.
    + by constructor.
Qed.

Lemma remove_echo_free n k : echo_free n -> echo_free (BidsName.remove n k).
Proof. intros [? ?]. split; [by apply remove_part_echo_free | done]. Qed.

Lemma add_echo_free n k v :
  echo_free_part (k, v) -> echo_free n -> echo_free (BidsName.add n k v).
Proof. intros ? [? ?]. split; [by apply set_part_echo_free | done]. Qed.

(** With no [e<digit>] outside the marker that the echo rule removes, the
    name after the echo rule has none. *)
Lemma replace_echo_echo_free n :
  BidsName.match_echo (without_marker n) = None -> echo_free (replace_echo n).
Proof.
  unfold without_marker, replace_echo. rewrite match_echo_none.
  destruct (BidsName.match_echo n) as [[whole digit]|] eqn:E; [|done].
  intros H. apply search_echo_shape in E as (c & Hc & -> & ->).
  apply add_echo_free; [|done]. by split.
Qed.

(** The rules after the echo rule bring no [e<digit>] into a name. *)
Lemma rules_after_echo_echo_free a : echo_free a -> echo_free (rules_after_echo a).
Proof.
  intros Ha.
  unfold rules_after_echo, replace_dwi_run_2, drop_dwi_run_1, replace_t2starw,
    add_part_mag, replace_ph, drop_run_of_mtw, drop_run_of_echo.
  repeat match goal with
  | |- context [if ?g then _ else _] => destruct g
  end;
  repeat ((apply add_echo_free; [by split|]) || apply remove_echo_free);
  exact Ha.
Qed.

(** ** The TB1TFL rule on a name that it has produced *)

Lemma set_part_same k v l :
  BidsName.lookup_part k l = Some v -> BidsName.set_part k v l = l.
Proof.
  induction l as [|[k0 v0] l IH]; simpl; [done|].
  destruct (String.eqb k0 k) eqn:E.
  - by intros [= ->].
  - intros H. by rewrite IH.
Qed.

Lemma remove_part_set_fresh k v l :
  BidsName.lookup_part k l = None ->
  BidsName.remove_part k (BidsName.set_part k v l) = l.
Proof.
  induction l as [|[k0 v0] l IH]; simpl.
  - intros _. by rewrite String.eqb_refl.
  - destruct (String.eqb k0 k) eqn:E; [done|]. intros H. simpl.
    by rewrite E, IH.
Qed.

Lemma add_same n k v :
  BidsName.lookup_part k (BidsName.parts n) = Some v -> BidsName.add n k v = n.
Proof.
  intros H. destruct n as [parts ext]. unfold BidsName.add. simpl in *.
  by rewrite set_part_same.
Qed.

(** A name on which no rule from the acq-mtw one to the second DWI one
    applies comes out of these rules as it is. *)
Lemma rules_after_echo_run_off x :
  mtw_run_guard x = false -> ph_guard x = false -> part_mag_guard x = false ->
  t2starmap_guard x = false -> dwi_run_1_guard x = false ->
  dwi_run_2_guard x = false ->
  replace_dwi_run_2 (drop_dwi_run_1 (replace_t2starw (add_part_mag
    (replace_ph (drop_run_of_mtw x))))) = x.
Proof.
  intros H5 H6 H7 H8 H9 H10.
  unfold drop_run_of_mtw. rewrite H5.
  unfold replace_ph. rewrite H6.
  unfold add_part_mag. rewrite H7.
  unfold replace_t2starw. rewrite H8.
  unfold drop_dwi_run_1. rewrite H9.
  unfold replace_dwi_run_2. by rewrite H10.
Qed.

(** The guards from the acq-mtw rule on stay off when [acq] is set to [anat]
    or [sfam] and [run] is removed, or set to [0], or set to [1] on a name
    without [dwi]. *)
Lemma guards_off_after_tb1tfl h a (run : option string) x :
  mtw_run_guard h = false -> ph_guard h = false -> part_mag_guard h = false ->
  t2starmap_guard h = false -> dwi_run_1_guard h = false ->
  dwi_run_2_guard h = false ->
  a = "anat" \/ a = "sfam" ->
  run = None \/ run = Some "0" \/ (run = Some "1" /\ BidsName.has h "dwi" = false) ->
  (forall k, String.eqb "acq" k = false -> String.eqb "run" k = false ->
             BidsName.lookup_part k (BidsName.parts x)
             = BidsName.lookup_part k (BidsName.parts h)) ->
  BidsName.lookup_part "acq" (BidsName.parts x) = Some (Some a) ->
  BidsName.get x "run" = run ->
  mtw_run_guard x = false /\ ph_guard x = false /\ part_mag_guard x = false
  /\ t2starmap_guard x = false /\ dwi_run_1_guard x = false
  /\ dwi_run_2_guard x = false.
Proof.
  intros H5 H6 H7 H8 H9 H10 Ha Hrun Hkeep Hacq Hget.
  assert (Hhas : forall k, String.eqb "acq" k = false -> String.eqb "run" k = false ->
            BidsName.has x k = BidsName.has h k).
  { intros k ? ?. rewrite !has_lookup. by rewrite Hkeep. }
  assert (Hmtw : BidsName.has_value x "acq" "mtw" = false).
  { unfold BidsName.has_value, BidsName.get. rewrite Hacq.
    by destruct Ha as [-> | ->]. }
  assert (Haspire : BidsName.has_value x "acq" "aspire" = false).
  { unfold BidsName.has_value, BidsName.get. rewrite Hacq.
    by destruct Ha as [-> | ->]. }
  repeat split.
  - unfold mtw_run_guard. by rewrite Hmtw.
  - unfold ph_guard in *. by rewrite Hhas.
  - unfold part_mag_guard in *. by rewrite !Hhas.
  - unfold t2starmap_guard. by rewrite Haspire.
  - unfold dwi_run_1_guard, BidsName.has_value. rewrite Hget, Hhas by done.
    destruct Hrun as [-> | [-> | [-> ->]]]; try done; by rewrite andb_false_r.
  - unfold dwi_run_2_guard, BidsName.has_value. rewrite Hget.
    destruct Hrun as [-> | [-> | [-> _]]]; by rewrite andb_false_r.
Qed.

(** A name that the TB1TFL rule has produced from the run number 0, or from
    the run number 1 and without [dwi], goes through the rules unchanged
    when the echo rule finds nothing in it. *)
Lemma tb1tfl_output_settled h r n' :
  echo_run_guard h = false -> mtw_run_guard h = false -> ph_guard h = false ->
  part_mag_guard h = false -> t2starmap_guard h = false ->
  dwi_run_1_guard h = false -> dwi_run_2_guard h = false ->
  BidsName.has h "TB1TFL" = true ->
  run_number_of h = Some r ->
  r = 0 \/ (r = 1 /\ BidsName.has h "dwi" = false) ->
  apply_tb1tfl h = inr n' ->
  replace_echo n' = n' ->
  rename_rules n' = inr n'.
Proof.
  intros H4 H5 H6 H7 H8 H9 H10 Hm Hr Hcase Hn' Hecho.
  set (a := if Z.odd r then "anat" else "sfam").
  set (s := Py.str_of_int r).
  assert (Hhalf : Py.ceil_half r = inr r) by (by destruct Hcase as [-> | [-> _]]).
  assert (Hparity : (if r mod 2 =? 1 then "anat" else "sfam") = a)
    by (by destruct Hcase as [-> | [-> _]]).
  assert (Ha : a = "anat" \/ a = "sfam")
    by (unfold a; destruct (Z.odd r); auto).
  assert (Hs : s = "0" \/ (s = "1" /\ BidsName.has h "dwi" = false)).
  { unfold s. destruct Hcase as [-> | [-> ?]]; [by left | by right]. }
  assert (Hint : Py.int_of_str s = Some r)
    by (unfold s; by destruct Hcase as [-> | [-> _]]).
  assert (Hne : String.eqb s EmptyString = false)
    by (unfold s; by destruct Hcase as [-> | [-> _]]).
  assert (Es : Py.str_of_int r = s) by done.
  assert (En' : n' = BidsName.add (BidsName.add h "acq" (Some a)) "run" (Some s)).
  { unfold apply_tb1tfl in Hn'. rewrite Hm, Hr, Hhalf, Hparity in Hn'.
    by injection Hn' as <-. }
  clearbody a s. clear Hcase Hn'.
  set (g := BidsName.add h "acq" (Some a)) in *.
  assert (Hg_keep : forall k, String.eqb "acq" k = false -> String.eqb "run" k = false ->
            BidsName.lookup_part k (BidsName.parts g)
            = BidsName.lookup_part k (BidsName.parts h)).
  { intros k Hk _. unfold g. cbn [BidsName.parts BidsName.add].
    by rewrite lookup_set, Hk. }
  assert (Hg_acq : BidsName.lookup_part "acq" (BidsName.parts g) = Some (Some a)).
  { unfold g. cbn [BidsName.parts BidsName.add]. by rewrite lookup_set. }
  assert (Hg_run : BidsName.lookup_part "run" (BidsName.parts g)
                   = BidsName.lookup_part "run" (BidsName.parts h)).
  { unfold g. cbn [BidsName.parts BidsName.add]. by rewrite lookup_set. }
  assert (Hn_keep : forall k, String.eqb "acq" k = false -> String.eqb "run" k = false ->
            BidsName.lookup_part k (BidsName.parts n')
            = BidsName.lookup_part k (BidsName.parts h)).
  { intros k Hk Hk'. rewrite En'. cbn [BidsName.parts BidsName.add].
    rewrite lookup_set, Hk'. by apply Hg_keep. }
  assert (Hn_acq : BidsName.lookup_part "acq" (BidsName.parts n') = Some (Some a)).
  { rewrite En'. cbn [BidsName.parts BidsName.add]. by rewrite lookup_set. }
  assert (Hn_run : BidsName.lookup_part "run" (BidsName.parts n') = Some (Some s)).
  { rewrite En'. cbn [BidsName.parts BidsName.add]. by rewrite lookup_set. }
  assert (Hn_marker : BidsName.has n' "TB1TFL" = true)
    by (rewrite has_lookup, Hn_keep by done; by rewrite <- has_lookup).
  assert (Hg_marker : BidsName.has g "TB1TFL" = true)
    by (rewrite has_lookup, Hg_keep by done; by rewrite <- has_lookup).
  unfold rename_rules, rules_before_tb1tfl. rewrite Hecho.
  destruct (echo_run_guard n') eqn:G4.
  - (* the echo/run rule removes the run that the TB1TFL rule has added *)
    assert (Hnorun : BidsName.lookup_part "run" (BidsName.parts h) = None).
    { unfold echo_run_guard in G4, H4.
      rewrite !has_lookup in G4, H4. unfold BidsName.has_value, BidsName.get in G4, H4.
      rewrite (Hn_keep "echo"), (Hn_keep "task"), Hn_run in G4 by done.
      destruct (BidsName.lookup_part "run" (BidsName.parts h)); [|done].
      cbn [present] in H4, G4. rewrite andb_true_r in H4, G4.
      congruence. }
    assert (Er : r = 0).
    { unfold run_number_of, BidsName.get in Hr. rewrite Hnorun in Hr.
      by injection Hr as <-. }
    subst r.
    assert (Edrop : drop_run_of_echo n' = g).
    { unfold drop_run_of_echo. rewrite G4. rewrite En'.
      unfold BidsName.remove, BidsName.add. cbn [BidsName.parts BidsName.extension].
      rewrite remove_part_set_fresh; [by destruct g|]. by rewrite Hg_run. }
    rewrite Edrop.
    destruct (guards_off_after_tb1tfl h a None g H5 H6 H7 H8 H9 H10 Ha)
      as (G5 & G6 & G7 & G8 & G9 & G10); [by left | done | done | |].
    { unfold BidsName.get. by rewrite Hg_run, Hnorun. }
    rewrite rules_after_echo_run_off by done.
    unfold apply_tb1tfl. rewrite Hg_marker.
    assert (Hr0 : run_number_of g = Some 0).
    { unfold run_number_of, BidsName.get. by rewrite Hg_run, Hnorun. }
    rewrite Hr0, Hhalf, Hparity. rewrite (add_same g "acq") by done.
    by rewrite Es, En'.
  - unfold drop_run_of_echo. rewrite G4.
    destruct (guards_off_after_tb1tfl h a (Some s) n' H5 H6 H7 H8 H9 H10 Ha)
      as (G5 & G6 & G7 & G8 & G9 & G10); [| done | done | |].
    { destruct Hs as [-> | [-> ?]]; auto. }
    { unfold BidsName.get. by rewrite Hn_run. }
    rewrite rules_after_echo_run_off by done.
    unfold apply_tb1tfl. rewrite Hn_marker.
    assert (Hrn : run_number_of n' = Some r).
    { unfold run_number_of, BidsName.get. by rewrite Hn_run, Hne. }
    rewrite Hrn, Hhalf, Hparity. rewrite (add_same n' "acq") by done.
    rewrite Es. by rewrite (add_same n' "run").
Qed.

(** ** A second application to a file *)

(** A name that the rules have produced goes through them unchanged, when
    the name it came from has no [e<digit>] outside the marker that the
    echo rule removes and, with the TB1TFL marker, the run number that the
    TB1TFL rule reads is 0, or 1 on a name without [dwi]. *)
Lemma rename_rules_twice n n' :
  well_formed n ->
  rename_rules n = inr n' ->
  BidsName.match_echo (without_marker n) = None ->
  (BidsName.has n "TB1TFL" = true ->
   run_number_of (rules_before_tb1tfl n) = Some 0
   \/ (run_number_of (rules_before_tb1tfl n) = Some 1
       /\ BidsName.has n "dwi" = false)) ->
  well_formed n' /\ rename_rules n' = inr n'.
Proof.
  intros Hwf Hrules Hecho Htb.
  pose proof (rules_before_tb1tfl_well_formed n Hwf) as Hwfh.
  assert (Hfree : echo_free (rules_before_tb1tfl n)).
  { rewrite rules_before_tb1tfl_echo_first.
    by apply rules_after_echo_echo_free, replace_echo_echo_free. }
  destruct (rules_settle n) as (H4 & H5 & H6 & H7 & H8 & H9 & H10).
  unfold rename_rules in Hrules.
  destruct (BidsName.has n "TB1TFL") eqn:Hm.
  - assert (Hcase : exists r,
              run_number_of (rules_before_tb1tfl n) = Some r
              /\ (r = 0 \/ (r = 1 /\ BidsName.has (rules_before_tb1tfl n) "dwi" = false))).
    { destruct (Htb eq_refl) as [H0 | [H1 Hdwi]]; [exists 0; auto|].
      exists 1. split; [done|]. right. split; [done|].
      rewrite has_lookup.
      rewrite (rules_keep_other_keys n "dwi" "d" "wi") by done.
      by rewrite <- has_lookup. }
    destruct Hcase as (r & Hr & Hcase).
    assert (Hm' : BidsName.has (rules_before_tb1tfl n) "TB1TFL" = true)
      by (by rewrite tb1tfl_marker_kept).
    assert (En' : n' = BidsName.add
                         (BidsName.add (rules_before_tb1tfl n) "acq"
                            (Some (if Z.odd r then "anat" else "sfam")))
                         "run" (Some (Py.str_of_int r))).
    { unfold apply_tb1tfl in Hrules. rewrite Hm', Hr in Hrules.
      destruct Hcase as [-> | [-> _]]; by injection Hrules as <-. }
    assert (Hwf' : well_formed n').
    { rewrite En'. apply add_well_formed.
      - destruct Hcase as [-> | [-> _]]; by repeat split.
      - apply well_formed_tidy, add_well_formed; [|by apply well_formed_tidy].
        destruct (Z.odd r); by repeat split. }
    split; [done|].
    eapply tb1tfl_output_settled; try eassumption.
    assert (Hfree' : echo_free n').
    { rewrite En'. apply add_echo_free.
      - destruct Hcase as [-> | [-> _]]; by split.
      - apply add_echo_free; [|done]. destruct (Z.odd r); by split. }
    apply match_echo_none in Hfree'. unfold replace_echo. by rewrite Hfree'.
  - assert (Hm' : BidsName.has (rules_before_tb1tfl n) "TB1TFL" = false)
      by (by rewrite tb1tfl_marker_kept).
    unfold apply_tb1tfl in Hrules. rewrite Hm' in Hrules.
    injection Hrules as <-. split; [done|].
    assert (He : replace_echo (rules_before_tb1tfl n) = rules_before_tb1tfl n).
    { apply match_echo_none in Hfree. unfold replace_echo. by rewrite Hfree. }
    unfold rename_rules. rewrite (rules_before_tb1tfl_twice n He).
    unfold apply_tb1tfl. by rewrite Hm'.
Qed.

(** The markers of the delete rules and the extension go through the rules
    untouched. *)
Lemma delete_guards_kept n n' :
  rename_rules n = inr n' ->
  is_mp2rage_gradient n' = is_mp2rage_gradient n
  /\ BidsName.has n' "ROI1" = BidsName.has n "ROI1".
Proof.
  intros Hrules. pose proof (rename_rules_keep_extension n n' Hrules) as Hext.
  unfold rename_rules in Hrules. unfold is_mp2rage_gradient.
  rewrite Hext, !has_lookup.
  rewrite !(apply_tb1tfl_keep _ _ _ Hrules) by done.
  rewrite (rules_keep_other_keys n "MP2RAGE" "M" "P2RAGE") by done.
  by rewrite (rules_keep_other_keys n "ROI1" "R" "OI1") by done.
Qed.

(** C1, amended: take a file that is not deleted, and let [n'] be the name
    that the rules produce, which the file system takes. The raw name has
    no [e<digit>] outside the marker component that the echo rule removes,
    and, when it has the TB1TFL marker, the run number that the TB1TFL rule
    reads is 0, or 1 on a name without [dwi]. Then [patch_file_path] leaves
    the file under [str(n')], and applied to that file again it returns
    with the world as it is: no rename, no notice. *)
Theorem second_pass_changes_nothing
    (name : string) (w : world) (f : file) (n' : BidsName.t) :
  let n := BidsName.from_string name in
  acq_dir w !! name = Some f ->
  is_mp2rage_gradient n = false ->
  BidsName.has n "ROI1" = false ->
  rename_rules n = inr n' ->
  fits n' ->
  BidsName.match_echo (without_marker n) = None ->
  (BidsName.has n "TB1TFL" = true ->
   run_number_of (rules_before_tb1tfl n) = Some 0
   \/ (run_number_of (rules_before_tb1tfl n) = Some 1
       /\ BidsName.has n "dwi" = false)) ->
  exists w1,
    patch_file_path name w = (Return tt, w1)
    /\ acq_dir w1 !! BidsName.to_string n' = Some f
    /\ patch_file_path (BidsName.to_string n') w1 = (Return tt, w1).
Proof.
  intros n Hf Hg Hroi Hrules Hfits Hecho Htb.
  destruct (patch_file_path_renames name w f n' Hf Hg Hroi Hrules Hfits)
    as (w1 & Hrun & Hat).
  exists w1. split; [done|]. split; [by rewrite Hat|].
  destruct (rename_rules_twice n n' (from_string_well_formed name) Hrules Hecho Htb)
    as [Hwf' Htwice].
  destruct (delete_guards_kept n n' Hrules) as [Hg' Hroi'].
  unfold patch_file_path. rewrite from_string_to_string by done.
  rewrite Hg', Hg, Hroi', Hroi, Htwice.
  by rewrite String.eqb_refl.
Qed.


(** * Examples *)

(** C1, as stated, fails on the TB1TFL rule: the file that came with [run-3]
    is renamed to [run-2] and [acq-anat], and a second application renames
    it again, to [run-1] and [acq-sfam]. *)
Lemma tb1tfl_second_pass_renames_again :
  fst (patch_file_path "sub-01_run-3_TB1TFL.nii.gz" tb1tfl_world) = Return tt
  /\ acq_dir tb1tfl_once !! "sub-01_run-2_TB1TFL_acq-anat.nii.gz" = Some OtherFile
  /\ fst (patch_file_path "sub-01_run-2_TB1TFL_acq-anat.nii.gz" tb1tfl_once)
     = Return tt
  /\ acq_dir tb1tfl_twice !! "sub-01_run-2_TB1TFL_acq-anat.nii.gz" = None
  /\ acq_dir tb1tfl_twice !! "sub-01_run-1_TB1TFL_acq-sfam.nii.gz" = Some OtherFile.
Proof. repeat split; vm_compute; reflexivity. Qed.

(** The amended C1 on a name with an echo marker, on the two DWI runs, and
    on the first run of a TB1TFL acquisition. *)
Lemma second_pass_changes_nothing_witness :
  (exists w1,
     patch_file_path "sub-01_T2starw_e2_ph.json" echo_world = (Return tt, w1)
     /\ acq_dir w1 !! BidsName.to_string (renamed "sub-01_T2starw_e2_ph.json")
        = Some (JsonFile ∅)
     /\ patch_file_path (BidsName.to_string (renamed "sub-01_T2starw_e2_ph.json")) w1
        = (Return tt, w1))
  /\ (exists w1,
     patch_file_path "sub-01_run-1_dwi.nii.gz" echo_world = (Return tt, w1)
     /\ acq_dir w1 !! BidsName.to_string (renamed "sub-01_run-1_dwi.nii.gz")
        = Some OtherFile
     /\ patch_file_path (BidsName.to_string (renamed "sub-01_run-1_dwi.nii.gz")) w1
        = (Return tt, w1))
  /\ (exists w1,
     patch_file_path "sub-01_run-2_dwi.nii.gz" echo_world = (Return tt, w1)
     /\ acq_dir w1 !! BidsName.to_string (renamed "sub-01_run-2_dwi.nii.gz")
        = Some OtherFile
     /\ patch_file_path (BidsName.to_string (renamed "sub-01_run-2_dwi.nii.gz")) w1
        = (Return tt, w1))
  /\ (exists w1,
     patch_file_path "sub-01_run-1_TB1TFL.nii.gz" first_run_world = (Return tt, w1)
     /\ acq_dir w1 !! BidsName.to_string (renamed "sub-01_run-1_TB1TFL.nii.gz")
        = Some OtherFile
     /\ patch_file_path (BidsName.to_string (renamed "sub-01_run-1_TB1TFL.nii.gz")) w1
        = (Return tt, w1)).
Proof.
  split; [|split; [|split]].
  - apply (second_pass_changes_nothing "sub-01_T2starw_e2_ph.json" echo_world
             (JsonFile ∅) (renamed "sub-01_T2starw_e2_ph.json"));
      try (vm_compute; reflexivity).
    + apply Nat.leb_le. vm_compute. reflexivity.
    + intros H. vm_compute in H. discriminate H.
  - apply (second_pass_changes_nothing "sub-01_run-1_dwi.nii.gz" echo_world
             OtherFile (renamed "sub-01_run-1_dwi.nii.gz"));
      try (vm_compute; reflexivity).
    + apply Nat.leb_le. vm_compute. reflexivity.
    + intros H. vm_compute in H. discriminate H.
  - apply (second_pass_changes_nothing "sub-01_run-2_dwi.nii.gz" echo_world
             OtherFile (renamed "sub-01_run-2_dwi.nii.gz"));
      try (vm_compute; reflexivity).
    + apply Nat.leb_le. vm_compute. reflexivity.
    + intros H. vm_compute in H. discriminate H.
  - apply (second_pass_changes_nothing "sub-01_run-1_TB1TFL.nii.gz" first_run_world
             OtherFile (renamed "sub-01_run-1_TB1TFL.nii.gz"));
      try (vm_compute; reflexivity).
    + apply Nat.leb_le. vm_compute. reflexivity.
    + intros _. right. split; vm_compute; reflexivity.
Defined.

(** Why the amended C1 asks for no [e<digit>] outside the marker: the search
    runs over the whole raw name, also over the extension, where the echo
    rule finds a marker on every pass and removes nothing. *)
Example echo_marker_in_the_extension :
  BidsName.to_string (renamed "sub-01_e2.e5") = "sub-01_echo-2.e5"
  /\ BidsName.to_string (renamed "sub-01_echo-2.e5") = "sub-01_echo-5.e5"
  /\ BidsName.to_string (renamed "sub-01_echo-5.e5") = "sub-01_echo-5.e5".
Proof. repeat split; vm_compute; reflexivity. Qed.

(** C2 on a directory where the pass deletes one entry and renames two. *)
Lemma patch_files_visits_initial_listing_witness :
  let run := patch_files float_of_int_literal {| file_paths := [] |} busy_world in
  exists listing taken r1 w1,
    NoDup listing
    /\ (forall name, name ∈ listing <-> is_Some (acq_dir busy_world !! name))
    /\ pass_run listing busy_world r1 w1
    /\ match r1 with
       | Return _ =>
           patch_json float_of_int_literal {| file_paths := [] |} w1
           = (fst run, snd run)
       | Raise e => fst run = Raise e /\ snd run = w1
       end
    /\ visited (snd run) = (visited busy_world ++ taken)%list
    /\ taken `prefix_of` listing
    /\ (fst run = Return tt -> taken = listing).
Proof.
  apply (patch_files_visits_initial_listing float_of_int_literal
           {| file_paths := [] |} busy_world).
  vm_compute. reflexivity.
Defined.

(** C3 on the bval file of an MP2RAGE acquisition. *)
Lemma mp2rage_gradient_file_deleted_witness :
  exists w',
    patch_file_path "sub-01_MP2RAGE.bval" busy_world = (Return tt, w')
    /\ acq_dir w' = delete "sub-01_MP2RAGE.bval" (acq_dir busy_world)
    /\ dicom_store w' = dicom_store busy_world
    /\ console w'
       = (console busy_world
          ++ [Info "Remove MP2RAGE bval/bvec file 'sub-01_MP2RAGE.bval'"])%list.
Proof.
  apply (mp2rage_gradient_file_deleted "sub-01_MP2RAGE.bval" busy_world OtherFile).
  - vm_compute. reflexivity.
  - vm_compute. reflexivity.
  - left. vm_compute. reflexivity.
Defined.

(** C4, as stated, fails on a run number that binary64 does not hold: the
    run 2^53 + 1 is odd, so the file gets [acq-anat], but [run / 2] is
    rounded to 2^52 before [math.ceil] sees it, and the file gets the run
    2^52 where the ceiling of the half is 2^52 + 1. *)
Lemma tb1tfl_large_run_is_rounded :
  fst (patch_file_path "sub-01_run-9007199254740993_TB1TFL.nii.gz" large_run_world)
  = Return tt
  /\ acq_dir (snd (patch_file_path "sub-01_run-9007199254740993_TB1TFL.nii.gz"
                     large_run_world))
       !! "sub-01_run-4503599627370496_TB1TFL_acq-anat.nii.gz" = Some OtherFile
  /\ size (acq_dir (snd (patch_file_path "sub-01_run-9007199254740993_TB1TFL.nii.gz"
                           large_run_world))) = 1%nat
  /\ (9007199254740993 + 1) / 2 = 4503599627370497.
Proof. repeat split; vm_compute; reflexivity. Qed.

(** The amended C4 on the third run of a TB1TFL acquisition. *)
Lemma tb1tfl_file_run_pairs_witness :
  exists n',
    rename_rules (BidsName.from_string "sub-01_run-3_TB1TFL.nii.gz") = inr n'
    /\ BidsName.has_value n' "acq" "anat" = true
    /\ BidsName.has_value n' "run" "2" = true
    /\ (fits n' -> file_patched_as "sub-01_run-3_TB1TFL.nii.gz" busy_world n').
Proof.
  assert (H : acq_dir busy_world !! "sub-01_run-3_TB1TFL.nii.gz" = Some OtherFile)
    by (vm_compute; reflexivity).
  refine (proj1 (tb1tfl_file_run_pairs "sub-01_run-3_TB1TFL.nii.gz" busy_world
                   OtherFile H _ _ _) _ _); vm_compute; reflexivity.
Defined.

(** C5 on a resting-state echo and on a motor-task echo. *)
Lemma echo_run_rule_spares_rest_witness :
  BidsName.get (renamed "sub-01_task-rest_run-2_echo-1_bold.nii.gz") "run"
  = BidsName.get (BidsName.from_string "sub-01_task-rest_run-2_echo-1_bold.nii.gz")
      "run"
  /\ BidsName.has (renamed "sub-01_task-motor_run-2_echo-1_bold.nii.gz") "run"
     = false.
Proof.
  split.
  - refine (proj2 (proj2 (echo_run_rule_spares_rest
                     (BidsName.from_string "sub-01_task-rest_run-2_echo-1_bold.nii.gz")
                     (renamed "sub-01_task-rest_run-2_echo-1_bold.nii.gz")
                     _ _ _) _ _ _ _) _); vm_compute; reflexivity.
  - refine (proj1 (proj2 (proj1 (echo_run_rule_spares_rest
                     (BidsName.from_string "sub-01_task-motor_run-2_echo-1_bold.nii.gz")
                     (renamed "sub-01_task-motor_run-2_echo-1_bold.nii.gz")
                     _ _ _) _)) _); vm_compute; reflexivity.
Defined.

(** C9, as stated, fails when an earlier rule takes the file: with the ROI1
    marker the file is deleted and nothing is raised, whatever its run. *)
Lemma tb1tfl_bad_run_file_deleted :
  BidsName.has (BidsName.from_string "sub-01_run-x_TB1TFL_ROI1.nii.gz") "TB1TFL"
  = true
  /\ BidsName.get (BidsName.from_string "sub-01_run-x_TB1TFL_ROI1.nii.gz") "run"
     = Some "x"
  /\ Py.int_of_str "x" = None
  /\ fst (patch_file_path "sub-01_run-x_TB1TFL_ROI1.nii.gz" bad_run_world)
     = Return tt
  /\ acq_dir (snd (patch_file_path "sub-01_run-x_TB1TFL_ROI1.nii.gz" bad_run_world))
     !! "sub-01_run-x_TB1TFL_ROI1.nii.gz" = None.
Proof. repeat split; vm_compute; reflexivity. Qed.

(** The amended C9 on a TB1TFL file whose run is not a number. *)
Lemma tb1tfl_bad_run_raises_witness :
  patch_file_path "sub-01_run-x_TB1TFL.nii.gz" bad_run_world
  = (Raise Py.ValueError, bad_run_world).
Proof.
  apply (tb1tfl_bad_run_raises "sub-01_run-x_TB1TFL.nii.gz" bad_run_world "x");
    try (vm_compute; reflexivity).
  discriminate.
Defined.

(** C6, as stated, fails on a series without files: [get_mt_flip_angle]
    raises there. *)
Lemma get_mt_flip_angle_raises_without_files :
  get_mt_flip_angle float_of_int_literal {| file_paths := [] |}
    (neuromelanin_world "800")
  = (Raise Py.IndexError, neuromelanin_world "800").
Proof. reflexivity. Qed.

(** The amended C6 on a CSA text whose value is not a number: one warning,
    no value. *)
Lemma get_mt_flip_angle_outcomes_witness :
  get_mt_flip_angle float_of_int_literal series (neuromelanin_world "abc")
  = (Return None,
     snd (print_warning "Expected numeric MT flip angle but found value 'abc'."
            (neuromelanin_world "abc"))).
Proof.
  assert (Hpath : head (file_paths series) = Some "/dicom/0001.dcm")
    by reflexivity.
  assert (Hfile : dicom_store (neuromelanin_world "abc") !! "/dicom/0001.dcm"
                  = Some (DicomFile {| csa_header := Some (csa_text "abc") |}))
    by (vm_compute; reflexivity).
  refine (proj1 (proj2 (proj2 (proj2
            (get_mt_flip_angle_outcomes float_of_int_literal series
               (neuromelanin_world "abc") "/dicom/0001.dcm" _ Hpath Hfile))))
            (csa_text "abc") "abc" _ _ _); vm_compute; reflexivity.
Defined.

(** C7, as stated, fails when an earlier loop of [patch_json] raises: the
    flip angle is resolved, but the part-phase sidecar is not a JSON object,
    the first loop raises, and the neuromelanin sidecar is never reached. *)
Lemma neuromelanin_sidecar_not_reached :
  resolves float_of_int_literal series broken_sidecar_world 800%float
  /\ glob_json "neuromelaninMTw" "sub-01_acq-neuromelaninMTw_T1w.json" = true
  /\ fst (patch_json float_of_int_literal series broken_sidecar_world)
     = Raise Py.JSONDecodeError
  /\ acq_dir (snd (patch_json float_of_int_literal series broken_sidecar_world))
       !! "sub-01_acq-neuromelaninMTw_T1w.json"
     = Some (JsonFile {[ "EchoTime" := JString "0.004" ]}).
Proof. repeat split; vm_compute; reflexivity. Qed.

(** The amended C7 on a neuromelanin sidecar, with the flip angle 800 in the
    series. *)
Lemma neuromelanin_sidecar_flip_angle_witness :
  exists obj',
    acq_dir (snd (patch_json float_of_int_literal series (neuromelanin_world "800")))
      !! "sub-01_acq-neuromelaninMTw_T1w.json" = Some (JsonFile obj')
    /\ (forall x,
          resolves float_of_int_literal series (neuromelanin_world "800") x ->
          fst (patch_json float_of_int_literal series (neuromelanin_world "800"))
          = Return tt ->
          obj' !! "MTFlipAngle" = Some (JFloat x))
    /\ ((forall x,
           ~ resolves float_of_int_literal series (neuromelanin_world "800") x) ->
        obj' !! "MTFlipAngle"
        = ({[ "EchoTime" := JString "0.004" ]} : gmap string json) !! "MTFlipAngle").
Proof.
  apply (neuromelanin_sidecar_flip_angle float_of_int_literal series
           (neuromelanin_world "800")); vm_compute; reflexivity.
Defined.

(** C8 on an mt-off sidecar that has an echo time and a stale [MTState]. *)
Lemma patch_json_touches_named_keys_only_witness :
  exists obj',
    acq_dir (snd (patch_json float_of_int_literal series (neuromelanin_world "800")))
      !! "sub-01_mt-off_MTR.json" = Some (JsonFile obj')
    /\ (forall key, ~ may_set "sub-01_mt-off_MTR.json" key ->
          obj' !! key
          = ({[ "EchoTime" := JString "0.004";
                "MTState" := JString "unknown" ]} : gmap string json) !! key)
    /\ (forall key,
          is_Some (({[ "EchoTime" := JString "0.004";
                       "MTState" := JString "unknown" ]} : gmap string json) !! key) ->
          is_Some (obj' !! key)).
Proof.
  apply (patch_json_touches_named_keys_only float_of_int_literal series
           (neuromelanin_world "800")
           (snd (patch_json float_of_int_literal series (neuromelanin_world "800")))
           (fst (patch_json float_of_int_literal series (neuromelanin_world "800"))));
    vm_compute; reflexivity.
Defined.

(** What the run of [patch_json] leaves in the two sidecars. *)
Example patch_json_run :
  let w' := snd (patch_json float_of_int_literal series (neuromelanin_world "800")) in
  acq_dir w' !! "sub-01_acq-neuromelaninMTw_T1w.json"
  = Some (JsonFile {[ "EchoTime" := JString "0.004";
                      "MTFlipAngle" := JFloat 800%float ]})
  /\ acq_dir w' !! "sub-01_mt-off_MTR.json"
     = Some (JsonFile {[ "EchoTime" := JString "0.004";
                         "MTState" := JBool false ]}).
Proof. split; vm_compute; reflexivity. Qed.

(** The pass over [busy_world] deletes one entry and renames two; the
    entries it has taken up are the three of the start, and the two names
    that the renames created are in the directory without having been
    taken up. The phase sidecar has got its [Units] from [patch_json]. *)
Example renamed_entries_are_not_taken_up :
  let w' := snd (patch_files float_of_int_literal {| file_paths := [] |}
                   busy_world) in
  visited w'
  = ["sub-01_MP2RAGE.bval"; "sub-01_run-3_TB1TFL.nii.gz";
     "sub-01_T2starw_e2_ph.json"]
  /\ size (acq_dir w') = 2%nat
  /\ acq_dir w' !! "sub-01_run-2_TB1TFL_acq-anat.nii.gz" = Some OtherFile
  /\ acq_dir w' !! "sub-01_T2starw_echo-2_part-phase.json"
     = Some (JsonFile {[ "Units" := JString "rad" ]}).
Proof. repeat split; vm_compute; reflexivity. Qed.

(** With two marker components in the raw name, the first pass replaces the
    first and a second pass the second. *)
Example two_echo_markers_take_two_passes :
  BidsName.to_string (rules_before_tb1tfl (BidsName.from_string "sub-01_e1_e2.nii"))
  = "sub-01_e2_echo-1.nii"
  /\ BidsName.to_string
       (rules_before_tb1tfl (BidsName.from_string "sub-01_e2_echo-1.nii"))
     = "sub-01_echo-2.nii".
Proof. split; reflexivity. Qed.


(** * Further examples *)

(** X1 on the ROI file of a TB1TFL acquisition. *)
Lemma roi_file_deleted_witness :
  exists w',
    patch_file_path "sub-01_run-x_TB1TFL_ROI1.nii.gz" bad_run_world = (Return tt, w')
    /\ acq_dir w' = delete "sub-01_run-x_TB1TFL_ROI1.nii.gz" (acq_dir bad_run_world)
    /\ dicom_store w' = dicom_store bad_run_world
    /\ console w'
       = (console bad_run_world
          ++ [Info "Remove ROI file 'sub-01_run-x_TB1TFL_ROI1.nii.gz'"])%list.
Proof.
  apply (roi_file_deleted "sub-01_run-x_TB1TFL_ROI1.nii.gz" bad_run_world
           OtherFile); vm_compute; reflexivity.
Defined.

(** X2 on the rename of a TB1TFL file, seen from the MP2RAGE entry. *)
Lemma patch_file_path_touches_two_entries_witness :
  dicom_store (snd (patch_file_path "sub-01_run-3_TB1TFL.nii.gz" busy_world))
  = dicom_store busy_world
  /\ acq_dir (snd (patch_file_path "sub-01_run-3_TB1TFL.nii.gz" busy_world))
       !! "sub-01_MP2RAGE.bval"
     = acq_dir busy_world !! "sub-01_MP2RAGE.bval".
Proof.
  apply (patch_file_path_touches_two_entries
           "sub-01_run-3_TB1TFL.nii.gz" "sub-01_MP2RAGE.bval" busy_world
           (snd (patch_file_path "sub-01_run-3_TB1TFL.nii.gz" busy_world))
           (fst (patch_file_path "sub-01_run-3_TB1TFL.nii.gz" busy_world))).
  - vm_compute. reflexivity.
  - discriminate.
  - intros n' Hn'. vm_compute in Hn'. injection Hn' as <-. vm_compute.
    discriminate.
Defined.

(** X3 on a phase sidecar whose name has 255 bytes: the new name would have
    263. *)
Lemma patch_file_path_outcomes_witness :
  exists n',
    rename_rules (BidsName.from_string long_ph_name) = inr n'
    /\ ~ fits n'
    /\ acq_dir (snd (patch_file_path long_ph_name long_name_world))
       = acq_dir long_name_world
    /\ dicom_store (snd (patch_file_path long_ph_name long_name_world))
       = dicom_store long_name_world
    /\ console (snd (patch_file_path long_ph_name long_name_world))
       = (console long_name_world
          ++ [Info ("Renaming '" ++ long_ph_name ++ "' to '"
                    ++ BidsName.to_string n' ++ "'.")])%list.
Proof.
  refine (proj1 (proj2 (proj2 (proj2
            (patch_file_path_outcomes long_ph_name long_name_world
               (snd (patch_file_path long_ph_name long_name_world))
               (JsonFile ∅)
               (fst (patch_file_path long_ph_name long_name_world)) _ _)))) _);
    vm_compute; reflexivity.
Defined.

(** X4 on a name with the marker [e2]. *)
Lemma echo_marker_replaced_witness :
  BidsName.get (renamed "sub-01_T2starw_e2_ph.json") "echo" = Some "2"
  /\ BidsName.has (renamed "sub-01_T2starw_e2_ph.json") "e2" = false.
Proof.
  apply (echo_marker_replaced (BidsName.from_string "sub-01_T2starw_e2_ph.json")
           (renamed "sub-01_T2starw_e2_ph.json") "e2" "2");
    vm_compute; reflexivity.
Defined.

(** X5 on the first run of a DWI acquisition. *)
Lemma produced_name_is_settled_witness :
  BidsName.has (renamed "sub-01_run-1_dwi.nii.gz") "ph" = false
  /\ (BidsName.has (renamed "sub-01_run-1_dwi.nii.gz") "T2starw" = true ->
      BidsName.has (renamed "sub-01_run-1_dwi.nii.gz") "echo" = true ->
      BidsName.has (renamed "sub-01_run-1_dwi.nii.gz") "part" = true)
  /\ (BidsName.has (BidsName.from_string "sub-01_run-1_dwi.nii.gz") "TB1TFL" = false ->
      (BidsName.has (renamed "sub-01_run-1_dwi.nii.gz") "dwi" = true ->
       BidsName.has_value (renamed "sub-01_run-1_dwi.nii.gz") "run" "1" = false
       /\ BidsName.has_value (renamed "sub-01_run-1_dwi.nii.gz") "run" "2" = false)
      /\ (BidsName.has_value (renamed "sub-01_run-1_dwi.nii.gz") "acq" "mtw" = true ->
          BidsName.has (renamed "sub-01_run-1_dwi.nii.gz") "run" = false)
      /\ (BidsName.has (renamed "sub-01_run-1_dwi.nii.gz") "echo" = true ->
          BidsName.has (renamed "sub-01_run-1_dwi.nii.gz") "run" = true ->
          BidsName.has_value (renamed "sub-01_run-1_dwi.nii.gz") "task" "rest" = true)).
Proof.
  apply (produced_name_is_settled (BidsName.from_string "sub-01_run-1_dwi.nii.gz")
           (renamed "sub-01_run-1_dwi.nii.gz")).
  vm_compute. reflexivity.
Defined.

(** X6 on an ASPIRE [T2starw] file with a run. *)
Lemma aspire_t2starw_becomes_map_witness :
  let n := BidsName.from_string "sub-01_acq-aspire_run-1_T2starw.nii.gz" in
  let h := rules_before_tb1tfl n in
  h = BidsName.add (BidsName.remove (BidsName.remove n "run") "T2starw")
        "T2starmap" None
  /\ BidsName.has h "T2starmap" = true
  /\ BidsName.has h "T2starw" = false
  /\ BidsName.has h "run" = false.
Proof.
  apply (aspire_t2starw_becomes_map
           (BidsName.from_string "sub-01_acq-aspire_run-1_T2starw.nii.gz"));
    vm_compute; reflexivity.
Defined.

(** X7 on a [T2starw] name with the marker [e2]. *)
Lemma t2starw_with_echo_keeps_its_suffix_witness :
  BidsName.has (renamed "sub-01_acq-aspire_T2starw_e2.nii.gz") "T2starw" = true
  /\ BidsName.has (renamed "sub-01_acq-aspire_T2starw_e2.nii.gz") "echo" = true
  /\ BidsName.has (renamed "sub-01_acq-aspire_T2starw_e2.nii.gz") "part" = true
  /\ BidsName.has (renamed "sub-01_acq-aspire_T2starw_e2.nii.gz") "T2starmap"
     = BidsName.has (BidsName.from_string "sub-01_acq-aspire_T2starw_e2.nii.gz")
         "T2starmap".
Proof.
  apply (t2starw_with_echo_keeps_its_suffix
           (BidsName.from_string "sub-01_acq-aspire_T2starw_e2.nii.gz")
           (renamed "sub-01_acq-aspire_T2starw_e2.nii.gz")).
  - vm_compute. reflexivity.
  - vm_compute. reflexivity.
  - right. exists ("e2", "2"). vm_compute. reflexivity.
Defined.

(** X8 on the second run of a DWI acquisition. *)
Lemma dwi_second_run_becomes_phase_witness :
  let n := BidsName.from_string "sub-01_run-2_dwi.nii.gz" in
  let h := rules_before_tb1tfl n in
  h = BidsName.add (BidsName.remove (replace_ph n) "run") "part" (Some "phase")
  /\ BidsName.has h "run" = false
  /\ BidsName.has_value h "part" "phase" = true.
Proof.
  apply (dwi_second_run_becomes_phase
           (BidsName.from_string "sub-01_run-2_dwi.nii.gz"));
    vm_compute; reflexivity.
Defined.

(** X9 on the third and the fourth run: [acq-anat] and [acq-sfam], both
    with [run-2]. *)
Lemma tb1tfl_pairs_are_distinct_witness :
  ~ (BidsName.get (renamed "sub-01_run-3_TB1TFL.nii.gz") "acq"
     = BidsName.get (renamed "sub-01_run-4_TB1TFL.nii.gz") "acq"
     /\ BidsName.get (renamed "sub-01_run-3_TB1TFL.nii.gz") "run"
        = BidsName.get (renamed "sub-01_run-4_TB1TFL.nii.gz") "run").
Proof.
  apply (tb1tfl_pairs_are_distinct
           (BidsName.from_string "sub-01_run-3_TB1TFL.nii.gz")
           (BidsName.from_string "sub-01_run-4_TB1TFL.nii.gz")
           (renamed "sub-01_run-3_TB1TFL.nii.gz")
           (renamed "sub-01_run-4_TB1TFL.nii.gz") 3 4);
    try (vm_compute; reflexivity).
  lia.
Defined.

(** Why X9 asks that the run be kept and the numbers differ: with an echo
    the echo/run rule removes the run first, and [run-3] and [run-03] are
    the same number. *)
Example tb1tfl_names_can_collide :
  BidsName.to_string (renamed "sub-01_echo-1_run-3_TB1TFL.nii.gz")
  = BidsName.to_string (renamed "sub-01_echo-1_run-4_TB1TFL.nii.gz")
  /\ BidsName.to_string (renamed "sub-01_run-3_TB1TFL.nii.gz")
     = BidsName.to_string (renamed "sub-01_run-03_TB1TFL.nii.gz").
Proof. split; vm_compute; reflexivity. Qed.

(** X10 on the two sidecars of [neuromelanin_world]. *)
Lemma patch_json_keeps_the_entries_witness :
  dom (acq_dir (snd (patch_json float_of_int_literal series
                       (neuromelanin_world "800"))))
  = dom (acq_dir (neuromelanin_world "800"))
  /\ dicom_store (snd (patch_json float_of_int_literal series
                         (neuromelanin_world "800")))
     = dicom_store (neuromelanin_world "800")
  /\ (forall name,
        (forall obj, acq_dir (neuromelanin_world "800") !! name ≠ Some (JsonFile obj)) ->
        acq_dir (snd (patch_json float_of_int_literal series
                        (neuromelanin_world "800"))) !! name
        = acq_dir (neuromelanin_world "800") !! name).
Proof.
  apply (patch_json_keeps_the_entries float_of_int_literal series
           (neuromelanin_world "800")
           (snd (patch_json float_of_int_literal series (neuromelanin_world "800")))
           (fst (patch_json float_of_int_literal series (neuromelanin_world "800")))).
  vm_compute. reflexivity.
Defined.

(** X11 on the part-phase sidecar of [sidecar_world]. *)
Lemma part_phase_sidecar_gets_units_witness :
  exists obj',
    acq_dir (snd (patch_json float_of_int_literal series sidecar_world))
      !! "sub-01_part-phase_T2starw.json" = Some (JsonFile obj')
    /\ obj' !! "Units" = Some (JString "rad").
Proof.
  apply (part_phase_sidecar_gets_units float_of_int_literal series sidecar_world
           (snd (patch_json float_of_int_literal series sidecar_world))
           "sub-01_part-phase_T2starw.json" ∅); vm_compute; reflexivity.
Defined.

(** X12 on a sidecar that matches both patterns: the mt-on loop runs
    last. *)
Lemma mt_sidecar_gets_state_witness :
  exists obj',
    acq_dir (snd (patch_json float_of_int_literal series sidecar_world))
      !! "sub-01_mt-off_desc-mt-on_MTR.json" = Some (JsonFile obj')
    /\ obj' !! "MTState" = Some (JBool true).
Proof.
  refine (proj1 (mt_sidecar_gets_state float_of_int_literal series sidecar_world
                   (snd (patch_json float_of_int_literal series sidecar_world))
                   "sub-01_mt-off_desc-mt-on_MTR.json" ∅ _ _) _);
    vm_compute; reflexivity.
Defined.

(** X13 on a directory without a neuromelanin sidecar. *)
Lemma patch_json_reads_series_for_neuromelanin_only_witness :
  patch_json float_of_int_literal series sidecar_world
  = patch_json (fun _ => None) {| file_paths := [] |} sidecar_world.
Proof.
  apply (patch_json_reads_series_for_neuromelanin_only
           float_of_int_literal (fun _ => None) series {| file_paths := [] |}
           sidecar_world).
  apply no_entry_matches_sound. vm_compute. reflexivity.
Defined.

(** X14 on a directory with a neuromelanin sidecar. *)
Lemma patch_json_on_series_without_files_witness :
  exists w',
    patch_json float_of_int_literal {| file_paths := [] |} (neuromelanin_world "800")
    = (Raise Py.IndexError, w').
Proof.
  refine (proj1 (patch_json_on_series_without_files float_of_int_literal
                   (neuromelanin_world "800") _) _).
  - apply json_entries_checked_sound. vm_compute. reflexivity.
  - exists "sub-01_acq-neuromelaninMTw_T1w.json". split.
    + exists (JsonFile {[ "EchoTime" := JString "0.004" ]}). vm_compute. reflexivity.
    + vm_compute. reflexivity.
Defined.

(** X15 on [neuromelanin_world], whose value is not a number. *)
Lemma patch_json_returns_witness :
  exists w',
    patch_json float_of_int_literal series (neuromelanin_world "abc")
    = (Return tt, w').
Proof.
  apply (patch_json_returns float_of_int_literal series (neuromelanin_world "abc")
           "/dicom/0001.dcm" {| csa_header := Some (csa_text "abc") |}).
  - apply json_entries_checked_sound. vm_compute. reflexivity.
  - reflexivity.
  - vm_compute. reflexivity.
Defined.

(** X16 on a CSA text whose value is not a number. *)
Lemma get_mt_flip_angle_only_warns_witness :
  let run := get_mt_flip_angle float_of_int_literal series (neuromelanin_world "abc") in
  acq_dir (snd run) = acq_dir (neuromelanin_world "abc")
  /\ dicom_store (snd run) = dicom_store (neuromelanin_world "abc")
  /\ (console (snd run) = console (neuromelanin_world "abc")
      \/ exists captured,
           fst run = Return None
           /\ float_of_int_literal captured = None
           /\ console (snd run)
              = (console (neuromelanin_world "abc")
                 ++ [Warning ("Expected numeric MT flip angle but found value '"
                              ++ captured ++ "'.")])%list).
Proof.
  apply (get_mt_flip_angle_only_warns float_of_int_literal series
           (neuromelanin_world "abc")).
  vm_compute. reflexivity.
Defined.

(** X17 on two series with the same first path, in two worlds with the
    same DICOM store. *)
Lemma get_mt_flip_angle_reads_first_file_witness :
  fst (get_mt_flip_angle float_of_int_literal series (neuromelanin_world "800"))
  = fst (get_mt_flip_angle float_of_int_literal long_series
           (set_acq_dir ∅ (neuromelanin_world "800"))).
Proof.
  apply (get_mt_flip_angle_reads_first_file float_of_int_literal series
           long_series (neuromelanin_world "800")
           (set_acq_dir ∅ (neuromelanin_world "800"))).
  - reflexivity.
  - intros path _. reflexivity.
Defined.

(** X18 on the CSA text of the examples. *)
Lemma search_mt_flip_angle_sound_witness :
  "800" ≠ EmptyString
  /\ has_char "010" "800" = false
  /\ Str.contains (mt_prefix ++ "800" ++ mt_terminator) (csa_text "800") = true.
Proof.
  apply (search_mt_flip_angle_sound (csa_text "800") "800").
  vm_compute. reflexivity.
Defined.

(** X19 on a value with a decimal point. *)
Lemma search_mt_flip_angle_finds_value_witness :
  search_mt_flip_angle (mt_prefix ++ "7.5" ++ mt_terminator ++ "sWipMemBlock")
  = Some "7.5".
Proof.
  apply (search_mt_flip_angle_finds_value "7.5" "sWipMemBlock").
  - discriminate.
  - vm_compute. reflexivity.
  - vm_compute. reflexivity.
Defined.

(** X20 on the rename of a TB1TFL file. *)
Lemma patch_file_path_writes_no_file_witness :
  dicom_store (snd (patch_file_path "sub-01_run-3_TB1TFL.nii.gz" busy_world))
  = dicom_store busy_world
  /\ (size (acq_dir (snd (patch_file_path "sub-01_run-3_TB1TFL.nii.gz" busy_world)))
      <= size (acq_dir busy_world))%nat
  /\ forall other f,
       acq_dir (snd (patch_file_path "sub-01_run-3_TB1TFL.nii.gz" busy_world))
         !! other = Some f ->
       exists name0, acq_dir busy_world !! name0 = Some f.
Proof.
  apply (patch_file_path_writes_no_file "sub-01_run-3_TB1TFL.nii.gz" busy_world
           (snd (patch_file_path "sub-01_run-3_TB1TFL.nii.gz" busy_world))
           (fst (patch_file_path "sub-01_run-3_TB1TFL.nii.gz" busy_world))).
  vm_compute. reflexivity.
Defined.

(** X21 on a directory where the pass deletes one entry and renames two. *)
Lemma patch_files_never_adds_witness :
  dicom_store (snd (patch_files float_of_int_literal series busy_world))
  = dicom_store busy_world
  /\ (size (acq_dir (snd (patch_files float_of_int_literal series busy_world)))
      <= size (acq_dir busy_world))%nat.
Proof.
  apply (patch_files_never_adds float_of_int_literal series busy_world
           (snd (patch_files float_of_int_literal series busy_world))
           (fst (patch_files float_of_int_literal series busy_world))).
  vm_compute. reflexivity.
Defined.

(** X22 on a directory with a TB1TFL file whose run is not a number. *)
Lemma patch_files_rule_error_skips_sidecars_witness :
  per_file_pass bad_run_world
  = (Raise Py.ValueError,
     snd (patch_files float_of_int_literal series bad_run_world))
  /\ forall name file,
       acq_dir (snd (patch_files float_of_int_literal series bad_run_world))
         !! name = Some file ->
       exists name0, acq_dir bad_run_world !! name0 = Some file.
Proof.
  apply (patch_files_rule_error_skips_sidecars float_of_int_literal series
           bad_run_world).
  - vm_compute. reflexivity.
  - left. reflexivity.
Defined.

(** X23 on the empty directory and a series without files. *)
Lemma patch_files_on_empty_directory_witness :
  patch_files float_of_int_literal {| file_paths := [] |} (directory_of [])
  = (Return tt, directory_of []).
Proof.
  apply (patch_files_on_empty_directory float_of_int_literal
           {| file_paths := [] |} (directory_of [])).
  reflexivity.
Defined.

(** X24 on a phase sidecar with an echo marker. *)
Lemma ph_sidecar_name_matches_part_phase_witness :
  glob_json "part-phase"
    (BidsName.to_string (renamed "sub-01_T2starw_e2_ph.json")) = true.
Proof.
  apply (ph_sidecar_name_matches_part_phase
           (BidsName.from_string "sub-01_T2starw_e2_ph.json")
           (renamed "sub-01_T2starw_e2_ph.json")); vm_compute; reflexivity.
Defined.

